(** * LectureRoom: the AI-response resilience and normalisation layer

    A shallow embedding of the two copies of the Gemini service module of
    the LectureRoom application: the retry helper [retryWithBackoff], the
    delimiter based extractors inlined in the accessor functions, and the
    demo (mock) mode switch.

    - [JS]                the ECMAScript built-ins the service relies on
    - [GeminiService]     the service module without a demo mode
    - [GeminiServiceDemo] the service module with the demo mode switch
    - [Login], [App], [Onboarding], [CourseView], [Dashboard], [QuizView]
                          the handlers of the components that call the
                          service, as functions on the component state,
                          the browser storage and the world of replies

    Strings are sequences of UTF-16 code units, as ECMAScript has them:
    a code unit is a natural number below 65536, and a string may hold a
    surrogate that is not part of a pair.  Numbers that the code only
    uses as integers (retry budget, delay in milliseconds, status codes)
    are [Z]. *)

From Stdlib Require Import ZArith List Bool Lia Arith Strings.Byte.
From Equations Require Import Equations.
Import ListNotations.

(* ===================================================================== *)
(** ** Strings of UTF-16 code units *)
(* ===================================================================== *)

Module Utf16.

(** One code unit, [0 <= c < 65536]. *)
Definition codeUnit : Set := N.

Inductive string : Set :=
| EmptyString
| String (c : codeUnit) (s : string).

(** [a + b] *)
Fixpoint append (a b : string) : string :=
  match a with
  | EmptyString => b
  | String c a' => String c (append a' b)
  end.

(** [s.length] *)
Fixpoint length (s : string) : nat :=
  match s with
  | EmptyString => O
  | String _ s' => S (length s')
  end.

(** [a === b] *)
Fixpoint eqb (a b : string) : bool :=
  match a, b with
  | EmptyString, EmptyString => true
  | String c a', String d b' => (c =? d)%N && eqb a' b'
  | _, _ => false
  end.

(** [s.startsWith(p)] *)
Fixpoint prefix (p s : string) {struct s} : bool :=
  match p with
  | EmptyString => true
  | String c p' =>
      match s with
      | EmptyString => false
      | String d s' => if (c =? d)%N then prefix p' s' else false
      end
  end.

(** [s.slice(0, n)]: the first [n] code units of [s], all of [s] when
    it has fewer. *)
Fixpoint take (n : nat) (s : string) : string :=
  match n, s with
  | S n', String c s' => String c (take n' s')
  | _, _ => EmptyString
  end.

(** [ls.join(sep)] *)
Fixpoint concat (sep : string) (ls : list string) : string :=
  match ls with
  | [] => EmptyString
  | [x] => x
  | x :: xs => append x (append sep (concat sep xs))
  end.

(** String literals: each byte between the quotes is one code unit (the
    literals of this file are ASCII). *)
Fixpoint ofBytes (l : list Byte.byte) : string :=
  match l with
  | [] => EmptyString
  | b :: l' => String (Byte.to_N b) (ofBytes l')
  end.

Fixpoint toBytes (s : string) : option (list Byte.byte) :=
  match s with
  | EmptyString => Some []
  | String c s' =>
      match Byte.of_N c, toBytes s' with
      | Some b, Some l => Some (b :: l)
      | _, _ => None
      end
  end.

End Utf16.

Import Utf16.
Arguments String c%_N s.

Declare Scope utf16_scope.
Delimit Scope utf16_scope with str.
Bind Scope utf16_scope with string.
String Notation string ofBytes toBytes : utf16_scope.
Infix "++" := append (right associativity, at level 60) : utf16_scope.

Local Open Scope utf16_scope.
Local Open Scope list_scope.

(* ===================================================================== *)
(** ** ECMAScript built-ins *)
(* ===================================================================== *)

Module JS.

(** The [WhiteSpace] and [LineTerminator] code units, the set
    [String.prototype.trim] strips: U+0009-U+000D, U+0020, U+00A0,
    U+1680, U+2000-U+200A, U+2028, U+2029, U+202F, U+205F, U+3000 and
    U+FEFF. *)
Definition isWhiteSpace (c : codeUnit) : bool :=
  let n := c in
  ((9 <=? n) && (n <=? 13) || (n =? 32) || (n =? 160)
   || (n =? 5760) || (8192 <=? n) && (n <=? 8202)
   || (n =? 8232) || (n =? 8233) || (n =? 8239) || (n =? 8287)
   || (n =? 12288) || (n =? 65279))%N.

(** The regular expression class [\w]; [\W] is its complement. *)
Definition isWordChar (c : codeUnit) : bool :=
  let n := c in
  ((65 <=? n) && (n <=? 90) || (97 <=? n) && (n <=? 122)
   || (48 <=? n) && (n <=? 57) || (n =? 95))%N.

Fixpoint trimStart (s : string) : string :=
  match s with
  | EmptyString => EmptyString
  | String c s' => if isWhiteSpace c then trimStart s' else s
  end.

Fixpoint trimEnd (s : string) : string :=
  match s with
  | EmptyString => EmptyString
  | String c s' =>
      match trimEnd s' with
      | EmptyString => if isWhiteSpace c then EmptyString else String c EmptyString
      | r => String c r
      end
  end.

(** [s.trim()] *)
Definition trim (s : string) : string := trimEnd (trimStart s).

(** [s.replace(/^\W+/, '')]: the leading run of non-word code units is
    removed; a string that starts with a word character is unchanged. *)
Fixpoint stripLeadingNonWord (s : string) : string :=
  match s with
  | EmptyString => EmptyString
  | String c s' => if isWordChar c then s else stripLeadingNonWord s'
  end.

(** [s.includes(sub)] *)
Fixpoint includes (s sub : string) : bool :=
  prefix sub s ||
  match s with
  | EmptyString => false
  | String _ s' => includes s' sub
  end.

(** [s.split(sep)] for a non-empty separator: left-to-right,
    non-overlapping occurrences.  [skip] counts the code units of a
    matched separator that are still to be passed over and [acc] holds
    the current piece, last code unit first. *)
Fixpoint revString (acc s : string) : string :=
  match s with
  | EmptyString => acc
  | String c s' => revString (String c acc) s'
  end.

Fixpoint splitFrom (sep : string) (skip : nat) (acc : string) (s : string)
  : list string :=
  match s with
  | EmptyString => [revString EmptyString acc]
  | String c s' =>
      match skip with
      | S k => splitFrom sep k acc s'
      | O =>
          if prefix sep s
          then revString EmptyString acc
                 :: splitFrom sep (Utf16.length sep - 1) EmptyString s'
          else splitFrom sep 0 (String c acc) s'
      end
  end.

Definition split (s sep : string) : list string := splitFrom sep 0 EmptyString s.

(** [arr.slice(0, n)] *)
Definition slice0 {A} (n : nat) (arr : list A) : list A := firstn n arr.

(** [a || b] on strings that may be [undefined]: the empty string and
    [undefined] are falsy. *)
Definition truthy (v : option string) : bool :=
  match v with
  | Some (String _ _) => true
  | _ => false
  end.

Definition orElse (v : option string) (d : string) : string :=
  match v with
  | Some (String c s) => String c s
  | _ => d
  end.

(** Surrogates: the code units U+D800-U+DBFF (high) and U+DC00-U+DFFF
    (low).  A high surrogate followed by a low one stands for a code
    point from U+10000 on. *)
Definition isHighSurrogate (c : codeUnit) : bool :=
  ((55296 <=? c) && (c <=? 56319))%N.

Definition isLowSurrogate (c : codeUnit) : bool :=
  ((56320 <=? c) && (c <=? 57343))%N.

(** The unreserved code units of [encodeURIComponent]: letters, digits
    and [- _ . ! ~ * ' ( )]. *)
Definition isUnreserved (c : codeUnit) : bool :=
  let n := c in
  ((65 <=? n) && (n <=? 90) || (97 <=? n) && (n <=? 122)
   || (48 <=? n) && (n <=? 57)
   || (n =? 45) || (n =? 95) || (n =? 46) || (n =? 33) || (n =? 126)
   || (n =? 42) || (n =? 39) || (n =? 40) || (n =? 41))%N.

Definition hexDigit (n : N) : codeUnit :=
  if (n <? 10)%N then (48 + n)%N else (55 + n)%N.

Definition percent (byte : N) : string :=
  String 37 (String (hexDigit (byte / 16)) (String (hexDigit (byte mod 16)) EmptyString)).

(** The percent escapes of the UTF-8 bytes of the code point [cp]. *)
Definition encodeCodePoint (cp : N) : string :=
  if (cp <? 128)%N then percent cp
  else if (cp <? 2048)%N
  then percent (192 + cp / 64) ++ percent (128 + cp mod 64)
  else if (cp <? 65536)%N
  then percent (224 + cp / 4096) ++ percent (128 + (cp / 64) mod 64)
         ++ percent (128 + cp mod 64)
  else percent (240 + cp / 262144) ++ percent (128 + (cp / 4096) mod 64)
         ++ percent (128 + (cp / 64) mod 64) ++ percent (128 + cp mod 64).

(** [encodeURIComponent(s)]: the unreserved code units are kept, every
    other code point is written as the percent escapes of its UTF-8
    bytes.  A surrogate that is not part of a pair makes the built-in
    throw [URIError]: the result is then [None]. *)
Fixpoint encodeURIComponent (s : string) : option string :=
  match s with
  | EmptyString => Some EmptyString
  | String c s' =>
      if isUnreserved c then option_map (String c) (encodeURIComponent s')
      else if isHighSurrogate c then
        match s' with
        | String d s'' =>
            if isLowSurrogate d
            then option_map
                   (append (encodeCodePoint
                              (65536 + (c - 55296) * 1024 + (d - 56320))))
                   (encodeURIComponent s'')
            else None
        | EmptyString => None
        end
      else if isLowSurrogate c then None
      else option_map (append (encodeCodePoint c)) (encodeURIComponent s')
  end.

(** [s.slice(0, n)] on a string. *)
Definition sliceString0 (n : nat) (s : string) : string := take n s.

(** A value that may be [undefined], inside a template literal. *)
Definition interpolate (v : option string) : string :=
  match v with
  | Some s => s
  | None => "undefined"
  end.

(** A natural number inside a template literal. *)
Fixpoint showUint (u : Decimal.uint) : string :=
  match u with
  | Decimal.Nil => EmptyString
  | Decimal.D0 u' => String 48 (showUint u')
  | Decimal.D1 u' => String 49 (showUint u')
  | Decimal.D2 u' => String 50 (showUint u')
  | Decimal.D3 u' => String 51 (showUint u')
  | Decimal.D4 u' => String 52 (showUint u')
  | Decimal.D5 u' => String 53 (showUint u')
  | Decimal.D6 u' => String 54 (showUint u')
  | Decimal.D7 u' => String 55 (showUint u')
  | Decimal.D8 u' => String 56 (showUint u')
  | Decimal.D9 u' => String 57 (showUint u')
  end.

Definition showNat (n : nat) : string :=
  match Nat.to_uint n with
  | Decimal.Nil => "0"
  | u => showUint u
  end.

(** [s.toLowerCase()] for a string [s] whose code units are all below
    U+0100: the letters A-Z and the accented capitals U+00C0-U+00DE, the
    multiplication sign apart, move up by 32.  It stands for the built-in
    in examples only; what is proved about callers of [toLowerCase] is
    proved for every function with the properties used. *)
Definition lowerUnit (c : codeUnit) : codeUnit :=
  let n := c in
  if ((65 <=? n) && (n <=? 90)
      || (192 <=? n) && (n <=? 222) && negb (n =? 215))%N
  then (n + 32)%N else c.

Fixpoint toLowerCaseLatin1 (s : string) : string :=
  match s with
  | EmptyString => EmptyString
  | String c s' => String (lowerUnit c) (toLowerCaseLatin1 s')
  end.

(** [arr.slice(0, end)] for an integer [end]: a negative [end] counts
    from the end of the array. *)
Definition sliceTo {A} (end_ : Z) (arr : list A) : list A :=
  if (end_ <? 0)%Z
  then firstn (Z.to_nat (Z.max (Z.of_nat (List.length arr) + end_) 0)) arr
  else firstn (Z.to_nat end_) arr.

(** [arr[index] = v] on a copy of the array: an index past the end
    extends the array, the holes reading as [hole]. *)
Fixpoint assignIndex {A} (hole : A) (index : nat) (v : A) (arr : list A) : list A :=
  match index, arr with
  | O, [] => [v]
  | O, _ :: rest => v :: rest
  | S i, [] => hole :: assignIndex hole i v []
  | S i, x :: rest => x :: assignIndex hole i v rest
  end.

End JS.

(* ===================================================================== *)
(** ** Promises, errors and the observable events of the retry helper *)
(* ===================================================================== *)

(** The value caught by [catch (error: any)], as the wrapped calls throw
    it: an object with an optional numeric [status], an optional numeric
    [code] and an optional string [message].  A field that is absent (or
    the whole error being [undefined]) reads as [None]. *)
Record JsError := mkError {
  status : option Z;
  code : option Z;
  message : option string
}.

(** How an awaited promise settles. *)
Inductive Outcome (T : Type) : Type :=
| Resolved (v : T)
| Rejected (error : JsError).
Arguments Resolved {T} v.
Arguments Rejected {T} error.

(** An asynchronous zero-argument operation [() => Promise<T>] acting on a
    state [St] of its own. *)
Definition Operation (St T : Type) : Type := St -> Outcome T * St.

(** What the helpers do besides settling: invoking the wrapped operation,
    the diagnostic [console.warn] and arming a timer. *)
Inductive Event : Type :=
| Invoke
| ConsoleWarn (delay retries : Z)
| SetTimeout (ms : Z).

(** An [async] function: it settles, leaves a state and a trace. *)
Definition Async (St T : Type) : Type := St -> Outcome T * St * list Event.

Definition after {St T} (evs : list Event) (r : Outcome T * St * list Event)
  : Outcome T * St * list Event :=
  (fst r, evs ++ snd r).

Definition retAsync {St T} (v : T) : Async St T := fun s => (Resolved v, s, []).

(** An [async] function ends by returning or throwing what a synchronous
    expression gives. *)
Definition settleAsync {St T} (c : Outcome T) : Async St T := fun s => (c, s, []).

(** [const x = await m; k x] *)
Definition bindAsync {St A B} (m : Async St A) (k : A -> Async St B) : Async St B :=
  fun s =>
    match m s with
    | (Resolved v, s1, tr) => after tr (k v s1)
    | (Rejected error, s1, tr) => (Rejected error, s1, tr)
    end.

Definition invocations (tr : list Event) : nat :=
  List.length (filter (fun e => match e with Invoke => true | _ => false end) tr).

Fixpoint delays (tr : list Event) : list Z :=
  match tr with
  | [] => []
  | SetTimeout ms :: tr' => ms :: delays tr'
  | _ :: tr' => delays tr'
  end.

(** The operation monad: state passing with exceptions. *)
Definition ret {St T} (v : T) : Operation St T := fun s => (Resolved v, s).

Definition throw {St T} (error : JsError) : Operation St T :=
  fun s => (Rejected error, s).

Definition bind {St A B} (m : Operation St A) (k : A -> Operation St B)
  : Operation St B :=
  fun s =>
    match m s with
    | (Resolved v, s1) => k v s1
    | (Rejected error, s1) => (Rejected error, s1)
    end.

(** [try { body } catch (error) { handler }] *)
Definition tryCatch {St T} (body : Operation St T)
  (handler : JsError -> Operation St T) : Operation St T :=
  fun s =>
    match body s with
    | (Resolved v, s1) => (Resolved v, s1)
    | (Rejected error, s1) => handler error s1
    end.

(** A synchronous computation that may throw, run inside an operation. *)
Definition lift {St T} (c : Outcome T) : Operation St T := fun s => (c, s).

Definition bindO {A B} (c : Outcome A) (k : A -> Outcome B) : Outcome B :=
  match c with
  | Resolved v => k v
  | Rejected error => Rejected error
  end.

Declare Scope js_scope.
Delimit Scope js_scope with js.
Notation "x <- m ;; k" := (bind m (fun x => k))
  (at level 61, m at next level, right associativity) : js_scope.
Notation "m ;;; k" := (bind m (fun _ => k))
  (at level 61, right associativity) : js_scope.
Notation "'let!' x := c 'in' k" := (bindO c (fun x => k))
  (at level 61, c at next level, right associativity) : js_scope.

Definition typeError (msg : string) : JsError := mkError None None (Some msg).

(** [x.trim()] where [x] was read from an array and may be [undefined]. *)
Definition trimOf (x : option string) : Outcome string :=
  match x with
  | Some s => Resolved (JS.trim s)
  | None => Rejected (typeError "Cannot read properties of undefined (reading 'trim')")
  end.

(** The [URIError] of [encodeURIComponent]. *)
Definition uriError : JsError := mkError None None (Some "URI malformed").

(** [encodeURIComponent(s)] as an expression that may throw. *)
Definition encodeURIComponent (s : string) : Outcome string :=
  match JS.encodeURIComponent s with
  | Some encoded => Resolved encoded
  | None => Rejected uriError
  end.

(** [arr.forEach((item, index) => ...)] where the callback updates an
    array it closes over; a throwing callback ends the loop. *)
Fixpoint forEach {A Acc} (callback : A -> nat -> Acc -> Outcome Acc)
  (arr : list A) (index : nat) (acc : Acc) : Outcome Acc :=
  match arr with
  | [] => Resolved acc
  | item :: rest =>
      match callback item index acc with
      | Resolved acc' => forEach callback rest (S index) acc'
      | Rejected error => Rejected error
      end
  end.

(* ===================================================================== *)
(** ** Domain records (types.ts) and the client's response *)
(* ===================================================================== *)

Module Subject.
Record t := mk { code : string; title : string; description : string }.
End Subject.

Module Book.
Record t := mk {
  title : string; author : string; description : string;
  link : option string }.
End Book.

Module NewsItem.
Record t := mk {
  headline : string; snippet : string; date : string; link : string }.
End NewsItem.

Module Chapter.
Record t := mk { title : string; description : string; durationMinutes : Z }.
End Chapter.

Inductive Difficulty : Type := Beginner | Intermediate | Advanced.

Module CourseOutline.
Record t := mk {
  topic : string; title : string; description : string;
  difficulty : Difficulty; chapters : list Chapter.t }.
End CourseOutline.

Module QuizQuestion.
Record t := mk {
  question : string; options : list string;
  correctAnswerIndex : Z; explanation : string }.
End QuizQuestion.

Module Quiz.
Record t := mk { title : string; questions : list QuizQuestion.t }.
End Quiz.

(** The part of [GenerateContentResponse] the accessors read. *)
Record Web := { uri : option string }.
Record GroundingChunk := { web : option Web }.
Record GroundingMetadata := { groundingChunks : option (list GroundingChunk) }.
Record InlineData := { mimeType : option string; data : option string }.
Record Part := { inlineData : option InlineData }.
Record Content := { parts : option (list Part) }.
Record Candidate := {
  content : option Content;
  groundingMetadata : option GroundingMetadata
}.
Record GenerateContentResponse := {
  text : option string;
  candidates : option (list Candidate)
}.

(** [response.candidates?.[0]?.groundingMetadata?.groundingChunks || []] *)
Definition groundingChunksOf (response : GenerateContentResponse)
  : list GroundingChunk :=
  match candidates response with
  | Some (c :: _) =>
      match groundingMetadata c with
      | Some gm => match groundingChunks gm with Some l => l | None => [] end
      | None => []
      end
  | _ => []
  end.

(** [response.candidates?.[0]?.content?.parts] *)
Definition partsOf (response : GenerateContentResponse) : option (list Part) :=
  match candidates response with
  | Some (c :: _) =>
      match content c with
      | Some ct => parts ct
      | None => None
      end
  | _ => None
  end.

(** [groundingChunks[index]?.web?.uri] *)
Definition webUri (chunks : list GroundingChunk) (index : nat) : option string :=
  match nth_error chunks index with
  | Some chunk => match web chunk with Some w => uri w | None => None end
  | None => None
  end.

(** The world an accessor runs in: the current value of
    [process.env.API_KEY], the replies the remote service gives to the
    successive requests, the number of requests sent so far and the lines
    written with [console.error]. *)
Record World := mkWorld {
  processEnvApiKey : option string;
  replies : nat -> Outcome GenerateContentResponse;
  requests : nat;
  console : list (string * JsError)
}.

(** [ai.models.generateContent(...)] *)
Definition generateContent : Operation World GenerateContentResponse :=
  fun w =>
    (replies w (requests w),
     mkWorld (processEnvApiKey w) (replies w) (S (requests w)) (console w)).

(** [console.error(label, error)] *)
Definition consoleError (label : string) (error : JsError) : Operation World unit :=
  fun w =>
    (Resolved tt,
     mkWorld (processEnvApiKey w) (replies w) (requests w)
             (console w ++ [(label, error)])).

(* ===================================================================== *)
(** ** The service module without a demo mode *)
(* ===================================================================== *)

Module GeminiService.

Definition isRateLimit (error : JsError) : bool :=
  match status error with Some st => (st =? 429)%Z | None => false end
  || match code error with Some cd => (cd =? 429)%Z | None => false end
  || (JS.truthy (message error)
      && JS.includes (JS.orElse (message error) EmptyString) "429")
  || (JS.truthy (message error)
      && JS.includes (JS.orElse (message error) EmptyString) "RESOURCE_EXHAUSTED").

Equations? retryWithBackoff {St T : Type} (fn : Operation St T)
  (retries delay : Z) (s : St) : Outcome T * St * list Event
  by wf (Z.to_nat retries) lt :=
  retryWithBackoff fn retries delay s with fn s => {
    | (Resolved v, s1) => (Resolved v, s1, [Invoke]);
    | (Rejected error, s1) with Z_lt_dec 0 retries => {
        | left _ with isRateLimit error => {
            | true =>
                after [Invoke; ConsoleWarn delay retries; SetTimeout delay]
                      (retryWithBackoff fn (retries - 1) (delay * 2) s1);
            | false => (Rejected error, s1, [Invoke]) };
        | right _ => (Rejected error, s1, [Invoke]) } }.
Proof. lia. Qed.

(** The default arguments [retries = 3, delay = 2000]. *)
Definition retryWithBackoff_default {St T : Type} (fn : Operation St T)
  : Async St T :=
  retryWithBackoff fn 3 2000.

Local Open Scope js_scope.

Definition fallbackPrograms : list string :=
  ["Computer Science"; "Economics"; "Law"; "Accounting"; "Medicine";
   "Mass Communication"; "Political Science"; "Mechanical Engineering"].

(** The [programs] constant of [generateDegreePrograms]. *)
Definition programs (text : string) : list string :=
  filter (fun p => (3 <? Utf16.length p)%nat && negb (JS.includes p "List of"))
         (map JS.trim (JS.split text "|||")).

(** The line based list returned when [programs] is short. *)
Definition programLines (text : string) : list string :=
  filter (fun p => (5 <? Utf16.length p)%nat)
         (map (fun p => JS.trim (JS.stripLeadingNonWord p))
              (JS.split text (String 10 EmptyString))).

Definition generateDegreePrograms_fn (universityName : string)
  : Operation World (list string) :=
  tryCatch
    (response <- generateContent ;;
     let text := JS.orElse (text response) "" in
     if negb (JS.truthy (Some text)) then ret []
     else
       let programs := programs text in
       if (List.length programs <? 5)%nat then ret (programLines text)
       else ret programs)
    (fun error =>
       consoleError "Error generating programs:" error ;;;
       ret fallbackPrograms).

Definition generateDegreePrograms (universityName : string)
  : Async World (list string) :=
  retryWithBackoff_default (generateDegreePrograms_fn universityName).

(** The callback of [rawNews.forEach]. *)
Definition newsCallback (universityName : string)
  (groundingChunks : list GroundingChunk)
  (item : string) (index : nat) (newsItems : list NewsItem.t)
  : Outcome (list NewsItem.t) :=
  let parts := JS.split item "$$" in
  if (3 <=? List.length parts)%nat then
    let link := option_map JS.trim (nth_error parts 3) in
    let! link :=
      if negb (JS.truthy link) || (Utf16.length (JS.orElse link "") <? 5)%nat
      then
        if JS.truthy (webUri groundingChunks index)
        then Resolved (JS.orElse (webUri groundingChunks index) "")
        else
          let! query := encodeURIComponent (universityName ++ " news") in
          Resolved ("https://www.google.com/search?q=" ++ query)%str
      else Resolved (JS.orElse link "") in
    let! headline := trimOf (nth_error parts 0) in
    let! date := trimOf (nth_error parts 1) in
    let! snippet := trimOf (nth_error parts 2) in
    Resolved (newsItems ++
              [NewsItem.mk (JS.stripLeadingNonWord headline) snippet date link])
  else Resolved newsItems.

(** The statements of the [try] block of [generateUniversityNews] that
    follow the request, up to the hand-over to [slice]. *)
Definition newsItems (universityName : string)
  (response : GenerateContentResponse) : Outcome (list NewsItem.t) :=
  let text := JS.orElse (text response) "" in
  let rawNews := JS.split text "|||" in
  let groundingChunks := groundingChunksOf response in
  forEach (newsCallback universityName groundingChunks) rawNews 0 [].

Definition generateUniversityNews_fn (universityName : string)
  : Operation World (list NewsItem.t) :=
  tryCatch
    (response <- generateContent ;;
     newsItems <- lift (newsItems universityName response) ;;
     ret (JS.slice0 4 newsItems))
    (fun error =>
       consoleError "Error generating news:" error ;;;
       ret []).

Definition generateUniversityNews (universityName : string)
  : Async World (list NewsItem.t) :=
  retryWithBackoff_default (generateUniversityNews_fn universityName).

Definition fallbackSubjects : list Subject.t :=
  [Subject.mk "GST 101" "Use of English" "Communication skills in English.";
   Subject.mk "MTH 101" "General Mathematics" "Algebra and Trigonometry.";
   Subject.mk "GST 103" "Nigerian Peoples & Culture" "Study of Nigerian history.";
   Subject.mk "CSC 101" "Intro to Computer Science" "Basics of computing."].

(** The callback of [lines.forEach]. *)
Definition subjectsCallback (line : string) (index : nat)
  (subjects : list Subject.t) : Outcome (list Subject.t) :=
  if JS.includes line "|" then
    let parts := JS.split line "|" in
    if (2 <=? List.length parts)%nat then
      let! code := trimOf (nth_error parts 0) in
      let! title := trimOf (nth_error parts 1) in
      Resolved (subjects ++
                [Subject.mk code title
                   (JS.orElse (option_map JS.trim (nth_error parts 2))
                              "Core course module.")])
    else Resolved subjects
  else Resolved subjects.

Definition subjects (response : GenerateContentResponse)
  : Outcome (list Subject.t) :=
  let text := JS.orElse (text response) "" in
  let lines := JS.split text (String 10 EmptyString) in
  forEach subjectsCallback lines 0 [].

Definition generateSemesterSubjects_fn (program level universityName : string)
  : Operation World (list Subject.t) :=
  tryCatch
    (response <- generateContent ;;
     subjects <- lift (subjects response) ;;
     ret (JS.slice0 8 subjects))
    (fun error =>
       consoleError "Error generating subjects:" error ;;;
       ret fallbackSubjects).

Definition generateSemesterSubjects (program level universityName : string)
  : Async World (list Subject.t) :=
  retryWithBackoff_default
    (generateSemesterSubjects_fn program level universityName).

(** The callback of [rawBooks.forEach]. *)
Definition booksCallback (groundingChunks : list GroundingChunk)
  (rb : string) (index : nat) (books : list Book.t) : Outcome (list Book.t) :=
  let parts := JS.split rb "$$" in
  if (3 <=? List.length parts)%nat then
    let! title := trimOf (nth_error parts 0) in
    let! author := trimOf (nth_error parts 1) in
    let! description := trimOf (nth_error parts 2) in
    let! link :=
      if JS.truthy (webUri groundingChunks index)
      then Resolved (JS.orElse (webUri groundingChunks index) "")
      else
        let! query := encodeURIComponent (title ++ " book") in
        Resolved ("https://www.google.com/search?q=" ++ query)%str in
    Resolved (books ++
              [Book.mk (JS.stripLeadingNonWord title) author description
                 (Some link)])
  else Resolved books.

Definition books (response : GenerateContentResponse) : Outcome (list Book.t) :=
  let text := JS.orElse (text response) "" in
  let rawBooks := JS.split text "|||" in
  let groundingChunks := groundingChunksOf response in
  forEach (booksCallback groundingChunks) rawBooks 0 [].

Definition findBooks_fn (query : string) : Operation World (list Book.t) :=
  tryCatch
    (response <- generateContent ;;
     books <- lift (books response) ;;
     ret books)
    (fun error =>
       consoleError "Error finding books:" error ;;;
       ret []).

Definition findBooks (query : string) : Async World (list Book.t) :=
  retryWithBackoff_default (findBooks_fn query).

(** The [for] loop of [generateImage] over the parts of the response. *)
Fixpoint firstInlineImage (parts : list Part) : option string :=
  match parts with
  | [] => None
  | part :: rest =>
      match inlineData part with
      | Some d =>
          if JS.truthy (data d)
          then Some ("data:" ++ JS.interpolate (mimeType d) ++ ";base64,"
                       ++ JS.interpolate (data d))%str
          else firstInlineImage rest
      | None => firstInlineImage rest
      end
  end.

Definition generateImage_fn (prompt : string) : Operation World (option string) :=
  tryCatch
    (response <- generateContent ;;
     let parts := partsOf response in
     ret (match parts with
          | Some parts => firstInlineImage parts
          | None => None
          end))
    (fun error =>
       consoleError "Error generating image:" error ;;;
       ret None).

Definition generateImage (prompt : string) : Async World (option string) :=
  retryWithBackoff_default (generateImage_fn prompt).

Inductive Task : Type := OCR | MERGE | CONVERT.

Section Parsers.

(** [JSON.parse(response.text) as CourseOutline], [... as Quiz], and
    [JSON.parse(response.text)] followed by reading [data.books]. *)
Variable parseCourseOutline : string -> Outcome CourseOutline.t.
Variable parseQuiz : string -> Outcome Quiz.t.
Variable parseBooks : string -> Outcome (option (list Book.t)).

Definition generateCourseOutline_fn (subject userContext : string)
  : Operation World CourseOutline.t :=
  response <- generateContent ;;
  if negb (JS.truthy (text response))
  then throw (mkError None None (Some "No response from Gemini"))
  else lift (parseCourseOutline (JS.orElse (text response) "")).

Definition generateCourseOutline (subject userContext : string)
  : Async World CourseOutline.t :=
  retryWithBackoff_default (generateCourseOutline_fn subject userContext).

Definition generateChapterContent_fn (courseTitle chapterTitle : string)
  (prevContext : option string) : Operation World string :=
  response <- generateContent ;;
  if negb (JS.truthy (text response)) then ret "Failed to generate content."
  else ret (JS.orElse (text response) "").

Definition generateChapterContent (courseTitle chapterTitle : string)
  (prevContext : option string) : Async World string :=
  retryWithBackoff_default
    (generateChapterContent_fn courseTitle chapterTitle prevContext).

Definition generateBatchQuiz_fn (topic level : string) (count : Z)
  : Operation World Quiz.t :=
  response <- generateContent ;;
  if negb (JS.truthy (text response))
  then throw (mkError None None (Some "Failed to generate quiz"))
  else lift (parseQuiz (JS.orElse (text response) "")).

Definition generateBatchQuiz (topic level : string) (count : Z)
  : Async World Quiz.t :=
  retryWithBackoff_default (generateBatchQuiz_fn topic level count).

Definition generateQuiz (topic : string) : Async World Quiz.t :=
  generateBatchQuiz topic "University" 5.

Definition recommendBooks_fn (program level : string)
  : Operation World (list Book.t) :=
  tryCatch
    (response <- generateContent ;;
     if negb (JS.truthy (text response)) then ret []
     else
       data_books <- lift (parseBooks (JS.orElse (text response) "")) ;;
       ret (match data_books with Some l => l | None => [] end))
    (fun error =>
       consoleError "Error recommending books:" error ;;;
       ret []).

Definition recommendBooks (program level : string)
  : Async World (list Book.t) :=
  retryWithBackoff_default (recommendBooks_fn program level).

End Parsers.

Definition generateBookSummary_fn (title author : string) : Operation World string :=
  response <- generateContent ;;
  ret (JS.orElse (text response) "Could not generate content.").

Definition generateBookSummary (title author : string) : Async World string :=
  retryWithBackoff_default (generateBookSummary_fn title author).

Definition processDocument_fn (files : list (string * string)) (task : Task)
  : Operation World string :=
  let prompt :=
    match task with
    | OCR => "Transcribe all text contained within this document exactly."
    | MERGE => "Merge these documents into a single cohesive text."
    | CONVERT => "Convert this document content into clean Markdown format."
    end in
  tryCatch
    (response <- generateContent ;;
     ret (JS.orElse (text response) "Failed to process document."))
    (fun error =>
       consoleError "Error processing document:" error ;;;
       ret "Error processing document.").

Definition processDocument (files : list (string * string)) (task : Task)
  : Async World string :=
  retryWithBackoff_default (processDocument_fn files task).

End GeminiService.

(* ===================================================================== *)
(** ** The service module with the demo mode switch *)
(* ===================================================================== *)

Module GeminiServiceDemo.

Local Open Scope js_scope.

Definition isRateLimit (error : JsError) : bool :=
  match status error with Some st => (st =? 429)%Z | None => false end
  || match code error with Some cd => (cd =? 429)%Z | None => false end
  || (JS.truthy (message error)
      && JS.includes (JS.orElse (message error) EmptyString) "429")
  || (JS.truthy (message error)
      && JS.includes (JS.orElse (message error) EmptyString) "RESOURCE_EXHAUSTED").

Equations? retryWithBackoff {St T : Type} (fn : Operation St T)
  (retries delay : Z) (s : St) : Outcome T * St * list Event
  by wf (Z.to_nat retries) lt :=
  retryWithBackoff fn retries delay s with fn s => {
    | (Resolved v, s1) => (Resolved v, s1, [Invoke]);
    | (Rejected error, s1) with Z_lt_dec 0 retries => {
        | left _ with isRateLimit error => {
            | true =>
                after [Invoke; ConsoleWarn delay retries; SetTimeout delay]
                      (retryWithBackoff fn (retries - 1) (delay * 2) s1);
            | false => (Rejected error, s1, [Invoke]) };
        | right _ => (Rejected error, s1, [Invoke]) } }.
Proof. lia. Qed.

Definition retryWithBackoff_default {St T : Type} (fn : Operation St T)
  : Async St T :=
  retryWithBackoff fn 3 2000.

(** [mockDelay(data, ms = 1500)] *)
Definition mockDelay {T} (data : T) (ms : Z) : Async World T :=
  fun w => (Resolved data, w, [SetTimeout ms]).

Definition mockDelay_default {T} (data : T) : Async World T := mockDelay data 1500.

Definition mockPrograms : list string :=
  ["Computer Science"; "Software Engineering"; "Business Administration";
   "Economics"; "Accounting"; "Mass Communication"; "Law";
   "Medicine and Surgery"; "International Relations"; "Microbiology"].

Definition getMockSubjects : list Subject.t :=
  [Subject.mk "GST 101" "Use of English"
     "Communication skills, essay writing, and comprehension.";
   Subject.mk "MTH 101" "General Mathematics I"
     "Algebra, Trigonometry, and Coordinate Geometry.";
   Subject.mk "CSC 101" "Intro to Computer Science"
     "History of computing, binary systems, and algorithms.";
   Subject.mk "PHY 101" "General Physics I"
     "Mechanics, properties of matter, and thermal physics.";
   Subject.mk "CHM 101" "General Chemistry I"
     "Atomic structure, chemical bonding, and stoichiometry.";
   Subject.mk "GST 103" "Nigerian Peoples & Culture"
     "Study of Nigerian history, ethnic groups, and cultures."].

Definition mockNews (universityName : string) : list NewsItem.t :=
  [NewsItem.mk (universityName ++ " Announces Resumption")%str
     "The university senate has approved the resumption date for the new academic session."
     "2 days ago" "#";
   NewsItem.mk "Admission List Released"
     "The merit admission list for the 2024/2025 academic session is now available on the portal."
     "1 week ago" "#";
   NewsItem.mk "Convocation Ceremony"
     "Upcoming convocation ceremony scheduled for next month at the main auditorium."
     "3 days ago" "#";
   NewsItem.mk "Research Grant Won"
     "The Faculty of Science has secured a major international research grant."
     "Yesterday" "#"].

Definition mockBooks : list Book.t :=
  [Book.mk "Fundamentals of Modern Study" "Dr. A. B. Johnson"
     "A comprehensive guide to academic excellence." (Some "#");
   Book.mk "Principles of Economics" "N. Gregory Mankiw"
     "Standard text on micro and macroeconomics." (Some "#");
   Book.mk "Introduction to Algorithms" "T. Cormen"
     "Algorithms and data structures." (Some "#");
   Book.mk "Nigerian Legal System" "Ese Malemi"
     "Foundational text for law students." (Some "#")].

Definition modelName : string := "gemini-2.5-flash".
Definition imageModelName : string := "gemini-2.5-flash-image".

Definition getMockCourseOutline (topic : string) : CourseOutline.t :=
  CourseOutline.mk topic topic
    ("A comprehensive simulation course on " ++ topic
       ++ " designed for demonstration purposes.")%str
    Intermediate
    [Chapter.mk "Introduction and Fundamentals" "Core concepts and definitions." 45;
     Chapter.mk "Historical Context" "Evolution and history of the field." 40;
     Chapter.mk "Key Methodologies" "Standard practices and techniques." 60;
     Chapter.mk "Advanced Applications" "Real-world case studies and analysis." 55;
     Chapter.mk "Future Trends" "Emerging technologies and future outlook." 30].

Definition getMockChapterContent (title : string) : string :=
  Utf16.concat (String 10 EmptyString)
  [EmptyString;
   ("# " ++ title)%str;
   EmptyString;
   "## Overview";
   ("(Demo Mode) This is a simulated chapter content for **" ++ title ++ "**. In a live environment with a valid API key, this section would contain a detailed, AI-generated lecture tailored to your specific university curriculum.")%str;
   EmptyString;
   "## Core Concepts";
   "1. **Fundamental Principle**: Understanding the basics is crucial.";
   "2. **Analysis**: Breaking down complex problems into smaller parts.";
   "3. **Synthesis**: Combining parts to form a coherent whole.";
   EmptyString;
   "### Detailed Explanation";
   "Lorem ipsum dolor sit amet, consectetur adipiscing elit. Sed do eiusmod tempor incididunt ut labore et dolore magna aliqua. Ut enim ad minim veniam, quis nostrud exercitation ullamco laboris nisi ut aliquip ex ea commodo consequat.";
   EmptyString;
   "**Mathematical Example:**";
   "Consider the quadratic equation:";
   "$$ax^2 + bx + c = 0$$";
   EmptyString;
   "The solution is given by:";
   "$$x = \frac{-b \pm \sqrt{b^2 - 4ac}}{2a}$$";
   EmptyString;
   "## Summary";
   ("To wrap up, mastering **" ++ title ++ "** requires consistent practice and review of these simulated notes.")%str;
   EmptyString].

(** [Array.from({ length: count }).map((_, i) => ...)]: a count below 1
    gives no question. *)
Definition getMockQuiz (topic : string) (count : Z) : Quiz.t :=
  Quiz.mk ("Practice Quiz: " ++ topic)%str
    (map (fun i =>
            QuizQuestion.mk
              ("(Demo) Question " ++ JS.showNat (i + 1)
                 ++ ": What is a primary concept of " ++ topic ++ "?")%str
              ["This is a distractor option";
               "This is the correct answer";
               "Another wrong option";
               "Completely unrelated option"]
              1
              "This is the correct answer because in this demo mode, option B is always correct for testing purposes.")
         (seq 0 (Z.to_nat count))).

Module ChatResponse.
Record t := mk { text : string; functionCalls : option (list string) }.
End ChatResponse.

Definition mockChatResponse : ChatResponse.t :=
  ChatResponse.mk
    "I am operating in Demo Mode. Since no API key was detected, I cannot generate real-time AI responses. Please configure your API key in the settings or environment variables to unlock the full power of Gemini 2.5."
    None.

Module FunctionDeclaration.
Record t := mk {
  name : string; description : string;
  properties : list string; required : list string }.
End FunctionDeclaration.

Record ChatConfig := {
  systemInstruction : string;
  tools : list FunctionDeclaration.t
}.

(** A chat session: the object literal built by [createMockChat], with
    its [sendMessage] method, or the session [ai.chats.create] returns. *)
Inductive Chat : Type :=
| MockChat (sendMessage : string -> Async World ChatResponse.t)
| SdkChat (model : string) (config : ChatConfig).

Definition createMockChat : Chat :=
  MockChat (fun msg =>
    bindAsync (mockDelay tt 1000) (fun _ => retAsync mockChatResponse)).

(** The [for] loop of [generateImage] over the parts of the response. *)
Fixpoint firstInlineImage (parts : list Part) : option string :=
  match parts with
  | [] => None
  | part :: rest =>
      match inlineData part with
      | Some d =>
          if JS.truthy (data d)
          then Some ("data:" ++ JS.interpolate (mimeType d) ++ ";base64,"
                       ++ JS.interpolate (data d))%str
          else firstInlineImage rest
      | None => firstInlineImage rest
      end
  end.

Inductive Task : Type := OCR | MERGE | CONVERT.

(** The client object [new GoogleGenAI({ apiKey })]. *)
Record GoogleGenAI := { clientKey : string }.

(** [ai.models.generateContent(...)] where [ai] may be [null]. *)
Definition generateContentWith (ai : option GoogleGenAI)
  : Operation World GenerateContentResponse :=
  match ai with
  | Some _ => generateContent
  | None => throw (typeError "Cannot read properties of null (reading 'models')")
  end.

(** [ai.chats.create({ model, config })] where [ai] may be [null]. *)
Definition chatsCreate (ai : option GoogleGenAI) (model : string)
  (config : ChatConfig) : Outcome Chat :=
  match ai with
  | Some _ => Resolved (SdkChat model config)
  | None => Rejected (typeError "Cannot read properties of null (reading 'chats')")
  end.

Section Module_.

(** [const apiKey = process.env.API_KEY]: the value the environment held
    when the module was loaded. *)
Variable apiKey : option string.

(** [JSON.parse(response.text)] followed by reading [data.books]:
    it throws on malformed text, and [books] may be missing. *)
Variable parseBooks : string -> Outcome (option (list Book.t)).

(** [JSON.parse(response.text) as CourseOutline] and [... as Quiz]. *)
Variable parseCourseOutline : string -> Outcome CourseOutline.t.
Variable parseQuiz : string -> Outcome Quiz.t.

Definition isMockMode : bool :=
  negb (JS.truthy apiKey)
  || match apiKey with Some k => Utf16.eqb k "undefined" | None => false end
  || match apiKey with Some k => (Utf16.length k <? 5)%nat | None => false end.

Definition ai : option GoogleGenAI :=
  if negb isMockMode
  then Some {| clientKey := JS.orElse apiKey "" |}
  else None.

Definition isNull {A} (x : option A) : bool :=
  match x with Some _ => false | None => true end.

Definition programs (text : string) : list string :=
  filter (fun p => (3 <? Utf16.length p)%nat)
         (map JS.trim (JS.split text "|||")).

Definition generateDegreePrograms_fn (universityName : string)
  : Operation World (list string) :=
  tryCatch
    (response <- generateContentWith ai ;;
     let text := JS.orElse (text response) "" in
     if negb (JS.truthy (Some text)) then ret []
     else
       let programs := programs text in
       ret (if (0 <? List.length programs)%nat then programs else mockPrograms))
    (fun error =>
       consoleError "Error generating programs:" error ;;;
       ret mockPrograms).

Definition generateDegreePrograms (universityName : string)
  : Async World (list string) :=
  if isMockMode || isNull ai then mockDelay_default mockPrograms
  else retryWithBackoff_default (generateDegreePrograms_fn universityName).

Definition newsCallback (groundingChunks : list GroundingChunk)
  (item : string) (index : nat) (newsItems : list NewsItem.t)
  : Outcome (list NewsItem.t) :=
  let parts := JS.split item "$$" in
  if (3 <=? List.length parts)%nat then
    let link := option_map JS.trim (nth_error parts 3) in
    let link :=
      if negb (JS.truthy link) || (Utf16.length (JS.orElse link "") <? 5)%nat
      then JS.orElse (webUri groundingChunks index) "#"
      else JS.orElse link "" in
    let! headline := trimOf (nth_error parts 0) in
    let! date := trimOf (nth_error parts 1) in
    let! snippet := trimOf (nth_error parts 2) in
    Resolved (newsItems ++ [NewsItem.mk headline snippet date link])
  else Resolved newsItems.

Definition newsItems (response : GenerateContentResponse)
  : Outcome (list NewsItem.t) :=
  let text := JS.orElse (text response) "" in
  let rawNews := JS.split text "|||" in
  let groundingChunks := groundingChunksOf response in
  forEach (newsCallback groundingChunks) rawNews 0 [].

Definition generateUniversityNews_fn (universityName : string)
  : Operation World (list NewsItem.t) :=
  tryCatch
    (response <- generateContentWith ai ;;
     newsItems <- lift (newsItems response) ;;
     ret (JS.slice0 4 newsItems))
    (fun error => ret []).

Definition generateUniversityNews (universityName : string)
  : Async World (list NewsItem.t) :=
  if isMockMode || isNull ai then mockDelay_default (mockNews universityName)
  else retryWithBackoff_default (generateUniversityNews_fn universityName).

Definition subjectsCallback (line : string) (index : nat)
  (subjects : list Subject.t) : Outcome (list Subject.t) :=
  if JS.includes line "|" then
    let parts := JS.split line "|" in
    if (2 <=? List.length parts)%nat then
      let! code := trimOf (nth_error parts 0) in
      let! title := trimOf (nth_error parts 1) in
      Resolved (subjects ++
                [Subject.mk code title
                   (JS.orElse (option_map JS.trim (nth_error parts 2))
                              "Core course module.")])
    else Resolved subjects
  else Resolved subjects.

Definition subjects (response : GenerateContentResponse)
  : Outcome (list Subject.t) :=
  let text := JS.orElse (text response) "" in
  let lines := JS.split text (String 10 EmptyString) in
  forEach subjectsCallback lines 0 [].

Definition generateSemesterSubjects_fn (program level universityName : string)
  : Operation World (list Subject.t) :=
  tryCatch
    (response <- generateContentWith ai ;;
     subjects <- lift (subjects response) ;;
     ret (if (0 <? List.length subjects)%nat
          then JS.slice0 8 subjects else getMockSubjects))
    (fun error => ret getMockSubjects).

Definition generateSemesterSubjects (program level universityName : string)
  : Async World (list Subject.t) :=
  if isMockMode || isNull ai then mockDelay_default getMockSubjects
  else retryWithBackoff_default
         (generateSemesterSubjects_fn program level universityName).

Definition recommendBooks_fn (program level : string)
  : Operation World (list Book.t) :=
  tryCatch
    (response <- generateContentWith ai ;;
     if negb (JS.truthy (text response)) then ret []
     else
       data_books <- lift (parseBooks (JS.orElse (text response) "")) ;;
       ret (match data_books with Some l => l | None => [] end))
    (fun error => ret []).

Definition recommendBooks (program level : string)
  : Async World (list Book.t) :=
  if isMockMode || isNull ai then mockDelay_default mockBooks
  else retryWithBackoff_default (recommendBooks_fn program level).

Definition booksCallback (rb : string) (index : nat) (books : list Book.t)
  : Outcome (list Book.t) :=
  let parts := JS.split rb "$$" in
  if (3 <=? List.length parts)%nat then
    let! title := trimOf (nth_error parts 0) in
    let! author := trimOf (nth_error parts 1) in
    let! description := trimOf (nth_error parts 2) in
    Resolved (books ++ [Book.mk title author description (Some "#")])
  else Resolved books.

Definition books (response : GenerateContentResponse) : Outcome (list Book.t) :=
  let text := JS.orElse (text response) "" in
  let rawBooks := JS.split text "|||" in
  forEach booksCallback rawBooks 0 [].

Definition findBooks_fn (query : string) : Operation World (list Book.t) :=
  tryCatch
    (response <- generateContentWith ai ;;
     books <- lift (books response) ;;
     ret books)
    (fun error => ret []).

Definition findBooks (query : string) : Async World (list Book.t) :=
  if isMockMode || isNull ai then recommendBooks "General" "General"
  else retryWithBackoff_default (findBooks_fn query).

Definition generateImage_fn (prompt : string) : Operation World (option string) :=
  tryCatch
    (response <- generateContentWith ai ;;
     let parts := partsOf response in
     ret (match parts with
          | Some parts => firstInlineImage parts
          | None => None
          end))
    (fun error =>
       consoleError "Error generating image:" error ;;;
       ret None).

Definition generateImage (prompt : string) : Async World (option string) :=
  if isMockMode || isNull ai then
    bindAsync (mockDelay_default tt) (fun _ =>
    settleAsync
      (let! text := encodeURIComponent (JS.sliceString0 20 prompt) in
       Resolved (Some ("https://placehold.co/600x400/6366f1/ffffff?text="
                         ++ text)%str)))
  else retryWithBackoff_default (generateImage_fn prompt).

Definition generateCourseOutline_fn (subject userContext : string)
  : Operation World CourseOutline.t :=
  response <- generateContentWith ai ;;
  if negb (JS.truthy (text response))
  then throw (mkError None None (Some "No response"))
  else lift (parseCourseOutline (JS.orElse (text response) "")).

Definition generateCourseOutline (subject userContext : string)
  : Async World CourseOutline.t :=
  if isMockMode || isNull ai then mockDelay_default (getMockCourseOutline subject)
  else retryWithBackoff_default (generateCourseOutline_fn subject userContext).

Definition generateChapterContent_fn (courseTitle chapterTitle : string)
  (prevContext : option string) : Operation World string :=
  response <- generateContentWith ai ;;
  ret (JS.orElse (text response) "Failed to generate content.").

Definition generateChapterContent (courseTitle chapterTitle : string)
  (prevContext : option string) : Async World string :=
  if isMockMode || isNull ai
  then mockDelay_default (getMockChapterContent chapterTitle)
  else retryWithBackoff_default
         (generateChapterContent_fn courseTitle chapterTitle prevContext).

Definition generateBatchQuiz_fn (topic level : string) (count : Z)
  : Operation World Quiz.t :=
  response <- generateContentWith ai ;;
  if negb (JS.truthy (text response))
  then throw (mkError None None (Some "Failed to generate quiz"))
  else lift (parseQuiz (JS.orElse (text response) "")).

Definition generateBatchQuiz (topic level : string) (count : Z)
  : Async World Quiz.t :=
  if isMockMode || isNull ai then mockDelay_default (getMockQuiz topic count)
  else retryWithBackoff_default (generateBatchQuiz_fn topic level count).

Definition generateQuiz (topic : string) : Async World Quiz.t :=
  generateBatchQuiz topic "University" 5.

Definition generateBookSummary_fn (title author : string) : Operation World string :=
  response <- generateContentWith ai ;;
  ret (JS.orElse (text response) "Could not generate summary.").

Definition generateBookSummary (title author : string) : Async World string :=
  if isMockMode || isNull ai
  then mockDelay_default
         ("# Summary: " ++ title ++ String 10 (String 10 EmptyString)
            ++ "(Demo Mode) This is a placeholder summary for the book **"
            ++ title ++ "** by " ++ author ++ ".")%str
  else retryWithBackoff_default (generateBookSummary_fn title author).

Definition processDocument_fn (files : list (string * string)) (task : Task)
  : Operation World string :=
  let prompt :=
    match task with
    | OCR => "Transcribe text."
    | MERGE => "Merge text."
    | CONVERT => "Convert to markdown."
    end in
  tryCatch
    (response <- generateContentWith ai ;;
     ret (JS.orElse (text response) "Failed to process."))
    (fun error => ret "Error processing document.").

Definition processDocument (files : list (string * string)) (task : Task)
  : Async World string :=
  if isMockMode || isNull ai
  then mockDelay_default
         "(Demo Mode) Document processed successfully. Content extracted/converted."
  else retryWithBackoff_default (processDocument_fn files task).

Definition createTutorChat : Outcome Chat :=
  if isMockMode || isNull ai then Resolved createMockChat
  else chatsCreate ai modelName
         {| systemInstruction := "You are a Socratic tutor."; tools := [] |}.

Definition createDetailedTutorChat : Outcome Chat :=
  if isMockMode || isNull ai then Resolved createMockChat
  else chatsCreate ai modelName
         {| systemInstruction := "You are a detailed University Professor.";
            tools := [] |}.

Definition createGeneralChat : Outcome Chat :=
  if isMockMode || isNull ai then Resolved createMockChat
  else
    let imageTool :=
      FunctionDeclaration.mk "generate_educational_image"
        "Generates an educational image." ["prompt"] ["prompt"] in
    chatsCreate ai modelName
      {| systemInstruction := "You are a helpful assistant.";
         tools := [imageTool] |}.

End Module_.

End GeminiServiceDemo.

(* ===================================================================== *)
(** ** The callers: components that use the service *)
(* ===================================================================== *)

Module UserProfile.
Record t := mk {
  university : string; program : string; level : string;
  name : string; email : string }.
End UserProfile.

(** [localStorage]: the stored items, and whether the browser accepts a
    write ([setItem] throws when the quota is exceeded). *)
Record Storage := mkStorage {
  items : string -> option string;
  accepts : string -> string -> bool
}.

Definition getItem (key : string) (st : Storage) : option string := items st key.

Definition setItem (key value : string) (st : Storage) : Outcome Storage :=
  if accepts st key value
  then Resolved (mkStorage
         (fun k => if Utf16.eqb k key then Some value else items st k)
         (accepts st))
  else Rejected (mkError None None (Some "The quota has been exceeded."))
.

Definition removeItem (key : string) (st : Storage) : Storage :=
  mkStorage (fun k => if Utf16.eqb k key then None else items st k) (accepts st).

(** What a component does to the page besides its own state. *)
Record Browser := mkBrowser {
  localStorage : Storage;
  alerts : list string;
  consoleErrors : list string
}.

Module Login.

(** [handleSubmit]: the address [onLogin] is called with, if it is
    called at all. *)
Definition handleSubmit (email : string) : option string :=
  if JS.truthy (Some (JS.trim email)) then Some (JS.trim email) else None.

End Login.

Module App.

Inductive ViewState : Type :=
| LANDING | ONBOARDING_UNI | ONBOARDING_FLOW | LOGIN | DASHBOARD | COURSE | QUIZ.

Definition isLandingOrUni (v : ViewState) : bool :=
  match v with
  | LANDING | ONBOARDING_UNI => true
  | _ => false
  end.

(** The state of [App] that the handlers below read and write. *)
Record State := mkState {
  view : ViewState;
  userProfile : option UserProfile.t;
  courseData : option CourseOutline.t;
  isLoading : bool
}.

(** [Omit<UserProfile, 'university'>] *)
Record Details := mkDetails {
  d_program : string; d_level : string; d_name : string; d_email : string
}.

Definition userKey (email : string) : string :=
  ("gemini_academy_user_" ++ email)%str.

Definition lastUserKey : string := "gemini_academy_last_user".

Section Handlers.

(** [JSON.stringify] and [JSON.parse] on profiles. *)
Variable stringifyProfile : UserProfile.t -> string.
Variable parseProfile : string -> Outcome UserProfile.t.

(** [generateCourseOutline] of the service module in use. *)
Variable generateCourseOutline : string -> string -> Async World CourseOutline.t.

Definition handleUniSelect (uni : string) (s : State) : State :=
  mkState ONBOARDING_FLOW (Some (UserProfile.mk uni "" "" "" ""))
          (courseData s) (isLoading s).

Definition handleOnboardingComplete (details : Details) (sb : State * Browser)
  : State * Browser :=
  let (s, b) := sb in
  match userProfile s with
  | Some p =>
      let fullProfile :=
        UserProfile.mk (UserProfile.university p) (d_program details)
          (d_level details) (d_name details) (d_email details) in
      let b' :=
        match setItem (userKey (d_email details)) (stringifyProfile fullProfile)
                      (localStorage b) with
        | Resolved st1 =>
            match setItem lastUserKey (d_email details) st1 with
            | Resolved st2 => mkBrowser st2 (alerts b) (consoleErrors b)
            | Rejected _ =>
                mkBrowser st1 (alerts b)
                  (consoleErrors b ++ ["Failed to save to local storage"])
            end
        | Rejected _ =>
            mkBrowser (localStorage b) (alerts b)
              (consoleErrors b ++ ["Failed to save to local storage"])
        end in
      (mkState DASHBOARD (Some fullProfile) (courseData s) (isLoading s), b')
  | None => (s, b)
  end.

Definition handleUpdateProfile (updatedProfile : UserProfile.t)
  (sb : State * Browser) : State * Browser :=
  let (s, b) := sb in
  let s' := mkState (view s) (Some updatedProfile) (courseData s) (isLoading s) in
  match setItem (userKey (UserProfile.email updatedProfile))
                (stringifyProfile updatedProfile) (localStorage b) with
  | Resolved st1 => (s', mkBrowser st1 (alerts b) (consoleErrors b))
  | Rejected _ =>
      (s', mkBrowser (localStorage b) (alerts b)
             (consoleErrors b ++ ["Failed to update local storage"]))
  end.

Definition handleLogin (email : string) (sb : State * Browser) : State * Browser :=
  let (s, b) := sb in
  let stored := getItem (userKey email) (localStorage b) in
  if JS.truthy stored then
    match parseProfile (JS.orElse stored "") with
    | Resolved profile =>
        let s1 := mkState (view s) (Some profile) (courseData s) (isLoading s) in
        match setItem lastUserKey email (localStorage b) with
        | Resolved st1 =>
            (mkState DASHBOARD (Some profile) (courseData s) (isLoading s),
             mkBrowser st1 (alerts b) (consoleErrors b))
        | Rejected _ =>
            (s1, mkBrowser (localStorage b) (alerts b)
                   (consoleErrors b ++ ["Login failed"]))
        end
    | Rejected _ =>
        (s, mkBrowser (localStorage b) (alerts b)
              (consoleErrors b ++ ["Login failed"]))
    end
  else if negb (isLandingOrUni (view s)) then
    (s, mkBrowser (localStorage b)
          (alerts b ++ ["No account found with this email. Please register first."])
          (consoleErrors b))
  else (s, b).

(** The effect run when [App] is mounted. *)
Definition onMount (sb : State * Browser) : State * Browser :=
  let lastEmail := getItem lastUserKey (localStorage (snd sb)) in
  if JS.truthy lastEmail then handleLogin (JS.orElse lastEmail "") sb else sb.

Definition handleLogout (sb : State * Browser) : State * Browser :=
  let (s, b) := sb in
  (mkState LANDING None (courseData s) (isLoading s),
   mkBrowser (removeItem lastUserKey (localStorage b)) (alerts b) (consoleErrors b)).

Definition handleStartCourse (topic : string) (sb : State * Browser) (w : World)
  : State * Browser * World :=
  let (s, b) := sb in
  match userProfile s with
  | None => (s, b, w)
  | Some p =>
      let context :=
        ("Student: " ++ UserProfile.name p ++ ". " ++ UserProfile.level p ++ " "
           ++ UserProfile.program p ++ " at " ++ UserProfile.university p)%str in
      match generateCourseOutline topic context w with
      | (Resolved outline, w1, _) =>
          (mkState COURSE (userProfile s) (Some outline) false, b, w1)
      | (Rejected error, w1, _) =>
          (mkState (view s) (userProfile s) (courseData s) false,
           mkBrowser (localStorage b)
             (alerts b ++ ["Could not generate course. Please verify API Key or try again."])
             (consoleErrors b ++ [JS.interpolate (message error)]),
           w1)
      end
  end.

End Handlers.

(** The state [App] starts in. *)
Definition initialState : State := mkState LANDING None None false.

End App.

Module Onboarding.

Record State := mkState {
  programs : list string;
  isLoadingPrograms : bool
}.

Definition fallbackPrograms : list string :=
  ["Computer Science"; "Economics"; "Mass Communication"; "Law"; "Biochemistry"].

(** [loadPrograms], given the call [generateDegreePrograms(universityName)]
    of the service module in use. *)
Definition loadPrograms (generateDegreePrograms : Async World (list string))
  (s : State) (w : World) : State * World :=
  match generateDegreePrograms w with
  | (Resolved list, w1, _) => (mkState list false, w1)
  | (Rejected _, w1, _) => (mkState fallbackPrograms false, w1)
  end.

(** The [for] loop of [getCourseLevels], from [i] on while [i <= years]. *)
Fixpoint levelsFrom (i remaining : nat) (levels : list string) : list string :=
  match remaining with
  | O => levels
  | S n => levelsFrom (S i) n (levels ++ [(JS.showNat i ++ "00 Level")%str])
  end.

Section CaseFolding.

(** [String.prototype.toLowerCase], which follows the case tables of
    Unicode.  The wizard is modelled for any such function; the theorems
    about it say which of its properties they rest on. *)
Variable toLowerCase : string -> string.

Definition filteredPrograms (programs : list string) (programSearch : string)
  : list string :=
  filter (fun p => JS.includes (toLowerCase p) (toLowerCase programSearch))
         programs.

Definition getCourseLevels (course : string) : list string :=
  let c := toLowerCase course in
  let years :=
    if JS.includes c "medicine" || JS.includes c "surgery"
       || JS.includes c "veterinary" || JS.includes c "optometry"
       || JS.includes c "architecture"
    then 6%nat
    else if JS.includes c "engineering" || JS.includes c "law"
            || JS.includes c "pharmacy" || JS.includes c "nursing"
            || JS.includes c "agriculture" || JS.includes c "tech"
    then 5%nat
    else 4%nat in
  levelsFrom 1 years [].

End CaseFolding.

(** [handleFinalSubmit]: the details [onComplete] is called with, if it
    is called at all. *)
Definition handleFinalSubmit (selectedProgram selectedLevel name email : string)
  : option App.Details :=
  if JS.truthy (Some name) && JS.truthy (Some email)
  then Some (App.mkDetails selectedProgram selectedLevel name email)
  else None.

End Onboarding.

Module CourseView.

(** [contentCache: Record<number, string>], [isLoading] and [error]. *)
Record State := mkState {
  contentCache : nat -> option string;
  isLoading : bool;
  error : option string
}.

(** [fetchContent] for the active chapter, given the service call
    [generateChapterContent(course.title, activeChapter.title)]. *)
Definition fetchContent (generateChapterContent : Async World string)
  (activeChapterIndex : nat) (s : State) (w : World) : State * World :=
  if JS.truthy (contentCache s activeChapterIndex) then (s, w)
  else
    match generateChapterContent w with
    | (Resolved content, w1, _) =>
        (mkState
           (fun k => if Nat.eqb k activeChapterIndex then Some content
                     else contentCache s k)
           false None,
         w1)
    | (Rejected _, w1, _) =>
        (mkState (contentCache s) false
           (Some "Failed to load chapter content. Please try again."),
         w1)
    end.

End CourseView.

Module Dashboard.

Record UndoToast := mkToast { visible : bool; book : option Book.t }.

(** The library state [toggleFavorite] and [handleUndoFavorite] act on;
    [undoTimer] tells whether the timer that hides the toast is armed. *)
Record State := mkState {
  favoriteBooks : list Book.t;
  undoToast : UndoToast;
  undoTimer : bool
}.

Definition sameTitle (a b : Book.t) : bool := Utf16.eqb (Book.title a) (Book.title b).

Definition toggleFavorite (book : Book.t) (s : State) : State :=
  let exists_ := existsb (fun b => sameTitle b book) (favoriteBooks s) in
  if exists_
  then mkState (filter (fun b => negb (sameTitle b book)) (favoriteBooks s))
               (undoToast s) (undoTimer s)
  else mkState (favoriteBooks s ++ [book]) (mkToast true (Some book)) true.

Definition handleUndoFavorite (s : State) : State :=
  match book (undoToast s) with
  | Some b =>
      mkState (filter (fun x => negb (sameTitle x b)) (favoriteBooks s))
              (mkToast false None) (undoTimer s)
  | None => s
  end.

(** The timer armed by [toggleFavorite] fires. *)
Definition undoTimerFires (s : State) : State :=
  mkState (favoriteBooks s) (mkToast false None) false.

End Dashboard.

Module QuizView.

Record CustomConfig := mkConfig {
  topic : string; level : string; count : Z; durationSeconds : option Z
}.

Record State := mkState {
  quiz : option Quiz.t;
  currentQuestionIndex : nat;
  userAnswers : list (option Z);
  isAnsweredImmediate : bool;
  immediateScore : Z;
  isLoading : bool;
  isSubmitted : bool;
  isReviewMode : bool;
  timeLeft : option Z;
  endTime : option Z;
  completed : list Z
}.

Definition initialState : State :=
  mkState None 0 [] false 0 true false false None None [].

(** [!!customConfig?.durationSeconds] *)
Definition isTestMode (customConfig : option CustomConfig) : bool :=
  match customConfig with
  | Some c => match durationSeconds c with
              | Some d => negb (d =? 0)%Z
              | None => false
              end
  | None => false
  end.

Section Component.

Variable courseTitle : string.
Variable customConfig : option CustomConfig.

(** [generateBatchQuiz] and [generateQuiz] of the service module in use. *)
Variable generateBatchQuiz : string -> string -> Z -> Async World Quiz.t.
Variable generateQuiz : string -> Async World Quiz.t.

(** [fetchQuiz], run at time [now]. *)
Definition fetchQuiz (now : Z) (s : State) (w : World) : State * World :=
  let run :=
    match customConfig with
    | Some c => generateBatchQuiz (topic c) (level c) (count c) w
    | None => generateQuiz courseTitle w
    end in
  match run with
  | (Resolved data, w1, _) =>
      let questions :=
        match customConfig with
        | Some c =>
            if (count c <? Z.of_nat (List.length (Quiz.questions data)))%Z
            then JS.sliceTo (count c) (Quiz.questions data)
            else Quiz.questions data
        | None => Quiz.questions data
        end in
      let timed := isTestMode customConfig in
      let duration :=
        match customConfig with
        | Some c => durationSeconds c
        | None => None
        end in
      (mkState (Some (Quiz.mk (Quiz.title data) questions))
         (currentQuestionIndex s)
         (repeat None (List.length questions))
         (isAnsweredImmediate s) (immediateScore s)
         false (isSubmitted s) (isReviewMode s)
         (if timed then duration else timeLeft s)
         (if timed
          then option_map (fun d => (now + d * 1000)%Z) duration
          else endTime s)
         (completed s),
       w1)
  | (Rejected _, w1, _) =>
      (mkState (quiz s) (currentQuestionIndex s) (userAnswers s)
         (isAnsweredImmediate s) (immediateScore s)
         false (isSubmitted s) (isReviewMode s)
         (timeLeft s) (endTime s) (completed s),
       w1)
  end.

(** The loop of [handleFinishTest]: the answers that are the correct
    index, counted question by question. *)
Fixpoint finalScore (questions : list QuizQuestion.t) (idx : nat)
  (userAnswers : list (option Z)) : Z :=
  match questions with
  | [] => 0
  | q :: rest =>
      (match nth_error userAnswers idx with
       | Some (Some a) =>
           if (a =? QuizQuestion.correctAnswerIndex q)%Z then 1 else 0
       | _ => 0
       end + finalScore rest (S idx) userAnswers)%Z
  end.

Definition handleFinishTest (s : State) : State :=
  match quiz s with
  | None => s
  | Some q =>
      if isSubmitted s then s
      else
        mkState (quiz s) (currentQuestionIndex s) (userAnswers s)
          (isAnsweredImmediate s) (immediateScore s) (isLoading s)
          true true (timeLeft s) (endTime s)
          (completed s ++ [finalScore (Quiz.questions q) 0 (userAnswers s)])
  end.

(** [handleOptionClick]; outside test mode the score goes up when the
    chosen option is the correct one of the current question (reading a
    question past the end of the quiz throws in the source, and leaves
    the score as it is). *)
Definition handleOptionClick (optionIndex : Z) (s : State) : State :=
  if isSubmitted s || (negb (isTestMode customConfig) && isAnsweredImmediate s)
  then s
  else
    let newAnswers :=
      JS.assignIndex None (currentQuestionIndex s) (Some optionIndex)
                     (userAnswers s) in
    if isTestMode customConfig then
      mkState (quiz s) (currentQuestionIndex s) newAnswers
        (isAnsweredImmediate s) (immediateScore s) (isLoading s)
        (isSubmitted s) (isReviewMode s) (timeLeft s) (endTime s) (completed s)
    else
      let correct :=
        match quiz s with
        | Some q =>
            match nth_error (Quiz.questions q) (currentQuestionIndex s) with
            | Some question =>
                (optionIndex =? QuizQuestion.correctAnswerIndex question)%Z
            | None => false
            end
        | None => false
        end in
      mkState (quiz s) (currentQuestionIndex s) newAnswers
        true (if correct then immediateScore s + 1 else immediateScore s)%Z
        (isLoading s) (isSubmitted s) (isReviewMode s)
        (timeLeft s) (endTime s) (completed s).

Definition setIndex (i : nat) (answered : bool) (s : State) : State :=
  mkState (quiz s) i (userAnswers s) answered (immediateScore s) (isLoading s)
    (isSubmitted s) (isReviewMode s) (timeLeft s) (endTime s) (completed s).

Definition handleNext (s : State) : State :=
  match quiz s with
  | None => s
  | Some q =>
      if (Z.of_nat (currentQuestionIndex s)
            <? Z.of_nat (List.length (Quiz.questions q)) - 1)%Z
      then setIndex (S (currentQuestionIndex s))
             (if isTestMode customConfig then isAnsweredImmediate s else false) s
      else if isTestMode customConfig then s else handleFinishTest s
  end.

(** The [Previous] button. *)
Definition handlePrevious (s : State) : State :=
  setIndex (Nat.pred (currentQuestionIndex s)) (isAnsweredImmediate s) s.

Definition setReview (i : nat) (review : bool) (s : State) : State :=
  mkState (quiz s) i (userAnswers s) (isAnsweredImmediate s) (immediateScore s)
    (isLoading s) (isSubmitted s) review (timeLeft s) (endTime s) (completed s).

(** The button shown once the quiz is submitted: the next question, or
    back to the score after the last one. *)
Definition handleReviewNext (s : State) : State :=
  match quiz s with
  | None => s
  | Some q =>
      if (Z.of_nat (currentQuestionIndex s)
            <? Z.of_nat (List.length (Quiz.questions q)) - 1)%Z
      then setReview (S (currentQuestionIndex s)) (isReviewMode s) s
      else setReview (currentQuestionIndex s) false s
  end.

(** The [Review Answers] button of the result view. *)
Definition handleReviewAnswers (s : State) : State := setReview 0 true s.

(** The [Back to Score] button. *)
Definition handleBackToScore (s : State) : State :=
  setReview (currentQuestionIndex s) false s.

(** What the user can do once the quiz is loaded. *)
Inductive Action : Type :=
| OptionClick (optionIndex : Z)
| Next
| Previous
| FinishTest
| ReviewNext
| ReviewAnswers
| BackToScore.

Definition act (a : Action) (s : State) : State :=
  match a with
  | OptionClick i => handleOptionClick i s
  | Next => handleNext s
  | Previous => handlePrevious s
  | FinishTest => handleFinishTest s
  | ReviewNext => handleReviewNext s
  | ReviewAnswers => handleReviewAnswers s
  | BackToScore => handleBackToScore s
  end.

Definition actAll (actions : list Action) (s : State) : State :=
  fold_left (fun st a => act a st) actions s.

(** The body of the effect with the dependencies [isSubmitted] and
    [isTestMode]: whether it starts the countdown interval. *)
Definition timerEffect (s : State) : bool :=
  isTestMode customConfig && negb (isSubmitted s)
  && match endTime s with
     | Some t => negb (t =? 0)%Z
     | None => false
     end.

(** The mounted component: its state and whether the countdown
    interval is running. *)
Record Mounted := mkMounted { state : State; ticking : bool }.

(** After the first render the effects run in order: [fetchQuiz] is
    started and waits for the service, then the timer effect runs. *)
Definition mount : Mounted := mkMounted initialState (timerEffect initialState).

(** A later render with state [s']: for fixed props the timer effect
    runs again, after its cleanup has cleared the interval, only when
    [isSubmitted] has changed. *)
Definition render (s' : State) (m : Mounted) : Mounted :=
  mkMounted s'
    (if Bool.eqb (isSubmitted (state m)) (isSubmitted s') then ticking m
     else timerEffect s').

(** The quiz arrives at time [now], then the user acts; the component
    renders after each of these. *)
Definition session (now : Z) (w : World) (actions : list Action) : Mounted :=
  fold_left (fun m a => render (act a (state m)) m) actions
    (render (fst (fetchQuiz now (state mount) w)) mount).

End Component.

End QuizView.

(* ===================================================================== *)
(** ** Vocabulary of the properties *)
(* ===================================================================== *)

(** The state in which attempt number [k] (counted from 0) of an
    operation starts, when the first attempt starts in [s]. *)
Definition stateBefore {St T} (fn : Operation St T) (k : nat) (s : St) : St :=
  Nat.iter k (fun x => snd (fn x)) s.

(** The attempt started in [s] fails with a rate-limit error. *)
Definition rateLimitedAt {St T} (fn : Operation St T) (s : St) : Prop :=
  exists error,
    fst (fn s) = Rejected error /\ GeminiService.isRateLimit error = true.

(** [sub] occurs in [s]. *)
Definition Contains (s sub : string) : Prop :=
  exists a b, s = (a ++ sub ++ b)%str.

(** The elements of an array paired with their indices, from [i] on. *)
Fixpoint indexedFrom {A} (i : nat) (arr : list A) : list (nat * A) :=
  match arr with
  | [] => []
  | x :: rest => (i, x) :: indexedFrom (S i) rest
  end.

(** What a [forEach] callback appends for one element. *)
Definition emitted {A R} (callback : A -> nat -> list R -> Outcome (list R))
  (entry : nat * A) : list R :=
  match callback (snd entry) (fst entry) [] with
  | Resolved l => l
  | Rejected _ => []
  end.

(** A response that carries only text, and a world in which every
    request settles the same way. *)
Definition textResponse (t : string) : GenerateContentResponse :=
  {| text := Some t; candidates := None |}.

Definition constWorld (reply : Outcome GenerateContentResponse) : World :=
  mkWorld None (fun _ => reply) 0 [].

(** A world that differs only in the credential its environment holds. *)
Definition withApiKey (key : option string) (w : World) : World :=
  mkWorld key (replies w) (requests w) (console w).

(** The text an extractor works on. *)
Definition textOf (response : GenerateContentResponse) : string :=
  JS.orElse (text response) "".

(** The world once one more request has been sent, and once one more
    line has been written with [console.error]. *)
Definition sent (w : World) : World :=
  mkWorld (processEnvApiKey w) (replies w) (S (requests w)) (console w).

Definition logged (label : string) (error : JsError) (w : World) : World :=
  mkWorld (processEnvApiKey w) (replies w) (requests w)
          (console w ++ [(label, error)]).

(** The credential is unusable: absent, empty, the placeholder token or
    shorter than 5 code units. *)
Definition unusableCredential (apiKey : option string) : Prop :=
  apiKey = None \/
  exists k, apiKey = Some k /\
            (k = "" \/ k = "undefined" \/ (Utf16.length k < 5)%nat).

(** A stand-in for [JSON.parse] that finds no [books] member. *)
Definition noBooks : string -> Outcome (option (list Book.t)) :=
  fun _ => Resolved None.

(** A field is non-empty after trimming. *)
Definition nonEmptyTrimmed (field : string) : Prop := JS.trim field <> "".

(** [link] is the citation when there is a non-empty one and [synth]
    otherwise. *)
Definition substituted (citation : option string) (synth link : string) : Prop :=
  (exists u, citation = Some u /\ u <> "" /\ link = u) \/
  ((citation = None \/ citation = Some "") /\ link = synth).

(** No surrogate of [s] stands alone: every high surrogate is followed
    by a low one, and every low surrogate follows a high one. *)
Fixpoint wellFormed (s : string) : bool :=
  match s with
  | EmptyString => true
  | String c s' =>
      if JS.isHighSurrogate c then
        match s' with
        | String d s'' => JS.isLowSurrogate d && wellFormed s''
        | EmptyString => false
        end
      else negb (JS.isLowSurrogate c) && wellFormed s'
  end.

(** The search URL the service synthesises for [query], when the query
    can be encoded. *)
Definition searchUrl (query : string) : option string :=
  option_map (append "https://www.google.com/search?q=")
             (JS.encodeURIComponent query).

(** [uri || search URL of query]: the citation URI when there is a
    non-empty one, else the search URL, when that can be built. *)
Definition citedOrSearched (citation : option string) (query : string)
  : option string :=
  if JS.truthy citation then citation else searchUrl query.

(** The link of a news item: the embedded link when it has 5 code units
    or more after trimming, else the citation URI or the search URL. *)
Definition newsLink (embedded citation : option string) (query : string)
  : option string :=
  if negb (JS.truthy embedded) || (Utf16.length (JS.orElse embedded "") <? 5)%nat
  then citedOrSearched citation query
  else embedded.

(** What a [forEach] callback throws for one element, if it throws, and
    the first thing thrown over a list of elements. *)
Definition failure {A R} (callback : A -> nat -> list R -> Outcome (list R))
  (entry : nat * A) : option JsError :=
  match callback (snd entry) (fst entry) [] with
  | Resolved _ => None
  | Rejected error => Some error
  end.

Fixpoint firstFailure {A R} (callback : A -> nat -> list R -> Outcome (list R))
  (entries : list (nat * A)) : option JsError :=
  match entries with
  | [] => None
  | entry :: rest =>
      match failure callback entry with
      | Some error => Some error
      | None => firstFailure callback rest
      end
  end.

(** The two code units of U+1F9EC, written D83E DDEC in UTF-16.  Each
    of them alone is a lone surrogate. *)
Definition highSurrogate : codeUnit := 55358%N.

(** The world once [j] more requests have been sent. *)
Definition afterRequests (j : nat) (w : World) : World :=
  mkWorld (processEnvApiKey w) (replies w) (j + requests w) (console w).

(** A run that resolves after one invocation and one request, without
    arming a timer. *)
Definition resolvesInOneRequest {T} (w : World)
  (run : Outcome T * World * list Event) : Prop :=
  (exists v, fst (fst run) = Resolved v) /\
  requests (snd (fst run)) = S (requests w) /\
  snd run = [Invoke].

(** The reply to the request that is [j] requests ahead is a rate-limit
    failure. *)
Definition rateLimitedReply (w : World) (j : nat) : Prop :=
  exists error,
    replies w (j + requests w) = Rejected error /\
    GeminiService.isRateLimit error = true.

(** The first [k] terms of the doubling schedule that starts at [delay]. *)
Definition schedule (delay : Z) (k : nat) : list Z :=
  map (fun i => (delay * 2 ^ Z.of_nat i)%Z) (seq 0 k).

(** A part of a response that carries image data. *)
Definition hasImageData (p : Part) : bool :=
  match inlineData p with
  | Some d => JS.truthy (data d)
  | None => false
  end.

(** The data URL built from the inline data of a part. *)
Definition dataUrl (d : InlineData) : string :=
  ("data:" ++ JS.interpolate (mimeType d) ++ ";base64,"
     ++ JS.interpolate (data d))%str.

(** How an operation that sends one request and then only computes
    settles on a reply, [after_] being what it makes of a response. *)
Definition settledBy {T} (after_ : GenerateContentResponse -> Outcome T)
  (reply : Outcome GenerateContentResponse) : Outcome T :=
  match reply with
  | Resolved response => after_ response
  | Rejected error => Rejected error
  end.

(** An operation on a counter that fails with status 429 while the
    counter is below [k] and resolves with the counter from then on. *)
Definition failsThenResolves (k : nat) : Operation nat nat :=
  fun n =>
    if (n <? k)%nat then (Rejected (mkError (Some 429%Z) None None), S n)
    else (Resolved n, S n).

(** A world whose replies are read off a list, then stay [last]. *)
Definition scriptedWorld (script : list (Outcome GenerateContentResponse))
  (last : Outcome GenerateContentResponse) : World :=
  mkWorld None (fun i => nth i script last) 0 [].

Definition tooManyRequests : JsError := mkError (Some 429%Z) None None.

(** An operation on a counter that always fails with HTTP status [st]. *)
Definition alwaysFails (st : Z) : Operation nat unit :=
  fun n => (Rejected (mkError (Some st) None None), S n).

(** The keywords by which [getCourseLevels] tells a six-year and a
    five-year programme. *)
Definition sixYearKeywords : list string :=
  ["medicine"; "surgery"; "veterinary"; "optometry"; "architecture"].

Definition fiveYearKeywords : list string :=
  ["engineering"; "law"; "pharmacy"; "nursing"; "agriculture"; "tech"].

Definition mentions (toLowerCase : string -> string)
  (keywords : list string) (course : string) : Prop :=
  exists keyword, In keyword keywords /\ Contains (toLowerCase course) keyword.

(** The name of the level of year [k]. *)
Definition levelName (k : nat) : string := (JS.showNat k ++ "00 Level")%str.

(** A string made of white space only. *)
Fixpoint blank (s : string) : bool :=
  match s with
  | EmptyString => true
  | String c s' => JS.isWhiteSpace c && blank s'
  end.

(** A browser whose storage accepts every write. *)
Definition acceptsWrites (b : Browser) : Prop :=
  forall key value, accepts (localStorage b) key value = true.

(** A quiz view that shows a question of its quiz: the index designates
    a question, there is one answer slot per question, and the score has
    been reported exactly when the quiz is submitted, as the number of
    correct answers among the answers held. *)
Definition showsQuestion (s : QuizView.State) : Prop :=
  exists q,
    QuizView.quiz s = Some q
    /\ (QuizView.currentQuestionIndex s < List.length (Quiz.questions q))%nat
    /\ List.length (QuizView.userAnswers s) = List.length (Quiz.questions q)
    /\ QuizView.completed s
       = if QuizView.isSubmitted s
         then [QuizView.finalScore (Quiz.questions q) 0 (QuizView.userAnswers s)]
         else [].

(* ===================================================================== *)
(** ** Strings: search and splitting *)
(* ===================================================================== *)

Lemma string_eqb_refl (s : string) : Utf16.eqb s s = true.
Proof.
  induction s as [|c s IH]; [reflexivity|].
  cbn [Utf16.eqb]. now rewrite N.eqb_refl, IH.
Qed.

Lemma string_eqb_eq (a b : string) : Utf16.eqb a b = true <-> a = b.
Proof.
  revert b. induction a as [|c a IH]; intros [|d b]; cbn [Utf16.eqb];
    try (split; [discriminate | congruence]); [now split|].
  rewrite andb_true_iff, N.eqb_eq, IH. split.
  - now intros [-> ->].
  - intros [= -> ->]. now split.
Qed.

Lemma string_eqb_neq (a b : string) : Utf16.eqb a b = false <-> a <> b.
Proof.
  rewrite <- string_eqb_eq. destruct (Utf16.eqb a b); split; congruence.
Qed.

Lemma string_eqb_sym (a b : string) : Utf16.eqb a b = Utf16.eqb b a.
Proof.
  destruct (Utf16.eqb a b) eqn:E; symmetry.
  - apply string_eqb_eq in E. subst. apply string_eqb_refl.
  - apply string_eqb_neq. apply string_eqb_neq in E. congruence.
Qed.

Lemma prefix_spec p s : prefix p s = true <-> exists b, s = (p ++ b)%str.
Proof.
  revert s. induction p as [|c p IH]; intros [|d s]; simpl.
  - split; [intros _; now exists EmptyString | reflexivity].
  - split; [intros _; now exists (String d s) | reflexivity].
  - split; [discriminate | intros [b Hb]; discriminate].
  - destruct (N.eqb_spec c d) as [->|Hne].
    + rewrite IH. split; intros [b Hb]; exists b; congruence.
    + split; [discriminate | intros [b Hb]; congruence].
Qed.

Lemma includes_spec s sub : JS.includes s sub = true <-> Contains s sub.
Proof.
  unfold Contains. induction s as [|c s IH]; cbn [JS.includes].
  - rewrite orb_false_r. rewrite prefix_spec. split.
    + intros [b Hb]. now exists EmptyString, b.
    + intros [a [b Hab]]. destruct a; simpl in Hab; [now exists b | discriminate].
  - rewrite orb_true_iff, prefix_spec, IH. split.
    + intros [[b Hb] | [a [b Hab]]].
      * now exists EmptyString, b.
      * exists (String c a), b. simpl. now rewrite Hab.
    + intros [a [b Hab]]. destruct a as [|c' a]; simpl in Hab.
      * left. now exists b.
      * right. exists a, b. congruence.
Qed.

Lemma revString_app acc s t :
  (JS.revString acc s ++ t)%str = JS.revString (acc ++ t)%str s.
Proof.
  revert acc. induction s as [|c s IH]; intros acc; simpl; [reflexivity|].
  now rewrite IH.
Qed.

Lemma splitFrom_nonempty sep s : forall skip acc, JS.splitFrom sep skip acc s <> [].
Proof.
  induction s as [|c s IH]; intros skip acc; cbn [JS.splitFrom]; [discriminate|].
  destruct skip; [|apply IH].
  destruct (prefix sep (String c s)); [discriminate | apply IH].
Qed.

Lemma splitFrom_skip sep t : forall acc s,
  JS.splitFrom sep (Utf16.length t) acc (t ++ s)%str = JS.splitFrom sep 0 acc s.
Proof.
  induction t as [|c t IH]; intros acc s; simpl; [reflexivity | apply IH].
Qed.

Lemma concat_cons sep x l :
  l <> [] -> Utf16.concat sep (x :: l) = (x ++ sep ++ Utf16.concat sep l)%str.
Proof. destruct l; [congruence | reflexivity]. Qed.

Lemma string_app_length (a b : string) :
  Utf16.length (a ++ b)%str = (Utf16.length a + Utf16.length b)%nat.
Proof. induction a; simpl; [reflexivity | now rewrite IHa]. Qed.

(** Joining the pieces of a split with the separator gives the text back. *)
Lemma split_join sep s :
  sep <> EmptyString -> Utf16.concat sep (JS.split s sep) = s.
Proof.
  intros Hsep. unfold JS.split.
  destruct sep as [|c0 sep']; [congruence|]. clear Hsep.
  assert (H : forall n s acc, (Utf16.length s <= n)%nat ->
    Utf16.concat (String c0 sep') (JS.splitFrom (String c0 sep') 0 acc s)
    = (JS.revString EmptyString acc ++ s)%str).
  { induction n as [|n IH]; intros [|c t] acc Hlen; simpl in Hlen; try lia.
    - simpl. induction (JS.revString EmptyString acc); simpl; congruence.
    - simpl. induction (JS.revString EmptyString acc); simpl; congruence.
    - cbn [JS.splitFrom].
      destruct (prefix (String c0 sep') (String c t)) eqn:Hp.
      + apply prefix_spec in Hp. destruct Hp as [b Hb]. simpl in Hb.
        injection Hb as -> ->.
        match goal with
        | |- context [(Utf16.length (String ?a sep') - 1)%nat] =>
            replace (Utf16.length (String a sep') - 1)%nat with (Utf16.length sep')
              by (cbn [Utf16.length]; lia)
        end.
        rewrite splitFrom_skip.
        rewrite concat_cons by apply splitFrom_nonempty.
        rewrite IH by (rewrite string_app_length in Hlen; lia).
        reflexivity.
      + rewrite IH by lia.
        change (JS.revString EmptyString (String c acc))
          with (JS.revString (String c EmptyString) acc).
        now rewrite !revString_app. }
  now rewrite (H (Utf16.length s) s EmptyString (le_n _)).
Qed.

Lemma message_includes_spec (m : option string) (sub : string) :
  JS.truthy m && JS.includes (JS.orElse m EmptyString) sub = true <->
  exists t, m = Some t /\ t <> EmptyString /\ Contains t sub.
Proof.
  destruct m as [[|c t]|]; simpl JS.truthy; simpl JS.orElse.
  - split; [discriminate | intros [t [H [Hne _]]]; congruence].
  - rewrite andb_true_l, includes_spec. split.
    + intros H. exists (String c t). repeat split; [discriminate | exact H].
    + intros [t' [H [_ Hc]]]. congruence.
  - split; [discriminate | intros [t [H _]]; discriminate].
Qed.

(* ===================================================================== *)
(** ** The retry helper *)
(* ===================================================================== *)

Section RetryEquations.
Import GeminiService.
Context {St T : Type} (fn : Operation St T).

Lemma retry_resolved retries delay s v s1 :
  fn s = (Resolved v, s1) ->
  retryWithBackoff fn retries delay s = (Resolved v, s1, [Invoke]).
Proof. intros H. rewrite retryWithBackoff_equation_1, H. reflexivity. Qed.

Lemma retry_exhausted retries delay s error s1 :
  fn s = (Rejected error, s1) -> (retries <= 0)%Z ->
  retryWithBackoff fn retries delay s = (Rejected error, s1, [Invoke]).
Proof.
  intros H Hr. rewrite retryWithBackoff_equation_1, H. simpl.
  destruct (Z_lt_dec 0 retries); [lia | reflexivity].
Qed.

Lemma retry_other retries delay s error s1 :
  fn s = (Rejected error, s1) -> isRateLimit error = false ->
  retryWithBackoff fn retries delay s = (Rejected error, s1, [Invoke]).
Proof.
  intros H Hr. rewrite retryWithBackoff_equation_1, H. simpl.
  destruct (Z_lt_dec 0 retries); simpl; [rewrite Hr|]; reflexivity.
Qed.

Lemma retry_again retries delay s error s1 :
  fn s = (Rejected error, s1) -> (0 < retries)%Z -> isRateLimit error = true ->
  retryWithBackoff fn retries delay s =
  after [Invoke; ConsoleWarn delay retries; SetTimeout delay]
        (retryWithBackoff fn (retries - 1) (delay * 2) s1).
Proof.
  intros H Hr He. rewrite retryWithBackoff_equation_1, H. simpl.
  destruct (Z_lt_dec 0 retries); [simpl; rewrite He; reflexivity | lia].
Qed.

(** One step of the helper: it either settles after a single
    invocation or goes round once more. *)
Lemma retry_step retries delay s :
  retryWithBackoff fn retries delay s = (fn s, [Invoke]) \/
  (0 < retries)%Z /\
  retryWithBackoff fn retries delay s =
  after [Invoke; ConsoleWarn delay retries; SetTimeout delay]
        (retryWithBackoff fn (retries - 1) (delay * 2) (snd (fn s))).
Proof.
  destruct (fn s) as [[v|error] s1] eqn:E.
  - left. now apply retry_resolved.
  - destruct (Z_lt_dec 0 retries) as [Hr|Hr].
    + destruct (isRateLimit error) eqn:He.
      * right. split; [exact Hr | simpl; now apply retry_again with (error := error)].
      * left. now apply retry_other.
    + left. apply retry_exhausted; [exact E | lia].
Qed.

End RetryEquations.

Lemma stateBefore_succ {St T} (fn : Operation St T) k s :
  stateBefore fn (S k) s = stateBefore fn k (snd (fn s)).
Proof. unfold stateBefore. apply Nat.iter_succ_r. Qed.

Lemma retry_all_rate_limited {St T} (fn : Operation St T) (n : nat) :
  forall (retries delay : Z) (s : St),
    Z.to_nat retries = n ->
    (forall k, (k <= n)%nat -> rateLimitedAt fn (stateBefore fn k s)) ->
    let run := GeminiService.retryWithBackoff fn retries delay s in
    fst run = fn (stateBefore fn n s) /\
    invocations (snd run) = (n + 1)%nat /\
    delays (snd run) = map (fun k => (delay * 2 ^ Z.of_nat k)%Z) (seq 0 n).
Proof.
  induction n as [|n IH]; intros retries delay s Hn Hall; cbv zeta.
  - destruct (Hall 0%nat (le_n _)) as [error [Hfn Herr]].
    unfold stateBefore in *. simpl in *.
    destruct (fn s) as [o s1] eqn:E. simpl in Hfn. subst o.
    rewrite (retry_exhausted fn _ _ _ _ _ E) by lia. auto.
  - destruct (Hall 0%nat (Nat.le_0_l _)) as [error [Hfn Herr]].
    unfold stateBefore in Hfn. simpl in Hfn.
    destruct (fn s) as [o s1] eqn:E. simpl in Hfn. subst o.
    rewrite (retry_again fn _ _ _ _ _ E) by (auto; lia).
    destruct (IH (retries - 1)%Z (delay * 2)%Z s1) as [H1 [H2 H3]].
    + lia.
    + intros k Hk. specialize (Hall (S k) ltac:(lia)).
      rewrite stateBefore_succ, E in Hall. exact Hall.
    + rewrite stateBefore_succ, E. simpl snd at 1.
      unfold after. simpl. repeat split.
      * exact H1.
      * unfold invocations in *. simpl. rewrite H2. reflexivity.
      * rewrite H3. f_equal; [lia|]. rewrite <- seq_shift, map_map.
        apply map_ext. intros k. rewrite Nat2Z.inj_succ, Z.pow_succ_r by lia. lia.
Qed.

(** Whatever the operation does, the timers armed by the helper follow
    the doubling schedule, and there are at most [retries] of them. *)
Lemma retry_delays_doubling {St T} (fn : Operation St T) (n : nat) :
  forall (retries delay : Z) (s : St) (i : nat) (d : Z),
    Z.to_nat retries = n ->
    nth_error (delays (snd (GeminiService.retryWithBackoff fn retries delay s))) i
      = Some d ->
    d = (delay * 2 ^ Z.of_nat i)%Z /\ (i < n)%nat.
Proof.
  induction n as [|n IH]; intros retries delay s i d Hn Hd;
    destruct (retry_step fn retries delay s) as [E | [Hr E]];
    rewrite E in Hd; simpl in Hd.
  - destruct i; discriminate.
  - lia.
  - destruct i; discriminate.
  - destruct i as [|i]; simpl in Hd.
    + injection Hd as <-. split; [lia | lia].
    + apply IH in Hd; [|lia]. destruct Hd as [-> Hi]. split; [|lia].
      rewrite Nat2Z.inj_succ, Z.pow_succ_r by lia. lia.
Qed.

(** The timer before retry [i + 1] is armed as soon as the first [i + 1]
    attempts fail with a rate-limit error and the budget allows it. *)
Lemma retry_delay_armed {St T} (fn : Operation St T) (i : nat) :
  forall (retries delay : Z) (s : St),
    (Z.of_nat i < retries)%Z ->
    (forall j, (j <= i)%nat -> rateLimitedAt fn (stateBefore fn j s)) ->
    nth_error (delays (snd (GeminiService.retryWithBackoff fn retries delay s))) i
      = Some (delay * 2 ^ Z.of_nat i)%Z.
Proof.
  induction i as [|i IH]; intros retries delay s Hr Hall;
    destruct (Hall 0%nat (Nat.le_0_l _)) as [error [Hfn Herr]];
    unfold stateBefore in Hfn; simpl in Hfn;
    destruct (fn s) as [o s1] eqn:E; simpl in Hfn; subst o;
    rewrite (retry_again fn _ _ _ _ _ E) by (auto; lia);
    unfold after; cbn [snd fst app delays nth_error].
  - f_equal. change (Z.of_nat 0) with 0%Z. rewrite Z.pow_0_r. lia.
  - rewrite IH.
    + f_equal. rewrite Nat2Z.inj_succ, Z.pow_succ_r by lia. lia.
    + lia.
    + intros j Hj. specialize (Hall (S j) ltac:(lia)).
      rewrite stateBefore_succ, E in Hall. exact Hall.
Qed.

(** C1: an operation that fails with a rate-limit error on every attempt
    is invoked exactly [r + 1] times for a retry budget [r >= 0], and the
    helper then settles as the last attempt did: it re-throws that
    attempt's failure and leaves that attempt's state. *)
Theorem retryWithBackoff_exhausts_budget {St T} (fn : Operation St T)
  (r delay : Z) (s : St) :
  (0 <= r)%Z ->
  (forall k, (k <= Z.to_nat r)%nat -> rateLimitedAt fn (stateBefore fn k s)) ->
  let run := GeminiService.retryWithBackoff fn r delay s in
  Z.of_nat (invocations (snd run)) = (r + 1)%Z /\
  fst run = fn (stateBefore fn (Z.to_nat r) s) /\
  exists error, fst (fst run) = Rejected error.
Proof.
  intros Hr Hall.
  destruct (retry_all_rate_limited fn (Z.to_nat r) r delay s eq_refl Hall)
    as [H1 [H2 _]].
  cbv zeta. rewrite H2, H1. repeat split; [lia|].
  destruct (Hall (Z.to_nat r) (le_n _)) as [error [He _]]. now exists error.
Qed.

Lemma retryWithBackoff_exhausts_budget_witness :
  let run := GeminiService.retryWithBackoff (alwaysFails 429) 3 2000 0%nat in
  Z.of_nat (invocations (snd run)) = 4%Z /\
  fst run = alwaysFails 429 3%nat /\
  exists error, fst (fst run) = Rejected error.
Proof.
  apply (retryWithBackoff_exhausts_budget (alwaysFails 429) 3 2000 0%nat).
  - lia.
  - intros k _. exists (mkError (Some 429%Z) None None). split; reflexivity.
Defined.

(** C2: an error is classified as rate-limited exactly when its status is
    429, or its code is 429, or its message contains "429" or
    "RESOURCE_EXHAUSTED"; an operation whose failure is not so classified
    is invoked once and its failure is re-thrown at once: no warning, no
    timer, no second attempt. *)
Theorem retryWithBackoff_classifies_and_gives_up :
  (forall error,
     GeminiService.isRateLimit error = true <->
     status error = Some 429%Z \/ code error = Some 429%Z \/
     (exists m, message error = Some m /\ Contains m "429") \/
     (exists m, message error = Some m /\ Contains m "RESOURCE_EXHAUSTED")) /\
  (forall St T (fn : Operation St T) retries delay s error s1,
     fn s = (Rejected error, s1) ->
     GeminiService.isRateLimit error = false ->
     GeminiService.retryWithBackoff fn retries delay s
       = (Rejected error, s1, [Invoke])).
Proof.
  split.
  - intros [st cd m]. unfold GeminiService.isRateLimit. simpl.
    rewrite !orb_true_iff, !message_includes_spec. split.
    + intros [[[H|H]|H]|H].
      * left. destruct st as [z|]; [|discriminate].
        apply Z.eqb_eq in H. now subst.
      * right; left. destruct cd as [z|]; [|discriminate].
        apply Z.eqb_eq in H. now subst.
      * right; right; left. destruct H as [t [? [_ ?]]]. now exists t.
      * right; right; right. destruct H as [t [? [_ ?]]]. now exists t.
    + intros [H|[H|[[t [Ht Hc]]|[t [Ht Hc]]]]].
      * left; left; left. now rewrite H.
      * left; left; right. now rewrite H.
      * left; right. exists t. repeat split; auto.
        intros ->. destruct Hc as [a [b Hab]].
        destruct a; discriminate.
      * right. exists t. repeat split; auto.
        intros ->. destruct Hc as [a [b Hab]].
        destruct a; discriminate.
  - intros St T fn retries delay s error s1 H He. now apply retry_other.
Qed.

Lemma retryWithBackoff_classifies_and_gives_up_witness :
  GeminiService.retryWithBackoff (alwaysFails 500) 3 2000 0%nat
    = (Rejected (mkError (Some 500%Z) None None), 1%nat, [Invoke]).
Proof.
  apply (proj2 retryWithBackoff_classifies_and_gives_up); reflexivity.
Defined.

(** C3: the timer armed before retry [k] (counted from 1) is set to the
    initial delay times the multiplier, which is 2, to the power [k - 1]:
    every timer the helper arms obeys this, and the timer for retry [k]
    is armed whenever the attempts before it failed with a rate-limit
    error and [k] is within the budget.  With the default arguments an
    operation that keeps failing waits 2000, 4000 and 8000 ms. *)
Theorem retryWithBackoff_delay_schedule :
  (forall St T (fn : Operation St T) retries delay s k d,
     (1 <= k)%nat ->
     nth_error (delays (snd (GeminiService.retryWithBackoff fn retries delay s)))
               (k - 1) = Some d ->
     d = (delay * 2 ^ Z.of_nat (k - 1))%Z /\ (Z.of_nat k <= retries)%Z) /\
  (forall St T (fn : Operation St T) retries delay s k,
     (1 <= k)%nat -> (Z.of_nat k <= retries)%Z ->
     (forall j, (j < k)%nat -> rateLimitedAt fn (stateBefore fn j s)) ->
     nth_error (delays (snd (GeminiService.retryWithBackoff fn retries delay s)))
               (k - 1) = Some (delay * 2 ^ Z.of_nat (k - 1))%Z) /\
  (forall St T (fn : Operation St T) s,
     (forall j, (j <= 3)%nat -> rateLimitedAt fn (stateBefore fn j s)) ->
     delays (snd (GeminiService.retryWithBackoff_default fn s))
       = [2000; 4000; 8000]%Z).
Proof.
  split; [|split].
  - intros St T fn retries delay s k d Hk Hd.
    apply (retry_delays_doubling fn (Z.to_nat retries)) in Hd; [|reflexivity].
    destruct Hd as [-> Hi]. split; [reflexivity | lia].
  - intros St T fn retries delay s k Hk Hr Hall.
    apply retry_delay_armed; [lia|].
    intros j Hj. apply Hall. lia.
  - intros St T fn s Hall. unfold GeminiService.retryWithBackoff_default.
    now destruct (retry_all_rate_limited fn 3 3 2000 s eq_refl Hall) as [_ [_ ->]].
Qed.

Lemma retryWithBackoff_delay_schedule_witness :
  delays (snd (GeminiService.retryWithBackoff_default (alwaysFails 429) 0%nat))
    = [2000; 4000; 8000]%Z.
Proof.
  apply (proj2 (proj2 retryWithBackoff_delay_schedule)).
  intros j _. exists (mkError (Some 429%Z) None None). split; reflexivity.
Defined.

(** C10: the two copies of the retry helper are extensionally equal: the
    same classification of errors, and for every operation, budget,
    initial delay and starting state the same settlement, final state and
    trace of invocations, warnings and timers. *)
Theorem retryWithBackoff_copies_agree :
  (forall error,
     GeminiService.isRateLimit error = GeminiServiceDemo.isRateLimit error) /\
  (forall St T (fn : Operation St T) retries delay s,
     GeminiService.retryWithBackoff fn retries delay s
       = GeminiServiceDemo.retryWithBackoff fn retries delay s) /\
  (forall St T (fn : Operation St T) s,
     GeminiService.retryWithBackoff_default fn s
       = GeminiServiceDemo.retryWithBackoff_default fn s).
Proof.
  assert (Hcls : forall error,
    GeminiService.isRateLimit error = GeminiServiceDemo.isRateLimit error)
    by reflexivity.
  assert (Hrun : forall St T (fn : Operation St T) n retries delay s,
    Z.to_nat retries = n ->
    GeminiService.retryWithBackoff fn retries delay s
      = GeminiServiceDemo.retryWithBackoff fn retries delay s).
  { intros St T fn n. induction n as [|n IH]; intros retries delay s Hn;
      rewrite GeminiService.retryWithBackoff_equation_1,
              GeminiServiceDemo.retryWithBackoff_equation_1;
      destruct (fn s) as [[v|error] s1]; simpl; try reflexivity;
      destruct (Z_lt_dec 0 retries) as [Hr|Hr]; simpl; try reflexivity;
      try (exfalso; lia);
      change (GeminiServiceDemo.isRateLimit error)
        with (GeminiService.isRateLimit error);
      destruct (GeminiService.isRateLimit error); simpl; try reflexivity.
    rewrite IH by lia. reflexivity. }
  split; [exact Hcls | split].
  - intros St T fn retries delay s. now apply (Hrun St T fn (Z.to_nat retries)).
  - intros St T fn s. unfold GeminiService.retryWithBackoff_default,
      GeminiServiceDemo.retryWithBackoff_default.
    now apply (Hrun St T fn 3%nat).
Qed.

(* ===================================================================== *)
(** ** The extractors, segment by segment *)
(* ===================================================================== *)

Lemma forEach_pushes {A R} (callback : A -> nat -> list R -> Outcome (list R)) :
  (forall item index acc,
     callback item index acc = Resolved (acc ++ emitted callback (index, item))) ->
  forall arr index acc,
    forEach callback arr index acc
      = Resolved (acc ++ flat_map (emitted callback) (indexedFrom index arr)).
Proof.
  intros Hcb arr. induction arr as [|item rest IH]; intros index acc; simpl.
  - now rewrite app_nil_r.
  - rewrite Hcb, IH, app_assoc. reflexivity.
Qed.

(** A callback that appends to the array or throws, whatever the array
    holds already. *)
Lemma forEach_outcome {A R} (callback : A -> nat -> list R -> Outcome (list R)) :
  (forall item index acc,
     callback item index acc
     = match callback item index [] with
       | Resolved l => Resolved (acc ++ l)
       | Rejected error => Rejected error
       end) ->
  forall arr index acc,
    forEach callback arr index acc
    = match firstFailure callback (indexedFrom index arr) with
      | Some error => Rejected error
      | None =>
          Resolved (acc ++ flat_map (emitted callback) (indexedFrom index arr))
      end.
Proof.
  intros Hcb arr. induction arr as [|item rest IH]; intros index acc;
    cbn [forEach indexedFrom firstFailure flat_map].
  - now rewrite app_nil_r.
  - rewrite Hcb. unfold failure, emitted. cbn [fst snd].
    destruct (callback item index []) as [l|error]; [|reflexivity].
    rewrite IH. destruct (firstFailure callback (indexedFrom (S index) rest));
      [reflexivity | now rewrite app_assoc].
Qed.

Lemma firstFailure_none {A R}
  (callback : A -> nat -> list R -> Outcome (list R)) (entries : list (nat * A)) :
  (forall entry, In entry entries -> failure callback entry = None) ->
  firstFailure callback entries = None.
Proof.
  induction entries as [|entry rest IH]; intros H; [reflexivity|].
  cbn [firstFailure]. rewrite (H entry (or_introl eq_refl)).
  apply IH. intros e He. apply H. now right.
Qed.

Lemma firstFailure_some {A R}
  (callback : A -> nat -> list R -> Outcome (list R)) (entries : list (nat * A))
  (error : JsError) :
  firstFailure callback entries = Some error ->
  exists entry, In entry entries /\ failure callback entry = Some error.
Proof.
  induction entries as [|entry rest IH]; [discriminate|].
  cbn [firstFailure]. destruct (failure callback entry) as [e|] eqn:E.
  - intros [= <-]. exists entry. split; [now left | exact E].
  - intros H. destruct (IH H) as [entry' [Hin He]].
    exists entry'. split; [now right | exact He].
Qed.

Lemma indexedFrom_length {A} (arr : list A) i :
  List.length (indexedFrom i arr) = List.length arr.
Proof. revert i. induction arr; intros i; simpl; [|rewrite IHarr]; reflexivity. Qed.

Lemma indexedFrom_nth {A} (arr : list A) i k :
  nth_error (indexedFrom i arr) k
    = option_map (fun x => ((i + k)%nat, x)) (nth_error arr k).
Proof.
  revert i k. induction arr as [|x rest IH]; intros i [|k]; simpl; try reflexivity.
  - now rewrite Nat.add_0_r.
  - rewrite IH. now rewrite Nat.add_succ_comm.
Qed.

(** Case analysis on the fields of a segment, as far as a callback looks
    at them. *)
Ltac fields parts :=
  destruct parts as [|?p0 [|?p1 [|?p2 [|?p3 ?rest]]]].

Ltac callback_pushes cb sep :=
  intros item index acc; unfold emitted, cb; cbn [fst snd];
  let parts := fresh "parts" in
  generalize (JS.split item sep); intros parts; fields parts;
  cbn [List.length Nat.leb nth_error trimOf bindO option_map app];
  rewrite ?app_nil_r; reflexivity.

Section Callbacks.
Variable universityName : string.
Variable groundingChunks : list GroundingChunk.

Lemma newsCallback_appends :
  forall item index acc,
    GeminiService.newsCallback universityName groundingChunks item index acc
    = match GeminiService.newsCallback universityName groundingChunks item index []
      with
      | Resolved l => Resolved (acc ++ l)
      | Rejected error => Rejected error
      end.
Proof.
  intros item index acc. unfold GeminiService.newsCallback, encodeURIComponent.
  generalize (JS.split item "$$"). intros parts. fields parts;
    cbn [List.length Nat.leb nth_error trimOf bindO option_map app];
    rewrite ?app_nil_r; try reflexivity;
    repeat match goal with
           | |- context [if ?c then _ else _] => destruct c
           | |- context [match JS.encodeURIComponent ?q with _ => _ end] =>
               destruct (JS.encodeURIComponent q)
           end; reflexivity.
Qed.

Lemma booksCallback_appends :
  forall item index acc,
    GeminiService.booksCallback groundingChunks item index acc
    = match GeminiService.booksCallback groundingChunks item index [] with
      | Resolved l => Resolved (acc ++ l)
      | Rejected error => Rejected error
      end.
Proof.
  intros item index acc. unfold GeminiService.booksCallback, encodeURIComponent.
  generalize (JS.split item "$$"). intros parts. fields parts;
    cbn [List.length Nat.leb nth_error trimOf bindO option_map app];
    rewrite ?app_nil_r; try reflexivity;
    repeat match goal with
           | |- context [if ?c then _ else _] => destruct c
           | |- context [match JS.encodeURIComponent ?q with _ => _ end] =>
               destruct (JS.encodeURIComponent q)
           end; reflexivity.
Qed.

Lemma subjectsCallback_pushes :
  forall item index acc,
    GeminiService.subjectsCallback item index acc
    = Resolved (acc ++ emitted GeminiService.subjectsCallback (index, item)).
Proof.
  intros item index acc. unfold emitted, GeminiService.subjectsCallback.
  cbn [fst snd]. destruct (JS.includes item "|"); [|now rewrite app_nil_r].
  generalize (JS.split item "|"). intros parts. fields parts;
    cbn [List.length Nat.leb nth_error trimOf bindO option_map app];
    rewrite ?app_nil_r; reflexivity.
Qed.

Lemma demo_newsCallback_pushes :
  forall item index acc,
    GeminiServiceDemo.newsCallback groundingChunks item index acc
    = Resolved (acc ++ emitted
        (GeminiServiceDemo.newsCallback groundingChunks) (index, item)).
Proof. callback_pushes GeminiServiceDemo.newsCallback "$$". Qed.

Lemma demo_booksCallback_pushes :
  forall item index acc,
    GeminiServiceDemo.booksCallback item index acc
    = Resolved (acc ++ emitted GeminiServiceDemo.booksCallback (index, item)).
Proof. callback_pushes GeminiServiceDemo.booksCallback "$$". Qed.

Lemma demo_subjectsCallback_pushes :
  forall item index acc,
    GeminiServiceDemo.subjectsCallback item index acc
    = Resolved (acc ++ emitted GeminiServiceDemo.subjectsCallback (index, item)).
Proof.
  intros item index acc. unfold emitted, GeminiServiceDemo.subjectsCallback.
  cbn [fst snd]. destruct (JS.includes item "|"); [|now rewrite app_nil_r].
  generalize (JS.split item "|"). intros parts. fields parts;
    cbn [List.length Nat.leb nth_error trimOf bindO option_map app];
    rewrite ?app_nil_r; reflexivity.
Qed.

End Callbacks.

Lemma newsItems_by_segment universityName response :
  let callback :=
    GeminiService.newsCallback universityName (groundingChunksOf response) in
  let segments := indexedFrom 0 (JS.split (textOf response) "|||") in
  GeminiService.newsItems universityName response
  = match firstFailure callback segments with
    | Some error => Rejected error
    | None => Resolved (flat_map (emitted callback) segments)
    end.
Proof.
  cbv zeta. unfold GeminiService.newsItems.
  now rewrite (forEach_outcome _ (newsCallback_appends _ _)).
Qed.

Lemma books_by_segment response :
  let callback := GeminiService.booksCallback (groundingChunksOf response) in
  let segments := indexedFrom 0 (JS.split (textOf response) "|||") in
  GeminiService.books response
  = match firstFailure callback segments with
    | Some error => Rejected error
    | None => Resolved (flat_map (emitted callback) segments)
    end.
Proof.
  cbv zeta. unfold GeminiService.books.
  now rewrite (forEach_outcome _ (booksCallback_appends _)).
Qed.

Lemma subjects_by_line response :
  GeminiService.subjects response
  = Resolved (flat_map (emitted GeminiService.subjectsCallback)
      (indexedFrom 0 (JS.split (textOf response) (String 10 EmptyString)))).
Proof.
  unfold GeminiService.subjects.
  now rewrite (forEach_pushes _ subjectsCallback_pushes).
Qed.

Lemma demo_newsItems_by_segment response :
  GeminiServiceDemo.newsItems response
  = Resolved (flat_map
      (emitted (GeminiServiceDemo.newsCallback (groundingChunksOf response)))
      (indexedFrom 0 (JS.split (textOf response) "|||"))).
Proof.
  unfold GeminiServiceDemo.newsItems.
  now rewrite (forEach_pushes _ (demo_newsCallback_pushes _)).
Qed.

Lemma demo_books_by_segment response :
  GeminiServiceDemo.books response
  = Resolved (flat_map (emitted GeminiServiceDemo.booksCallback)
      (indexedFrom 0 (JS.split (textOf response) "|||"))).
Proof.
  unfold GeminiServiceDemo.books.
  now rewrite (forEach_pushes _ demo_booksCallback_pushes).
Qed.

Lemma demo_subjects_by_line response :
  GeminiServiceDemo.subjects response
  = Resolved (flat_map (emitted GeminiServiceDemo.subjectsCallback)
      (indexedFrom 0 (JS.split (textOf response) (String 10 EmptyString)))).
Proof.
  unfold GeminiServiceDemo.subjects.
  now rewrite (forEach_pushes _ demo_subjectsCallback_pushes).
Qed.

(* ===================================================================== *)
(** ** The accessors, one request at a time *)
(* ===================================================================== *)

Lemma demo_retry_resolved {St T} (fn : Operation St T) retries delay s v s1 :
  fn s = (Resolved v, s1) ->
  GeminiServiceDemo.retryWithBackoff fn retries delay s = (Resolved v, s1, [Invoke]).
Proof.
  intros H. rewrite GeminiServiceDemo.retryWithBackoff_equation_1, H. reflexivity.
Qed.

Lemma live_mode apiKey :
  GeminiServiceDemo.isMockMode apiKey = false ->
  exists client,
    GeminiServiceDemo.ai apiKey = Some client /\
    GeminiServiceDemo.isMockMode apiKey
      || GeminiServiceDemo.isNull (GeminiServiceDemo.ai apiKey) = false.
Proof.
  intros H. unfold GeminiServiceDemo.ai. rewrite H. simpl.
  eexists. split; reflexivity.
Qed.

Ltac run_fn H :=
  unfold GeminiServiceDemo.generateContentWith;
  unfold tryCatch, bind, lift, ret, consoleError, generateContent;
  rewrite H; cbn beta iota.

Ltac run_accessor H :=
  unfold GeminiService.retryWithBackoff_default; apply retry_resolved; run_fn H.

Ltac run_demo_accessor Hlive H :=
  let client := fresh "client" in
  let Hai := fresh "Hai" in
  let Hguard := fresh "Hguard" in
  destruct (live_mode _ Hlive) as [client [Hai Hguard]];
  rewrite Hguard;
  unfold GeminiServiceDemo.retryWithBackoff_default; apply demo_retry_resolved;
  rewrite Hai; run_fn H.

Section OneRequest.
Variable w : World.

Section Resolves.
Variable response : GenerateContentResponse.
Hypothesis Hreply : replies w (requests w) = Resolved response.

Lemma programs_run universityName :
  GeminiService.generateDegreePrograms universityName w
  = (Resolved
       (if negb (JS.truthy (Some (textOf response))) then []
        else if (List.length (GeminiService.programs (textOf response)) <? 5)%nat
             then GeminiService.programLines (textOf response)
             else GeminiService.programs (textOf response)),
     sent w, [Invoke]).
Proof.
  unfold GeminiService.generateDegreePrograms,
         GeminiService.generateDegreePrograms_fn.
  run_accessor Hreply. fold (textOf response).
  destruct (negb (JS.truthy (Some (textOf response)))); [reflexivity|].
  destruct (List.length (GeminiService.programs (textOf response)) <? 5)%nat;
    reflexivity.
Qed.

Lemma news_run universityName :
  let callback :=
    GeminiService.newsCallback universityName (groundingChunksOf response) in
  let segments := indexedFrom 0 (JS.split (textOf response) "|||") in
  GeminiService.generateUniversityNews universityName w
  = match firstFailure callback segments with
    | Some error =>
        (Resolved [], logged "Error generating news:" error (sent w), [Invoke])
    | None =>
        (Resolved (firstn 4 (flat_map (emitted callback) segments)),
         sent w, [Invoke])
    end.
Proof.
  cbv zeta.
  unfold GeminiService.generateUniversityNews,
         GeminiService.generateUniversityNews_fn,
         GeminiService.retryWithBackoff_default.
  pose proof (newsItems_by_segment universityName response) as H.
  cbv zeta in H.
  destruct (firstFailure _ _) as [error|]; apply retry_resolved; run_fn Hreply;
    now rewrite H.
Qed.

Lemma subjects_run program level universityName :
  GeminiService.generateSemesterSubjects program level universityName w
  = (Resolved (firstn 8 (flat_map (emitted GeminiService.subjectsCallback)
       (indexedFrom 0 (JS.split (textOf response) (String 10 EmptyString))))),
     sent w, [Invoke]).
Proof.
  unfold GeminiService.generateSemesterSubjects,
         GeminiService.generateSemesterSubjects_fn.
  run_accessor Hreply. now rewrite subjects_by_line.
Qed.

Lemma books_run query :
  let callback := GeminiService.booksCallback (groundingChunksOf response) in
  let segments := indexedFrom 0 (JS.split (textOf response) "|||") in
  GeminiService.findBooks query w
  = match firstFailure callback segments with
    | Some error =>
        (Resolved [], logged "Error finding books:" error (sent w), [Invoke])
    | None => (Resolved (flat_map (emitted callback) segments), sent w, [Invoke])
    end.
Proof.
  cbv zeta.
  unfold GeminiService.findBooks, GeminiService.findBooks_fn,
         GeminiService.retryWithBackoff_default.
  pose proof (books_by_segment response) as H. cbv zeta in H.
  destruct (firstFailure _ _) as [error|]; apply retry_resolved; run_fn Hreply;
    now rewrite H.
Qed.

Variable apiKey : option string.
Hypothesis Hlive : GeminiServiceDemo.isMockMode apiKey = false.

Lemma demo_programs_run universityName :
  GeminiServiceDemo.generateDegreePrograms apiKey universityName w
  = (Resolved
       (if negb (JS.truthy (Some (textOf response))) then []
        else if (0 <? List.length (GeminiServiceDemo.programs (textOf response)))%nat
             then GeminiServiceDemo.programs (textOf response)
             else GeminiServiceDemo.mockPrograms),
     sent w, [Invoke]).
Proof.
  unfold GeminiServiceDemo.generateDegreePrograms,
         GeminiServiceDemo.generateDegreePrograms_fn.
  run_demo_accessor Hlive Hreply. fold (textOf response).
  destruct (negb (JS.truthy (Some (textOf response)))); reflexivity.
Qed.

Lemma demo_news_run universityName :
  GeminiServiceDemo.generateUniversityNews apiKey universityName w
  = (Resolved (firstn 4 (flat_map
       (emitted (GeminiServiceDemo.newsCallback (groundingChunksOf response)))
       (indexedFrom 0 (JS.split (textOf response) "|||")))),
     sent w, [Invoke]).
Proof.
  unfold GeminiServiceDemo.generateUniversityNews,
         GeminiServiceDemo.generateUniversityNews_fn.
  run_demo_accessor Hlive Hreply. now rewrite demo_newsItems_by_segment.
Qed.

Lemma demo_subjects_run program level universityName :
  GeminiServiceDemo.generateSemesterSubjects apiKey program level universityName w
  = (Resolved
       (let subjects :=
          flat_map (emitted GeminiServiceDemo.subjectsCallback)
            (indexedFrom 0
               (JS.split (textOf response) (String 10 EmptyString))) in
        if (0 <? List.length subjects)%nat then firstn 8 subjects
        else GeminiServiceDemo.getMockSubjects),
     sent w, [Invoke]).
Proof.
  unfold GeminiServiceDemo.generateSemesterSubjects,
         GeminiServiceDemo.generateSemesterSubjects_fn.
  run_demo_accessor Hlive Hreply. now rewrite demo_subjects_by_line.
Qed.

Lemma demo_books_run parseBooks query :
  GeminiServiceDemo.findBooks apiKey parseBooks query w
  = (Resolved (flat_map (emitted GeminiServiceDemo.booksCallback)
       (indexedFrom 0 (JS.split (textOf response) "|||"))),
     sent w, [Invoke]).
Proof.
  unfold GeminiServiceDemo.findBooks, GeminiServiceDemo.findBooks_fn.
  run_demo_accessor Hlive Hreply. now rewrite demo_books_by_segment.
Qed.

End Resolves.

Section Rejects.
Variable error : JsError.
Hypothesis Hreply : replies w (requests w) = Rejected error.

Lemma programs_run_failed universityName :
  GeminiService.generateDegreePrograms universityName w
  = (Resolved GeminiService.fallbackPrograms,
     logged "Error generating programs:" error (sent w), [Invoke]).
Proof.
  unfold GeminiService.generateDegreePrograms,
         GeminiService.generateDegreePrograms_fn.
  run_accessor Hreply. reflexivity.
Qed.

Lemma news_run_failed universityName :
  GeminiService.generateUniversityNews universityName w
  = (Resolved [], logged "Error generating news:" error (sent w), [Invoke]).
Proof.
  unfold GeminiService.generateUniversityNews,
         GeminiService.generateUniversityNews_fn.
  run_accessor Hreply. reflexivity.
Qed.

Lemma subjects_run_failed program level universityName :
  GeminiService.generateSemesterSubjects program level universityName w
  = (Resolved GeminiService.fallbackSubjects,
     logged "Error generating subjects:" error (sent w), [Invoke]).
Proof.
  unfold GeminiService.generateSemesterSubjects,
         GeminiService.generateSemesterSubjects_fn.
  run_accessor Hreply. reflexivity.
Qed.

Lemma books_run_failed query :
  GeminiService.findBooks query w
  = (Resolved [], logged "Error finding books:" error (sent w), [Invoke]).
Proof.
  unfold GeminiService.findBooks, GeminiService.findBooks_fn.
  run_accessor Hreply. reflexivity.
Qed.

Variable apiKey : option string.
Hypothesis Hlive : GeminiServiceDemo.isMockMode apiKey = false.

Lemma demo_programs_run_failed universityName :
  GeminiServiceDemo.generateDegreePrograms apiKey universityName w
  = (Resolved GeminiServiceDemo.mockPrograms,
     logged "Error generating programs:" error (sent w), [Invoke]).
Proof.
  unfold GeminiServiceDemo.generateDegreePrograms,
         GeminiServiceDemo.generateDegreePrograms_fn.
  run_demo_accessor Hlive Hreply. reflexivity.
Qed.

Lemma demo_news_run_failed universityName :
  GeminiServiceDemo.generateUniversityNews apiKey universityName w
  = (Resolved [], sent w, [Invoke]).
Proof.
  unfold GeminiServiceDemo.generateUniversityNews,
         GeminiServiceDemo.generateUniversityNews_fn.
  run_demo_accessor Hlive Hreply. reflexivity.
Qed.

Lemma demo_subjects_run_failed program level universityName :
  GeminiServiceDemo.generateSemesterSubjects apiKey program level universityName w
  = (Resolved GeminiServiceDemo.getMockSubjects, sent w, [Invoke]).
Proof.
  unfold GeminiServiceDemo.generateSemesterSubjects,
         GeminiServiceDemo.generateSemesterSubjects_fn.
  run_demo_accessor Hlive Hreply. reflexivity.
Qed.

End Rejects.

End OneRequest.

(* ===================================================================== *)
(** ** The demo mode switch *)
(* ===================================================================== *)

Lemma isMockMode_spec apiKey :
  GeminiServiceDemo.isMockMode apiKey = true <-> unusableCredential apiKey.
Proof.
  unfold GeminiServiceDemo.isMockMode, unusableCredential.
  destruct apiKey as [k|]; simpl.
  - rewrite !orb_true_iff, string_eqb_eq, Nat.ltb_lt. split.
    + intros [[H|H]|H]; right; exists k; split; auto.
      destruct k; [auto | discriminate].
    + intros [H|[k' [[= <-] [H|[H|H]]]]]; [discriminate | | | ]; auto.
      subst k. auto.
  - split; auto.
Qed.

Section MockMode.
Variable apiKey : option string.
Variable parseBooks : string -> Outcome (option (list Book.t)).
Variable parseCourseOutline : string -> Outcome CourseOutline.t.
Variable parseQuiz : string -> Outcome Quiz.t.
Hypothesis Hmock : GeminiServiceDemo.isMockMode apiKey = true.
Variable w : World.

Ltac mock_branch f := unfold f; rewrite Hmock; reflexivity.

Lemma mock_programs universityName :
  GeminiServiceDemo.generateDegreePrograms apiKey universityName w
  = (Resolved GeminiServiceDemo.mockPrograms, w, [SetTimeout 1500]).
Proof. mock_branch GeminiServiceDemo.generateDegreePrograms. Qed.

Lemma mock_news universityName :
  GeminiServiceDemo.generateUniversityNews apiKey universityName w
  = (Resolved (GeminiServiceDemo.mockNews universityName), w, [SetTimeout 1500]).
Proof. mock_branch GeminiServiceDemo.generateUniversityNews. Qed.

Lemma mock_subjects program level universityName :
  GeminiServiceDemo.generateSemesterSubjects apiKey program level universityName w
  = (Resolved GeminiServiceDemo.getMockSubjects, w, [SetTimeout 1500]).
Proof. mock_branch GeminiServiceDemo.generateSemesterSubjects. Qed.

Lemma mock_recommendBooks program level :
  GeminiServiceDemo.recommendBooks apiKey parseBooks program level w
  = (Resolved GeminiServiceDemo.mockBooks, w, [SetTimeout 1500]).
Proof. mock_branch GeminiServiceDemo.recommendBooks. Qed.

Lemma mock_findBooks query :
  GeminiServiceDemo.findBooks apiKey parseBooks query w
  = (Resolved GeminiServiceDemo.mockBooks, w, [SetTimeout 1500]).
Proof.
  unfold GeminiServiceDemo.findBooks. rewrite Hmock. apply mock_recommendBooks.
Qed.

Lemma mock_image prompt :
  GeminiServiceDemo.generateImage apiKey prompt w
  = (match JS.encodeURIComponent (JS.sliceString0 20 prompt) with
     | Some text =>
         Resolved (Some ("https://placehold.co/600x400/6366f1/ffffff?text="
                           ++ text)%str)
     | None => Rejected uriError
     end,
     w, [SetTimeout 1500]).
Proof.
  unfold GeminiServiceDemo.generateImage, encodeURIComponent. rewrite Hmock.
  now destruct (JS.encodeURIComponent (JS.sliceString0 20 prompt)).
Qed.

Lemma mock_courseOutline subject userContext :
  GeminiServiceDemo.generateCourseOutline apiKey parseCourseOutline subject userContext w
  = (Resolved (GeminiServiceDemo.getMockCourseOutline subject), w, [SetTimeout 1500]).
Proof. mock_branch GeminiServiceDemo.generateCourseOutline. Qed.

Lemma mock_chapterContent courseTitle chapterTitle prevContext :
  GeminiServiceDemo.generateChapterContent apiKey courseTitle chapterTitle prevContext w
  = (Resolved (GeminiServiceDemo.getMockChapterContent chapterTitle), w,
     [SetTimeout 1500]).
Proof. mock_branch GeminiServiceDemo.generateChapterContent. Qed.

Lemma mock_batchQuiz topic level count :
  GeminiServiceDemo.generateBatchQuiz apiKey parseQuiz topic level count w
  = (Resolved (GeminiServiceDemo.getMockQuiz topic count), w, [SetTimeout 1500]).
Proof. mock_branch GeminiServiceDemo.generateBatchQuiz. Qed.

Lemma mock_quiz topic :
  GeminiServiceDemo.generateQuiz apiKey parseQuiz topic w
  = (Resolved (GeminiServiceDemo.getMockQuiz topic 5), w, [SetTimeout 1500]).
Proof. unfold GeminiServiceDemo.generateQuiz. apply mock_batchQuiz. Qed.

Lemma mock_bookSummary title author :
  GeminiServiceDemo.generateBookSummary apiKey title author w
  = (Resolved ("# Summary: " ++ title ++ String 10 (String 10 EmptyString)
                 ++ "(Demo Mode) This is a placeholder summary for the book **"
                 ++ title ++ "** by " ++ author ++ ".")%str,
     w, [SetTimeout 1500]).
Proof. mock_branch GeminiServiceDemo.generateBookSummary. Qed.

Lemma mock_processDocument files task :
  GeminiServiceDemo.processDocument apiKey files task w
  = (Resolved
       "(Demo Mode) Document processed successfully. Content extracted/converted.",
     w, [SetTimeout 1500]).
Proof. mock_branch GeminiServiceDemo.processDocument. Qed.

Lemma mock_chats :
  GeminiServiceDemo.createTutorChat apiKey = Resolved GeminiServiceDemo.createMockChat /\
  GeminiServiceDemo.createDetailedTutorChat apiKey
    = Resolved GeminiServiceDemo.createMockChat /\
  GeminiServiceDemo.createGeneralChat apiKey
    = Resolved GeminiServiceDemo.createMockChat.
Proof.
  unfold GeminiServiceDemo.createTutorChat,
         GeminiServiceDemo.createDetailedTutorChat,
         GeminiServiceDemo.createGeneralChat.
  rewrite Hmock. repeat split.
Qed.

End MockMode.


(** X22: the module is in mock mode exactly when the credential it read
    when it was loaded is absent, empty, the placeholder "undefined" or
    shorter than 5 code units.  In mock mode no client is built, and
    every exported accessor settles after the mock delay in the world it
    started in: no request is sent and the wrapped operation is never
    invoked.  Every accessor but one resolves with its canned data; the
    image accessor resolves with the placeholder URL when the first 20
    code units of the prompt can be encoded, and rejects with the
    [URIError] otherwise.  The chat factories hand out the mock chat,
    whose [sendMessage] answers with the canned reply, again in an
    unchanged world.  The flag belongs to the module: a call made in a
    world whose environment now holds another credential behaves the
    same. *)
Theorem mock_mode_never_calls_the_network
  (loaded : World)
  (parseBooks : string -> Outcome (option (list Book.t)))
  (parseCourseOutline : string -> Outcome CourseOutline.t)
  (parseQuiz : string -> Outcome Quiz.t) :
  let apiKey := processEnvApiKey loaded in
  (GeminiServiceDemo.isMockMode apiKey = true <-> unusableCredential apiKey) /\
  (unusableCredential apiKey ->
   GeminiServiceDemo.ai apiKey = None /\
   (forall (w : World) (universityName program level query : string),
      GeminiServiceDemo.generateDegreePrograms apiKey universityName w
        = (Resolved GeminiServiceDemo.mockPrograms, w, [SetTimeout 1500]) /\
      GeminiServiceDemo.generateUniversityNews apiKey universityName w
        = (Resolved (GeminiServiceDemo.mockNews universityName), w,
           [SetTimeout 1500]) /\
      GeminiServiceDemo.generateSemesterSubjects apiKey program level universityName w
        = (Resolved GeminiServiceDemo.getMockSubjects, w, [SetTimeout 1500]) /\
      GeminiServiceDemo.recommendBooks apiKey parseBooks program level w
        = (Resolved GeminiServiceDemo.mockBooks, w, [SetTimeout 1500]) /\
      GeminiServiceDemo.findBooks apiKey parseBooks query w
        = (Resolved GeminiServiceDemo.mockBooks, w, [SetTimeout 1500]) /\
      requests (snd (fst (GeminiServiceDemo.findBooks apiKey parseBooks query w)))
        = requests w /\
      invocations (snd (GeminiServiceDemo.findBooks apiKey parseBooks query w))
        = 0%nat) /\
   (forall (w : World) (prompt subject userContext courseTitle chapterTitle : string)
           (prevContext : option string),
      GeminiServiceDemo.generateImage apiKey prompt w
        = (match JS.encodeURIComponent (JS.sliceString0 20 prompt) with
           | Some text =>
               Resolved (Some ("https://placehold.co/600x400/6366f1/ffffff?text="
                                 ++ text)%str)
           | None => Rejected uriError
           end,
           w, [SetTimeout 1500]) /\
      GeminiServiceDemo.generateCourseOutline apiKey parseCourseOutline
          subject userContext w
        = (Resolved (GeminiServiceDemo.getMockCourseOutline subject), w,
           [SetTimeout 1500]) /\
      GeminiServiceDemo.generateChapterContent apiKey courseTitle chapterTitle
          prevContext w
        = (Resolved (GeminiServiceDemo.getMockChapterContent chapterTitle), w,
           [SetTimeout 1500])) /\
   (forall (w : World) (topic level title author : string) (count : Z)
           (files : list (string * string)) (task : GeminiServiceDemo.Task),
      GeminiServiceDemo.generateBatchQuiz apiKey parseQuiz topic level count w
        = (Resolved (GeminiServiceDemo.getMockQuiz topic count), w,
           [SetTimeout 1500]) /\
      GeminiServiceDemo.generateQuiz apiKey parseQuiz topic w
        = (Resolved (GeminiServiceDemo.getMockQuiz topic 5), w, [SetTimeout 1500]) /\
      GeminiServiceDemo.generateBookSummary apiKey title author w
        = (Resolved
             ("# Summary: " ++ title ++ String 10 (String 10 EmptyString)
                ++ "(Demo Mode) This is a placeholder summary for the book **"
                ++ title ++ "** by " ++ author ++ ".")%str,
           w, [SetTimeout 1500]) /\
      GeminiServiceDemo.processDocument apiKey files task w
        = (Resolved
             "(Demo Mode) Document processed successfully. Content extracted/converted.",
           w, [SetTimeout 1500])) /\
   GeminiServiceDemo.createTutorChat apiKey = Resolved GeminiServiceDemo.createMockChat /\
   GeminiServiceDemo.createDetailedTutorChat apiKey
     = Resolved GeminiServiceDemo.createMockChat /\
   GeminiServiceDemo.createGeneralChat apiKey
     = Resolved GeminiServiceDemo.createMockChat /\
   (forall (w : World) (msg : string),
      match GeminiServiceDemo.createMockChat with
      | GeminiServiceDemo.MockChat sendMessage =>
          sendMessage msg w
          = (Resolved GeminiServiceDemo.mockChatResponse, w, [SetTimeout 1000])
      | GeminiServiceDemo.SdkChat _ _ => False
      end)).
Proof.
  cbv zeta. split; [apply isMockMode_spec|].
  intros Hcred. apply isMockMode_spec in Hcred.
  split; [unfold GeminiServiceDemo.ai; now rewrite Hcred|].
  split; [|split; [|split]].
  - intros w universityName program level query.
    rewrite (mock_findBooks _ parseBooks Hcred).
    repeat split;
      auto using mock_programs, mock_news, mock_subjects, mock_recommendBooks.
  - intros w prompt subject userContext courseTitle chapterTitle prevContext.
    repeat split;
      auto using mock_image, mock_courseOutline, mock_chapterContent.
  - intros w topic level title author count files task.
    repeat split;
      auto using mock_batchQuiz, mock_quiz, mock_bookSummary, mock_processDocument.
  - destruct (mock_chats _ Hcred) as [H1 [H2 H3]].
    repeat split; auto.
Qed.

Lemma mock_mode_never_calls_the_network_witness :
  let loaded := constWorld (Resolved (textResponse "Computer Science|||Law")) in
  let w := withApiKey (Some "a-real-key") loaded in
  GeminiServiceDemo.ai (processEnvApiKey loaded) = None /\
  GeminiServiceDemo.generateDegreePrograms (processEnvApiKey loaded) "Unilag" w
    = (Resolved GeminiServiceDemo.mockPrograms, w, [SetTimeout 1500]) /\
  GeminiServiceDemo.findBooks (Some "key") noBooks "algebra" w
    = (Resolved GeminiServiceDemo.mockBooks, w, [SetTimeout 1500]).
Proof.
  cbv zeta.
  assert (Habsent : unusableCredential None) by now left.
  assert (Hshort : unusableCredential (Some "key")).
  { right. exists "key". split; [reflexivity|]. right; right. simpl. lia. }
  destruct (proj2 (mock_mode_never_calls_the_network
                     (constWorld (Resolved (textResponse "Computer Science|||Law")))
                     noBooks (fun _ => Rejected (typeError "Unexpected token"))
                     (fun _ => Rejected (typeError "Unexpected token")))
                  Habsent) as [Hai [Hacc _]].
  destruct (proj2 (mock_mode_never_calls_the_network
                     (withApiKey (Some "key")
                        (constWorld (Resolved (textResponse "Computer Science|||Law"))))
                     noBooks (fun _ => Rejected (typeError "Unexpected token"))
                     (fun _ => Rejected (typeError "Unexpected token")))
                  Hshort) as [_ [Hacc' _]].
  split; [exact Hai | split].
  - exact (proj1 (Hacc (withApiKey (Some "a-real-key")
                    (constWorld (Resolved (textResponse "Computer Science|||Law"))))
                  "Unilag" "Law" "100 Level" "algebra")).
  - exact (proj1 (proj2 (proj2 (proj2 (proj2
            (Hacc' (withApiKey (Some "a-real-key")
                      (constWorld (Resolved (textResponse "Computer Science|||Law"))))
                   "Unilag" "Law" "100 Level" "algebra")))))).
Defined.

(* ===================================================================== *)
(** ** Fallback substitution for program lists *)
(* ===================================================================== *)

Lemma truthy_text (t : string) : JS.truthy (Some t) = negb (Utf16.eqb t "").
Proof. destruct t; reflexivity. Qed.

(** C4 (as stated, refuted): with three extracted entries neither copy
    returns its fallback list.  The copy without demo mode returns the
    line based list, here the whole text as one entry; the copy with demo
    mode returns the three entries. *)
Lemma short_program_list_is_not_replaced :
  let text := "Computer Science|||Law School|||Medicine" in
  let w := constWorld (Resolved (textResponse text)) in
  (List.length (GeminiService.programs text) < 5)%nat /\
  fst (fst (GeminiService.generateDegreePrograms "Unilag" w)) = Resolved [text] /\
  [text] <> GeminiService.fallbackPrograms /\
  (List.length (GeminiServiceDemo.programs text) < 5)%nat /\
  fst (fst (GeminiServiceDemo.generateDegreePrograms (Some "a-real-key") "Unilag" w))
    = Resolved ["Computer Science"; "Law School"; "Medicine"] /\
  ["Computer Science"; "Law School"; "Medicine"] <> GeminiServiceDemo.mockPrograms.
Proof.
  cbv zeta. repeat split; try (vm_compute; lia); try reflexivity; discriminate.
Qed.

(** C4 (amended): the program accessor has no 5-entry fallback threshold.
    Without demo mode, a non-empty text with fewer than 5 entries is read
    again line by line and that list is returned, 5 or more entries are
    returned as they are, and the fixed fallback list is returned only
    when the request fails.  With demo mode (live), the mock list is
    returned when the request fails or a non-empty text yields no entry,
    and one or more entries are returned as they are.  Empty text gives
    the empty list in both.  The fallback list is returned whole, never
    joined to extracted entries. *)
Theorem generateDegreePrograms_fallback_policy (universityName : string) (w : World) :
  (forall response,
     replies w (requests w) = Resolved response ->
     let text := textOf response in
     let result := fst (fst (GeminiService.generateDegreePrograms universityName w)) in
     (text = "" -> result = Resolved []) /\
     (text <> "" -> (List.length (GeminiService.programs text) < 5)%nat ->
      result = Resolved (GeminiService.programLines text)) /\
     (text <> "" -> (5 <= List.length (GeminiService.programs text))%nat ->
      result = Resolved (GeminiService.programs text))) /\
  (forall error,
     replies w (requests w) = Rejected error ->
     fst (fst (GeminiService.generateDegreePrograms universityName w))
       = Resolved GeminiService.fallbackPrograms) /\
  (forall apiKey response,
     GeminiServiceDemo.isMockMode apiKey = false ->
     replies w (requests w) = Resolved response ->
     let text := textOf response in
     let result :=
       fst (fst (GeminiServiceDemo.generateDegreePrograms apiKey universityName w)) in
     (text = "" -> result = Resolved []) /\
     (text <> "" -> GeminiServiceDemo.programs text = [] ->
      result = Resolved GeminiServiceDemo.mockPrograms) /\
     (text <> "" -> GeminiServiceDemo.programs text <> [] ->
      result = Resolved (GeminiServiceDemo.programs text))) /\
  (forall apiKey error,
     GeminiServiceDemo.isMockMode apiKey = false ->
     replies w (requests w) = Rejected error ->
     fst (fst (GeminiServiceDemo.generateDegreePrograms apiKey universityName w))
       = Resolved GeminiServiceDemo.mockPrograms).
Proof.
  split; [|split; [|split]].
  - intros response H. cbv zeta. rewrite (programs_run w response H).
    cbn [fst]. rewrite truthy_text. repeat split.
    + intros ->. reflexivity.
    + intros Ht Hlen. apply string_eqb_neq in Ht. rewrite Ht.
      apply Nat.ltb_lt in Hlen. cbn [negb]. now rewrite Hlen.
    + intros Ht Hlen. apply string_eqb_neq in Ht. rewrite Ht.
      apply Nat.ltb_ge in Hlen. cbn [negb]. now rewrite Hlen.
  - intros error H. now rewrite (programs_run_failed w error H).
  - intros apiKey response Hlive H. cbv zeta.
    rewrite (demo_programs_run w response H apiKey Hlive).
    cbn [fst]. rewrite truthy_text. repeat split.
    + intros ->. reflexivity.
    + intros Ht Hnone. apply string_eqb_neq in Ht. rewrite Ht.
      now rewrite Hnone.
    + intros Ht Hsome. apply string_eqb_neq in Ht. rewrite Ht.
      destruct (GeminiServiceDemo.programs (textOf response));
        [congruence | reflexivity].
  - intros apiKey error Hlive H.
    now rewrite (demo_programs_run_failed w error H apiKey Hlive).
Qed.

Lemma generateDegreePrograms_fallback_policy_witness :
  let text := "Computer Science|||Law School|||Medicine" in
  let w := constWorld (Resolved (textResponse text)) in
  fst (fst (GeminiService.generateDegreePrograms "Unilag" w))
    = Resolved (GeminiService.programLines text) /\
  fst (fst (GeminiServiceDemo.generateDegreePrograms (Some "a-real-key") "Unilag" w))
    = Resolved (GeminiServiceDemo.programs text).
Proof.
  cbv zeta.
  pose proof (generateDegreePrograms_fallback_policy "Unilag"
    (constWorld (Resolved (textResponse "Computer Science|||Law School|||Medicine"))))
    as [Hplain [_ [Hdemo _]]].
  split.
  - apply (Hplain (textResponse "Computer Science|||Law School|||Medicine") eq_refl).
    + discriminate.
    + vm_compute. lia.
  - apply (Hdemo (Some "a-real-key")
             (textResponse "Computer Science|||Law School|||Medicine")
             eq_refl eq_refl).
    + discriminate.
    + discriminate.
Defined.

(* ===================================================================== *)
(** ** What one segment contributes *)
(* ===================================================================== *)

Lemma orElse_substituted citation synth :
  substituted citation synth (JS.orElse citation synth).
Proof.
  unfold substituted. destruct citation as [[|c u]|]; simpl.
  - right. auto.
  - left. exists (String c u). repeat split. discriminate.
  - right. auto.
Qed.

(** An unreserved code unit is no surrogate, and no code unit is both a
    high and a low surrogate. *)
Lemma surrogate_kinds (c : codeUnit) :
  (JS.isUnreserved c = true ->
   JS.isHighSurrogate c = false /\ JS.isLowSurrogate c = false) /\
  (JS.isHighSurrogate c = true -> JS.isLowSurrogate c = false).
Proof.
  unfold JS.isUnreserved, JS.isHighSurrogate, JS.isLowSurrogate. cbv zeta. split.
  - intros H. assert (Hc : (c <= 126)%N).
    { rewrite !orb_true_iff, !andb_true_iff, !N.leb_le, !N.eqb_eq in H. lia. }
    split; apply andb_false_iff; left; apply N.leb_gt; lia.
  - intros H. rewrite andb_true_iff, !N.leb_le in H.
    apply andb_false_iff. left. apply N.leb_gt. lia.
Qed.

(** [encodeURIComponent] throws exactly on the strings that hold a
    surrogate outside a pair. *)
Lemma encodeURIComponent_wellFormed (s : string) :
  JS.encodeURIComponent s = None <-> wellFormed s = false.
Proof.
  assert (H : forall n s, (Utf16.length s <= n)%nat ->
                JS.encodeURIComponent s = None <-> wellFormed s = false).
  { clear s. induction n as [|n IH]; intros [|c s] Hlen;
      cbn [Utf16.length] in Hlen; try lia;
      try (cbn; split; discriminate).
    cbn [JS.encodeURIComponent wellFormed].
    destruct (surrogate_kinds c) as [Hu Hh].
    destruct (JS.isUnreserved c).
    - destruct (Hu eq_refl) as [-> ->]. cbn [negb andb].
      rewrite <- (IH s) by lia.
      destruct (JS.encodeURIComponent s); cbn; split; congruence.
    - destruct (JS.isHighSurrogate c).
      + destruct s as [|d s]; [now split|].
        destruct (JS.isLowSurrogate d); cbn [andb]; [|now split].
        cbn [Utf16.length] in Hlen. rewrite <- (IH s) by lia.
        destruct (JS.encodeURIComponent s); cbn; split; congruence.
      + destruct (JS.isLowSurrogate c); cbn [negb andb]; [now split|].
        rewrite <- (IH s) by lia.
        destruct (JS.encodeURIComponent s); cbn; split; congruence. }
  exact (H (Utf16.length s) s (le_n _)).
Qed.

Lemma searchUrl_wellFormed (query : string) :
  searchUrl query = None <-> wellFormed query = false.
Proof.
  rewrite <- encodeURIComponent_wellFormed. unfold searchUrl.
  destruct (JS.encodeURIComponent query); cbn; split; congruence.
Qed.

Lemma citedOrSearched_cases citation query :
  match citedOrSearched citation query with
  | Some link =>
      (exists u, citation = Some u /\ u <> "" /\ link = u) \/
      ((citation = None \/ citation = Some "") /\ searchUrl query = Some link)
  | None => (citation = None \/ citation = Some "") /\ wellFormed query = false
  end.
Proof.
  unfold citedOrSearched.
  destruct citation as [[|c u]|]; cbn [JS.truthy].
  - destruct (searchUrl "" ) eqn:E0; clear E0.
    all: destruct (searchUrl query) as [url|] eqn:E;
      [right; split; [now right | reflexivity]
      | split; [now right | now apply searchUrl_wellFormed]].
  - left. exists (String c u). repeat split. discriminate.
  - destruct (searchUrl query) as [url|] eqn:E;
      [right; split; [now left | reflexivity]
      | split; [now left | now apply searchUrl_wellFormed]].
Qed.

Section Segments.
Variable universityName : string.
Variable chunks : list GroundingChunk.
Variable index : nat.
Variable item : string.

Lemma news_segment_short :
  (List.length (JS.split item "$$") < 3)%nat ->
  emitted (GeminiService.newsCallback universityName chunks) (index, item) = []
  /\ failure (GeminiService.newsCallback universityName chunks) (index, item) = None.
Proof.
  unfold emitted, failure, GeminiService.newsCallback. cbn [fst snd].
  intros H. apply Nat.leb_gt in H. now rewrite H.
Qed.

Lemma news_segment p0 p1 p2 rest :
  JS.split item "$$" = p0 :: p1 :: p2 :: rest ->
  match newsLink (option_map JS.trim (hd_error rest)) (webUri chunks index)
                 (universityName ++ " news") with
  | Some link =>
      emitted (GeminiService.newsCallback universityName chunks) (index, item)
      = [NewsItem.mk (JS.stripLeadingNonWord (JS.trim p0)) (JS.trim p2)
           (JS.trim p1) link]
      /\ failure (GeminiService.newsCallback universityName chunks) (index, item)
         = None
  | None =>
      emitted (GeminiService.newsCallback universityName chunks) (index, item) = []
      /\ failure (GeminiService.newsCallback universityName chunks) (index, item)
         = Some uriError
  end.
Proof.
  unfold emitted, failure, GeminiService.newsCallback, newsLink, citedOrSearched,
    searchUrl, encodeURIComponent. cbn [fst snd].
  intros ->.
  assert (Hrest : nth_error (p0 :: p1 :: p2 :: rest) 3 = hd_error rest)
    by now destruct rest.
  rewrite Hrest.
  cbn [List.length Nat.leb nth_error trimOf bindO].
  destruct (negb (JS.truthy (option_map JS.trim (hd_error rest)))
            || (Utf16.length (JS.orElse (option_map JS.trim (hd_error rest)) "")
                  <? 5)%nat) eqn:Hshort.
  - destruct (webUri chunks index) as [[|c u]|]; cbn [JS.truthy JS.orElse bindO];
      destruct (JS.encodeURIComponent (universityName ++ " news"));
      cbn [bindO option_map]; now split.
  - apply orb_false_iff in Hshort. destruct Hshort as [Ht _].
    apply negb_false_iff in Ht.
    destruct (option_map JS.trim (hd_error rest)) as [[|c l]|];
      try discriminate. cbn [JS.orElse bindO]. now split.
Qed.

Lemma demo_news_segment_short :
  (List.length (JS.split item "$$") < 3)%nat ->
  emitted (GeminiServiceDemo.newsCallback chunks) (index, item) = [].
Proof.
  unfold emitted, GeminiServiceDemo.newsCallback. cbn [fst snd].
  intros H. apply Nat.leb_gt in H. now rewrite H.
Qed.

Lemma demo_news_segment p0 p1 p2 rest :
  JS.split item "$$" = p0 :: p1 :: p2 :: rest ->
  emitted (GeminiServiceDemo.newsCallback chunks) (index, item)
  = [NewsItem.mk (JS.trim p0) (JS.trim p2) (JS.trim p1)
       (let link := option_map JS.trim (hd_error rest) in
        if negb (JS.truthy link) || (Utf16.length (JS.orElse link "") <? 5)%nat
        then JS.orElse (webUri chunks index) "#"
        else JS.orElse link "")].
Proof.
  unfold emitted, GeminiServiceDemo.newsCallback. cbn [fst snd].
  intros ->. destruct rest; reflexivity.
Qed.

Lemma books_segment_short :
  (List.length (JS.split item "$$") < 3)%nat ->
  emitted (GeminiService.booksCallback chunks) (index, item) = []
  /\ failure (GeminiService.booksCallback chunks) (index, item) = None.
Proof.
  unfold emitted, failure, GeminiService.booksCallback. cbn [fst snd].
  intros H. apply Nat.leb_gt in H. now rewrite H.
Qed.

Lemma books_segment p0 p1 p2 rest :
  JS.split item "$$" = p0 :: p1 :: p2 :: rest ->
  match citedOrSearched (webUri chunks index) (JS.trim p0 ++ " book") with
  | Some link =>
      emitted (GeminiService.booksCallback chunks) (index, item)
      = [Book.mk (JS.stripLeadingNonWord (JS.trim p0)) (JS.trim p1) (JS.trim p2)
           (Some link)]
      /\ failure (GeminiService.booksCallback chunks) (index, item) = None
  | None =>
      emitted (GeminiService.booksCallback chunks) (index, item) = []
      /\ failure (GeminiService.booksCallback chunks) (index, item)
         = Some uriError
  end.
Proof.
  unfold emitted, failure, GeminiService.booksCallback, citedOrSearched,
    searchUrl, encodeURIComponent. cbn [fst snd].
  intros ->. cbn [List.length Nat.leb nth_error trimOf bindO].
  destruct (webUri chunks index) as [[|c u]|]; cbn [JS.truthy JS.orElse bindO];
    destruct (JS.encodeURIComponent (JS.trim p0 ++ " book"));
    cbn [bindO option_map]; now split.
Qed.

Lemma demo_books_segment_short :
  (List.length (JS.split item "$$") < 3)%nat ->
  emitted GeminiServiceDemo.booksCallback (index, item) = [].
Proof.
  unfold emitted, GeminiServiceDemo.booksCallback. cbn [fst snd].
  intros H. apply Nat.leb_gt in H. now rewrite H.
Qed.

Lemma demo_books_segment p0 p1 p2 rest :
  JS.split item "$$" = p0 :: p1 :: p2 :: rest ->
  emitted GeminiServiceDemo.booksCallback (index, item)
  = [Book.mk (JS.trim p0) (JS.trim p1) (JS.trim p2) (Some "#")].
Proof.
  unfold emitted, GeminiServiceDemo.booksCallback. cbn [fst snd].
  intros ->. reflexivity.
Qed.

Lemma subjects_line_short :
  JS.includes item "|" = false \/ (List.length (JS.split item "|") < 2)%nat ->
  emitted GeminiService.subjectsCallback (index, item) = [].
Proof.
  unfold emitted, GeminiService.subjectsCallback. cbn [fst snd].
  intros [H|H]; [now rewrite H|].
  apply Nat.leb_gt in H. rewrite H. now destruct (JS.includes item "|").
Qed.

Lemma subjects_line p0 p1 rest :
  JS.includes item "|" = true ->
  JS.split item "|" = p0 :: p1 :: rest ->
  emitted GeminiService.subjectsCallback (index, item)
  = [Subject.mk (JS.trim p0) (JS.trim p1)
       (JS.orElse (option_map JS.trim (hd_error rest)) "Core course module.")].
Proof.
  unfold emitted, GeminiService.subjectsCallback. cbn [fst snd].
  intros -> ->. destruct rest; reflexivity.
Qed.

End Segments.

(** The embedded link of a news segment is kept when it has 5 code units
    or more after trimming, and is replaced otherwise. *)
Lemma news_link_cases (embedded : option string) (replacement : string) :
  let link :=
    if negb (JS.truthy embedded) || (Utf16.length (JS.orElse embedded "") <? 5)%nat
    then replacement else JS.orElse embedded "" in
  (exists l, embedded = Some l /\ (5 <= Utf16.length l)%nat /\ link = l) \/
  ((embedded = None \/ exists l, embedded = Some l /\ (Utf16.length l < 5)%nat) /\
   link = replacement).
Proof.
  cbv zeta. destruct embedded as [[|c l]|]; cbn [JS.truthy JS.orElse negb orb].
  - right. split; [right; exists ""; split; [reflexivity | simpl; lia] | reflexivity].
  - destruct (Utf16.length (String c l) <? 5)%nat eqn:E.
    + right. apply Nat.ltb_lt in E. split; [right; now exists (String c l) | reflexivity].
    + left. apply Nat.ltb_ge in E. now exists (String c l).
  - right. split; [now left | reflexivity].
Qed.

(* ===================================================================== *)
(** ** Properties of the extractors and of the capped accessors *)
(* ===================================================================== *)

(** C5 (as stated, refuted): a segment made of separators only has the
    required number of fields, all of them empty, and is emitted as a
    record: a news item and a book with empty headline/title, date/author
    and snippet/description, a subject with empty code and title. *)
Lemma records_with_empty_fields_are_emitted :
  ~ nonEmptyTrimmed "" /\
  GeminiService.newsItems "Unilag" (textResponse "$$$$")
    = Resolved [NewsItem.mk "" "" "" "https://www.google.com/search?q=Unilag%20news"] /\
  GeminiService.subjects (textResponse "|")
    = Resolved [Subject.mk "" "" "Core course module."] /\
  GeminiService.books (textResponse "$$$$")
    = Resolved [Book.mk "" "" "" (Some "https://www.google.com/search?q=%20book")].
Proof.
  repeat split; try reflexivity. intros H. now apply H.
Qed.

Lemma newsLink_cases embedded citation query :
  let short :=
    embedded = None \/ exists l, embedded = Some l /\ (Utf16.length l < 5)%nat in
  match newsLink embedded citation query with
  | Some link =>
      (exists l, embedded = Some l /\ (5 <= Utf16.length l)%nat /\ link = l) \/
      (short /\ citedOrSearched citation query = Some link)
  | None => short /\ citedOrSearched citation query = None
  end.
Proof.
  cbv zeta. unfold newsLink.
  destruct embedded as [[|c l]|]; cbn [JS.truthy JS.orElse negb orb].
  - assert (Hshort : Some "" = None \/
      exists l, Some "" = Some l /\ (Utf16.length l < 5)%nat).
    { right. exists "". split; [reflexivity | simpl; lia]. }
    destruct (citedOrSearched citation query); [right|]; now split.
  - destruct (Utf16.length (String c l) <? 5)%nat eqn:E.
    + apply Nat.ltb_lt in E.
      assert (Hshort : Some (String c l) = None \/
        exists l', Some (String c l) = Some l' /\ (Utf16.length l' < 5)%nat).
      { right. now exists (String c l). }
      destruct (citedOrSearched citation query); [right|]; now split.
    + left. apply Nat.ltb_ge in E. now exists (String c l).
  - destruct (citedOrSearched citation query); [right|]; split; auto.
Qed.

Lemma newsLink_none embedded citation query :
  newsLink embedded citation query = None ->
  (embedded = None \/ exists l, embedded = Some l /\ (Utf16.length l < 5)%nat)
  /\ (citation = None \/ citation = Some "") /\ wellFormed query = false.
Proof.
  unfold newsLink.
  destruct (negb (JS.truthy embedded)
            || (Utf16.length (JS.orElse embedded "") <? 5)%nat) eqn:Hshort.
  - intros H. pose proof (citedOrSearched_cases citation query) as Hc.
    rewrite H in Hc. split; [|exact Hc].
    destruct embedded as [[|c l]|]; [right; exists ""; split; [reflexivity|] | |now left].
    + cbn. lia.
    + cbn [JS.truthy negb orb JS.orElse] in Hshort. apply Nat.ltb_lt in Hshort.
      right. now exists (String c l).
  - apply orb_false_iff in Hshort. destruct Hshort as [Ht _].
    apply negb_false_iff in Ht. destruct embedded as [[|c l]|]; discriminate.
Qed.

Lemma news_segment_cases universityName chunks index item p0 p1 p2 rest :
  JS.split item "$$" = p0 :: p1 :: p2 :: rest ->
  (exists link,
     emitted (GeminiService.newsCallback universityName chunks) (index, item)
     = [NewsItem.mk (JS.stripLeadingNonWord (JS.trim p0))
          (JS.trim p2) (JS.trim p1) link]
     /\ failure (GeminiService.newsCallback universityName chunks)
          (index, item) = None)
  \/ (emitted (GeminiService.newsCallback universityName chunks) (index, item)
      = []
      /\ failure (GeminiService.newsCallback universityName chunks)
           (index, item) = Some uriError
      /\ wellFormed (universityName ++ " news") = false).
Proof.
  intros H.
  pose proof (news_segment universityName chunks index item _ _ _ _ H) as Hs.
  destruct (newsLink _ _ _) as [link|] eqn:Hl.
  - left. exists link. exact Hs.
  - right. destruct Hs as [He Hf]. split; [exact He|]. split; [exact Hf|].
    now apply newsLink_none in Hl.
Qed.

Lemma books_segment_cases chunks index item p0 p1 p2 rest :
  JS.split item "$$" = p0 :: p1 :: p2 :: rest ->
  (exists link,
     emitted (GeminiService.booksCallback chunks) (index, item)
     = [Book.mk (JS.stripLeadingNonWord (JS.trim p0))
          (JS.trim p1) (JS.trim p2) link]
     /\ failure (GeminiService.booksCallback chunks) (index, item) = None)
  \/ (emitted (GeminiService.booksCallback chunks) (index, item) = []
      /\ failure (GeminiService.booksCallback chunks) (index, item)
         = Some uriError
      /\ (webUri chunks index = None \/ webUri chunks index = Some "")
      /\ wellFormed (JS.trim p0 ++ " book") = false).
Proof.
  intros H.
  pose proof (books_segment chunks index item _ _ _ _ H) as Hs.
  pose proof (citedOrSearched_cases (webUri chunks index) (JS.trim p0 ++ " book"))
    as Hc.
  destruct (citedOrSearched _ _) as [link|].
  - left. exists (Some link). exact Hs.
  - right. destruct Hs as [He Hf]. destruct Hc as [Hc Hwf]. auto.
Qed.

Lemma segment_fields (parts : list string) :
  (List.length parts < 3)%nat \/ exists p0 p1 p2 rest, parts = p0 :: p1 :: p2 :: rest.
Proof.
  destruct parts as [|p0 [|p1 [|p2 rest]]]; cbn [List.length];
    [left; lia | left; lia | left; lia | right; now exists p0, p1, p2, rest].
Qed.

Lemma news_segment_safe universityName chunks index item :
  wellFormed (universityName ++ " news") = true ->
  failure (GeminiService.newsCallback universityName chunks) (index, item) = None.
Proof.
  intros Hwf. destruct (segment_fields (JS.split item "$$"))
    as [Hshort | [p0 [p1 [p2 [rest H]]]]].
  - now apply news_segment_short.
  - destruct (news_segment_cases universityName chunks index item _ _ _ _ H)
      as [[link [_ Hf]] | [_ [_ Hbad]]]; [exact Hf | congruence].
Qed.

Lemma news_never_fails universityName chunks (segments : list (nat * string)) :
  wellFormed (universityName ++ " news") = true ->
  firstFailure (GeminiService.newsCallback universityName chunks) segments = None.
Proof.
  intros Hwf. apply firstFailure_none. intros [index item] _.
  now apply news_segment_safe.
Qed.

Lemma books_never_fail chunks (segments : list (nat * string)) :
  (forall index item p0 p1 p2 rest,
     In (index, item) segments ->
     JS.split item "$$" = p0 :: p1 :: p2 :: rest ->
     (exists u, webUri chunks index = Some u /\ u <> "")
     \/ wellFormed (JS.trim p0 ++ " book") = true) ->
  firstFailure (GeminiService.booksCallback chunks) segments = None.
Proof.
  intros Hok. apply firstFailure_none. intros [index item] Hin.
  destruct (segment_fields (JS.split item "$$"))
    as [Hshort | [p0 [p1 [p2 [rest H]]]]].
  - now apply books_segment_short.
  - destruct (books_segment_cases chunks index item _ _ _ _ H)
      as [[link [_ Hf]] | [_ [_ [Hcite Hbad]]]]; [exact Hf|].
    destruct (Hok _ _ _ _ _ _ Hin H) as [[u [Hu Hne]] | Hwf]; [|congruence].
    destruct Hcite as [Hcite | Hcite]; rewrite Hcite in Hu; congruence.
Qed.

(** C5 (amended): an extractor emits one record for every segment that
    splits into at least the required number of fields (3 for news items
    and books, 2 on a line containing a bar for subjects), with the
    trimmed fields as they are, empty or not; a segment with fewer fields
    is dropped.  The only thing a segment can do besides is to throw the
    [URIError] of [encodeURIComponent], when the search link of its
    record has to be built from text that holds a lone surrogate: the
    institution name for a news item, the trimmed title for a book
    without a citation.  When no segment throws, each segment is handled
    on its own: the records of the batch are those of its segments, in
    the order of the segments; this is so for news whenever the
    institution name holds no lone surrogate, and for books whenever
    every segment has a citation or a title without a lone surrogate.
    When a segment throws, the extraction ends with that error. *)
Theorem extractors_keep_segments_by_field_count :
  (forall universityName response,
     let callback :=
       GeminiService.newsCallback universityName (groundingChunksOf response) in
     let segments := indexedFrom 0 (JS.split (textOf response) "|||") in
     GeminiService.newsItems universityName response
     = match firstFailure callback segments with
       | Some error => Rejected error
       | None => Resolved (flat_map (emitted callback) segments)
       end) /\
  (forall response,
     GeminiService.subjects response
     = Resolved (flat_map (emitted GeminiService.subjectsCallback)
         (indexedFrom 0 (JS.split (textOf response) (String 10 EmptyString))))) /\
  (forall response,
     let callback := GeminiService.booksCallback (groundingChunksOf response) in
     let segments := indexedFrom 0 (JS.split (textOf response) "|||") in
     GeminiService.books response
     = match firstFailure callback segments with
       | Some error => Rejected error
       | None => Resolved (flat_map (emitted callback) segments)
       end) /\
  (forall universityName chunks index item,
     let callback := GeminiService.newsCallback universityName chunks in
     ((List.length (JS.split item "$$") < 3)%nat ->
      emitted callback (index, item) = [] /\ failure callback (index, item) = None) /\
     (forall p0 p1 p2 rest,
        JS.split item "$$" = p0 :: p1 :: p2 :: rest ->
        (exists link,
           emitted callback (index, item)
           = [NewsItem.mk (JS.stripLeadingNonWord (JS.trim p0))
                (JS.trim p2) (JS.trim p1) link]
           /\ failure callback (index, item) = None)
        \/ (emitted callback (index, item) = []
            /\ failure callback (index, item) = Some uriError
            /\ wellFormed (universityName ++ " news") = false)) /\
     (wellFormed (universityName ++ " news") = true ->
      failure callback (index, item) = None)) /\
  (forall index line,
     (JS.includes line "|" = false \/ (List.length (JS.split line "|") < 2)%nat ->
      emitted GeminiService.subjectsCallback (index, line) = []) /\
     (forall p0 p1 rest,
        JS.includes line "|" = true ->
        JS.split line "|" = p0 :: p1 :: rest ->
        emitted GeminiService.subjectsCallback (index, line)
        = [Subject.mk (JS.trim p0) (JS.trim p1)
             (JS.orElse (option_map JS.trim (hd_error rest)) "Core course module.")])) /\
  (forall chunks index item,
     let callback := GeminiService.booksCallback chunks in
     ((List.length (JS.split item "$$") < 3)%nat ->
      emitted callback (index, item) = [] /\ failure callback (index, item) = None) /\
     (forall p0 p1 p2 rest,
        JS.split item "$$" = p0 :: p1 :: p2 :: rest ->
        (exists link,
           emitted callback (index, item)
           = [Book.mk (JS.stripLeadingNonWord (JS.trim p0))
                (JS.trim p1) (JS.trim p2) link]
           /\ failure callback (index, item) = None)
        \/ (emitted callback (index, item) = []
            /\ failure callback (index, item) = Some uriError
            /\ (webUri chunks index = None \/ webUri chunks index = Some "")
            /\ wellFormed (JS.trim p0 ++ " book") = false))) /\
  (forall universityName response,
     wellFormed (universityName ++ " news") = true ->
     GeminiService.newsItems universityName response
     = Resolved (flat_map
         (emitted (GeminiService.newsCallback universityName
                     (groundingChunksOf response)))
         (indexedFrom 0 (JS.split (textOf response) "|||")))) /\
  (forall response,
     let chunks := groundingChunksOf response in
     let segments := indexedFrom 0 (JS.split (textOf response) "|||") in
     (forall index item p0 p1 p2 rest,
        In (index, item) segments ->
        JS.split item "$$" = p0 :: p1 :: p2 :: rest ->
        (exists u, webUri chunks index = Some u /\ u <> "")
        \/ wellFormed (JS.trim p0 ++ " book") = true) ->
     GeminiService.books response
     = Resolved (flat_map (emitted (GeminiService.booksCallback chunks)) segments)) /\
  (forall s, JS.encodeURIComponent s = None <-> wellFormed s = false).
Proof.
  split; [exact newsItems_by_segment|].
  split; [exact subjects_by_line|].
  split; [exact books_by_segment|].
  split; [|split; [|split; [|split; [|split]]]].
  - intros universityName chunks index item. cbv zeta.
    split; [apply news_segment_short|]. split; [apply news_segment_cases|].
    apply news_segment_safe.
  - intros index line. split.
    + apply subjects_line_short.
    + intros p0 p1 rest. apply subjects_line.
  - intros chunks index item. cbv zeta. split; [apply books_segment_short|].
    apply books_segment_cases.
  - intros universityName response Hwf.
    pose proof (newsItems_by_segment universityName response) as H.
    cbv zeta in H. now rewrite (news_never_fails _ _ _ Hwf) in H.
  - intros response. cbv zeta. intros Hok.
    pose proof (books_by_segment response) as H.
    cbv zeta in H. now rewrite (books_never_fail _ _ Hok) in H.
  - exact encodeURIComponent_wellFormed.
Qed.

Lemma extractors_keep_segments_by_field_count_witness :
  emitted (GeminiService.newsCallback "Unilag" []) (1%nat, "X$$Y") = [] /\
  failure (GeminiService.newsCallback "Unilag" []) (0%nat, " A $$ B $$ C ") = None /\
  emitted GeminiService.subjectsCallback (2%nat, "no bar on this line") = [] /\
  emitted GeminiService.subjectsCallback (0%nat, "CSC 201 | Programming I")
    = [Subject.mk "CSC 201" "Programming I" "Core course module."].
Proof.
  pose proof extractors_keep_segments_by_field_count as [_ [_ [_ [Hn [Hs _]]]]].
  split; [|split; [|split]].
  - apply (proj1 (Hn "Unilag" [] 1%nat "X$$Y")). vm_compute. lia.
  - apply (proj2 (proj2 (Hn "Unilag" [] 0%nat " A $$ B $$ C "))). reflexivity.
  - apply (proj1 (Hs 2%nat "no bar on this line")). left. reflexivity.
  - apply (proj2 (Hs 0%nat "CSC 201 | Programming I") "CSC 201 " " Programming I" []);
      reflexivity.
Defined.


Lemma searchUrl_not_placeholder query url : searchUrl query = Some url -> url <> "#".
Proof.
  unfold searchUrl. destruct (JS.encodeURIComponent query); [|discriminate].
  intros [= <-]. discriminate.
Qed.

(** X23: what the extraction blocks can throw, and where it goes.  The
    four accessors built on the extractors resolve with a list in every
    world.  The extraction of subjects, the extraction of news items and
    books in the copy with demo mode, and the [try] block of the program
    accessor never throw.  The extraction of news items in the other copy
    throws nothing but the [URIError], and only when the institution name
    followed by " news" holds a lone surrogate; that of books throws
    nothing but the [URIError], and only when a segment with 3 fields or
    more has no citation and its trimmed title followed by " book" holds
    a lone surrogate.  What is thrown is logged by the handler of the
    accessor, which returns the empty list.  On empty or missing text
    every extraction yields the empty list. *)
Theorem extraction_failures_are_caught :
  (forall universityName program level query w,
     (exists l, fst (fst (GeminiService.generateDegreePrograms universityName w))
                = Resolved l) /\
     (exists l, fst (fst (GeminiService.generateUniversityNews universityName w))
                = Resolved l) /\
     (exists l, fst (fst (GeminiService.generateSemesterSubjects
                            program level universityName w)) = Resolved l) /\
     (exists l, fst (fst (GeminiService.findBooks query w)) = Resolved l)) /\
  (forall universityName response,
     (exists l, GeminiService.newsItems universityName response = Resolved l) \/
     (GeminiService.newsItems universityName response = Rejected uriError /\
      wellFormed (universityName ++ " news") = false)) /\
  (forall response, exists l, GeminiService.subjects response = Resolved l) /\
  (forall response,
     (exists l, GeminiService.books response = Resolved l) \/
     (GeminiService.books response = Rejected uriError /\
      exists index item p0 p1 p2 rest,
        In (index, item) (indexedFrom 0 (JS.split (textOf response) "|||")) /\
        JS.split item "$$" = p0 :: p1 :: p2 :: rest /\
        (webUri (groundingChunksOf response) index = None \/
         webUri (groundingChunksOf response) index = Some "") /\
        wellFormed (JS.trim p0 ++ " book") = false)) /\
  (forall response, exists l, GeminiServiceDemo.newsItems response = Resolved l) /\
  (forall response, exists l, GeminiServiceDemo.subjects response = Resolved l) /\
  (forall response, exists l, GeminiServiceDemo.books response = Resolved l) /\
  (forall universityName w,
     match replies w (requests w) with
     | Resolved _ =>
         exists l,
           GeminiService.generateDegreePrograms_fn universityName w
           = (Resolved l, sent w)
     | Rejected _ => True
     end) /\
  (forall universityName query w response error,
     replies w (requests w) = Resolved response ->
     (GeminiService.newsItems universityName response = Rejected error ->
      GeminiService.generateUniversityNews universityName w
      = (Resolved [], logged "Error generating news:" error (sent w), [Invoke])) /\
     (GeminiService.books response = Rejected error ->
      GeminiService.findBooks query w
      = (Resolved [], logged "Error finding books:" error (sent w), [Invoke]))) /\
  (forall universityName cands t,
     t = None \/ t = Some "" ->
     let response := {| text := t; candidates := cands |} in
     GeminiService.newsItems universityName response = Resolved [] /\
     GeminiService.subjects response = Resolved [] /\
     GeminiService.books response = Resolved [] /\
     GeminiServiceDemo.newsItems response = Resolved [] /\
     GeminiServiceDemo.subjects response = Resolved [] /\
     GeminiServiceDemo.books response = Resolved [] /\
     GeminiService.generateDegreePrograms_fn universityName
       (constWorld (Resolved response))
     = (Resolved [], sent (constWorld (Resolved response)))) /\
  GeminiService.programs "" = [] /\
  GeminiService.programLines "" = [] /\
  GeminiServiceDemo.programs "" = [].
Proof.
  split.
  { intros universityName program level query w.
    destruct (replies w (requests w)) as [response|error] eqn:E.
    - rewrite (programs_run w response E), (news_run w response E),
        (subjects_run w response E), (books_run w response E). cbv zeta.
      destruct (firstFailure (GeminiService.newsCallback _ _) _);
        destruct (firstFailure (GeminiService.booksCallback _) _);
        repeat split; eexists; reflexivity.
    - rewrite (programs_run_failed w error E), (news_run_failed w error E),
        (subjects_run_failed w error E), (books_run_failed w error E).
      repeat split; eexists; reflexivity. }
  split.
  { intros universityName response.
    pose proof (newsItems_by_segment universityName response) as H.
    cbv zeta in H. rewrite H.
    destruct (firstFailure _ _) as [error|] eqn:Hf; [|left; eexists; reflexivity].
    right. apply firstFailure_some in Hf.
    destruct Hf as [[index item] [_ Hf]].
    destruct (segment_fields (JS.split item "$$"))
      as [Hshort | [p0 [p1 [p2 [rest Hp]]]]].
    - destruct (news_segment_short universityName
                  (groundingChunksOf response) index item Hshort) as [_ Hn].
      congruence.
    - destruct (news_segment_cases universityName (groundingChunksOf response)
                  index item _ _ _ _ Hp) as [[link [_ Hn]] | [_ [He Hwf]]];
        [congruence|].
      split; [congruence | exact Hwf]. }
  split; [intros; eexists; apply subjects_by_line|].
  split.
  { intros response.
    pose proof (books_by_segment response) as H. cbv zeta in H. rewrite H.
    destruct (firstFailure _ _) as [error|] eqn:Hf; [|left; eexists; reflexivity].
    right. apply firstFailure_some in Hf.
    destruct Hf as [[index item] [Hin Hf]].
    destruct (segment_fields (JS.split item "$$"))
      as [Hshort | [p0 [p1 [p2 [rest Hp]]]]].
    - destruct (books_segment_short (groundingChunksOf response) index item Hshort)
        as [_ Hn].
      congruence.
    - destruct (books_segment_cases (groundingChunksOf response)
                  index item _ _ _ _ Hp) as [[link [_ Hn]] | [_ [He [Hc Hwf]]]];
        [congruence|].
      split; [congruence|]. now exists index, item, p0, p1, p2, rest. }
  split; [intros; eexists; apply demo_newsItems_by_segment|].
  split; [intros; eexists; apply demo_subjects_by_line|].
  split; [intros; eexists; apply demo_books_by_segment|].
  split; [|split; [|split]].
  - intros universityName w.
    destruct (replies w (requests w)) as [response|error] eqn:E; [|exact I].
    unfold GeminiService.generateDegreePrograms_fn. run_fn E.
    destruct (negb (JS.truthy (Some (JS.orElse (text response) ""))));
      [eexists; reflexivity|].
    destruct (List.length (GeminiService.programs (JS.orElse (text response) "")) <? 5)%nat;
      eexists; reflexivity.
  - intros universityName query w response error E. split; intros Hthrown.
    + rewrite (news_run w response E). cbv zeta.
      pose proof (newsItems_by_segment universityName response) as H.
      cbv zeta in H. rewrite H in Hthrown.
      destruct (firstFailure _ _); [|discriminate].
      now injection Hthrown as ->.
    + rewrite (books_run w response E). cbv zeta.
      pose proof (books_by_segment response) as H.
      cbv zeta in H. rewrite H in Hthrown.
      destruct (firstFailure _ _); [|discriminate].
      now injection Hthrown as ->.
  - intros universityName cands t [-> | ->]; cbv zeta; repeat split; reflexivity.
  - repeat split; reflexivity.
Qed.

Lemma extraction_failures_are_caught_witness :
  let reply := textResponse (String highSurrogate "$$Author$$About") in
  GeminiService.findBooks "algebra" (constWorld (Resolved reply))
    = (Resolved [],
       logged "Error finding books:" uriError (sent (constWorld (Resolved reply))),
       [Invoke]) /\
  GeminiService.newsItems "Unilag" {| text := Some ""; candidates := None |}
    = Resolved [].
Proof.
  cbv zeta.
  pose proof extraction_failures_are_caught
    as [_ [_ [_ [_ [_ [_ [_ [_ [Hcaught [Hempty _]]]]]]]]]].
  split.
  - apply (proj2 (Hcaught "Unilag" "algebra"
              (constWorld (Resolved
                 (textResponse (String highSurrogate "$$Author$$About"))))
              (textResponse (String highSurrogate "$$Author$$About"))
              uriError eq_refl)).
    reflexivity.
  - apply (Hempty "Unilag" None (Some "")). now right.
Defined.

(** C6: the news accessor returns at most 4 items and the subjects
    accessor at most 8, whatever the request does and in both copies;
    when the request resolves, the result is the first 4 (8) of the
    extracted records, which stand in the order of their segments.  For
    the news accessor that builds search links this is so whenever the
    institution name holds no lone surrogate, and in general whenever no
    segment throws; when one does, the accessor returns the empty
    list. *)
Theorem accessors_cap_their_results (w : World) :
  (forall universityName,
     exists items,
       fst (fst (GeminiService.generateUniversityNews universityName w))
         = Resolved items /\ (List.length items <= 4)%nat) /\
  (forall program level universityName,
     exists items,
       fst (fst (GeminiService.generateSemesterSubjects program level universityName w))
         = Resolved items /\ (List.length items <= 8)%nat) /\
  (forall apiKey universityName,
     exists items,
       fst (fst (GeminiServiceDemo.generateUniversityNews apiKey universityName w))
         = Resolved items /\ (List.length items <= 4)%nat) /\
  (forall apiKey program level universityName,
     exists items,
       fst (fst (GeminiServiceDemo.generateSemesterSubjects
                   apiKey program level universityName w))
         = Resolved items /\ (List.length items <= 8)%nat) /\
  (forall response,
     replies w (requests w) = Resolved response ->
     let segments := indexedFrom 0 (JS.split (textOf response) "|||") in
     let lines :=
       indexedFrom 0 (JS.split (textOf response) (String 10 EmptyString)) in
     let chunks := groundingChunksOf response in
     (forall universityName,
        let callback := GeminiService.newsCallback universityName chunks in
        (wellFormed (universityName ++ " news") = true ->
         fst (fst (GeminiService.generateUniversityNews universityName w))
         = Resolved (firstn 4 (flat_map (emitted callback) segments))) /\
        fst (fst (GeminiService.generateUniversityNews universityName w))
        = Resolved
            match firstFailure callback segments with
            | Some _ => []
            | None => firstn 4 (flat_map (emitted callback) segments)
            end) /\
     (forall program level universityName,
        fst (fst (GeminiService.generateSemesterSubjects program level universityName w))
        = Resolved (firstn 8
            (flat_map (emitted GeminiService.subjectsCallback) lines))) /\
     (forall apiKey universityName,
        GeminiServiceDemo.isMockMode apiKey = false ->
        fst (fst (GeminiServiceDemo.generateUniversityNews apiKey universityName w))
        = Resolved (firstn 4
            (flat_map (emitted (GeminiServiceDemo.newsCallback chunks)) segments))) /\
     (forall apiKey program level universityName,
        GeminiServiceDemo.isMockMode apiKey = false ->
        flat_map (emitted GeminiServiceDemo.subjectsCallback) lines <> [] ->
        fst (fst (GeminiServiceDemo.generateSemesterSubjects
                    apiKey program level universityName w))
        = Resolved (firstn 8
            (flat_map (emitted GeminiServiceDemo.subjectsCallback) lines)))).
Proof.
  split; [|split; [|split; [|split]]].
  - intros universityName.
    destruct (replies w (requests w)) as [response|error] eqn:E.
    + rewrite (news_run w response E). cbv zeta.
      destruct (firstFailure _ _); eexists; (split; [reflexivity|]);
        [simpl; lia | apply firstn_le_length].
    + rewrite (news_run_failed w error E). eexists. split; [reflexivity|].
      simpl. lia.
  - intros program level universityName.
    destruct (replies w (requests w)) as [response|error] eqn:E.
    + rewrite (subjects_run w response E). eexists. split; [reflexivity|].
      apply firstn_le_length.
    + rewrite (subjects_run_failed w error E). eexists. split; [reflexivity|].
      simpl. lia.
  - intros apiKey universityName.
    destruct (GeminiServiceDemo.isMockMode apiKey) eqn:Hmode.
    + rewrite (mock_news apiKey Hmode). eexists. split; [reflexivity|].
      simpl. lia.
    + destruct (replies w (requests w)) as [response|error] eqn:E.
      * rewrite (demo_news_run w response E apiKey Hmode).
        eexists. split; [reflexivity|]. apply firstn_le_length.
      * rewrite (demo_news_run_failed w error E apiKey Hmode).
        eexists. split; [reflexivity|]. simpl. lia.
  - intros apiKey program level universityName.
    destruct (GeminiServiceDemo.isMockMode apiKey) eqn:Hmode.
    + rewrite (mock_subjects apiKey Hmode). eexists. split; [reflexivity|].
      simpl. lia.
    + destruct (replies w (requests w)) as [response|error] eqn:E.
      * rewrite (demo_subjects_run w response E apiKey Hmode).
        cbv zeta. cbn [fst].
        match goal with
        | |- context [(0 <? ?n)%nat] => destruct (0 <? n)%nat
        end; eexists; (split; [reflexivity|]);
          [apply firstn_le_length | simpl; lia].
      * rewrite (demo_subjects_run_failed w error E apiKey Hmode).
        eexists. split; [reflexivity|]. simpl. lia.
  - intros response E. cbv zeta. split; [|split; [|split]].
    + intros universityName. rewrite (news_run w response E). cbv zeta. split.
      * intros Hwf. now rewrite (news_never_fails _ _ _ Hwf).
      * now destruct (firstFailure _ _).
    + intros program level universityName.
      now rewrite (subjects_run w response E).
    + intros apiKey universityName Hmode.
      now rewrite (demo_news_run w response E apiKey Hmode).
    + intros apiKey program level universityName Hmode Hsome.
      rewrite (demo_subjects_run w response E apiKey Hmode). cbv zeta. cbn [fst].
      destruct (flat_map (emitted GeminiServiceDemo.subjectsCallback)
                  (indexedFrom 0
                     (JS.split (textOf response) (String 10 EmptyString))));
        [congruence | reflexivity].
Qed.

Lemma accessors_cap_their_results_witness :
  fst (fst (GeminiService.generateUniversityNews "Unilag"
       (constWorld (Resolved (textResponse
          "A$$1$$a|||B$$2$$b|||C$$3$$c|||D$$4$$d|||E$$5$$e")))))
  = Resolved
      [NewsItem.mk "A" "a" "1" "https://www.google.com/search?q=Unilag%20news";
       NewsItem.mk "B" "b" "2" "https://www.google.com/search?q=Unilag%20news";
       NewsItem.mk "C" "c" "3" "https://www.google.com/search?q=Unilag%20news";
       NewsItem.mk "D" "d" "4" "https://www.google.com/search?q=Unilag%20news"].
Proof.
  pose proof (accessors_cap_their_results
    (constWorld (Resolved (textResponse
       "A$$1$$a|||B$$2$$b|||C$$3$$c|||D$$4$$d|||E$$5$$e")))) as [_ [_ [_ [_ H]]]].
  rewrite (proj1 (proj1 (H _ eq_refl) "Unilag") eq_refl). reflexivity.
Defined.

(** C7 (as stated, refuted): in the copy with demo mode a book whose
    segment carries the link "#" is emitted with the link "#", as is
    every book there; and in the copy without demo mode the search URL of
    a news item is built from the university name, not from the
    headline. *)
Lemma placeholder_link_is_emitted :
  fst (fst (GeminiServiceDemo.findBooks (Some "a-real-key") noBooks "algebra"
       (constWorld (Resolved (textResponse "Title$$Author$$Desc$$#")))))
    = Resolved [Book.mk "Title" "Author" "Desc" (Some "#")] /\
  GeminiService.newsItems "Unilag"
      (textResponse "Exam timetable released$$today$$Details")
    = Resolved [NewsItem.mk "Exam timetable released" "Details" "today"
                  "https://www.google.com/search?q=Unilag%20news"].
Proof. split; reflexivity. Qed.

(** C7 (amended): records are matched with citations by the index of
    their segment before filtering.  Without demo mode, a news item keeps
    an embedded link of 5 code units or more; otherwise its link is the
    citation URI at that index when there is a non-empty one, and else
    the search URL built from the university name followed by " news".
    A book never keeps an embedded link: its link is the citation URI at
    its index when there is a non-empty one, and else the search URL
    built from its trimmed title followed by " book", so it is "#" only
    if the citation is.  A search URL exists for the texts that hold no
    lone surrogate; where one is needed and there is none, the segment
    yields no record and throws the [URIError].  With demo mode, a news
    item whose embedded link is missing or short gets the citation URI or
    else "#", and every book gets "#". *)
Theorem links_of_emitted_records :
  (forall universityName chunks index item p0 p1 p2 rest,
     JS.split item "$$" = p0 :: p1 :: p2 :: rest ->
     let embedded := option_map JS.trim (hd_error rest) in
     let short :=
       embedded = None \/
       exists l, embedded = Some l /\ (Utf16.length l < 5)%nat in
     let callback := GeminiService.newsCallback universityName chunks in
     (forall url,
        searchUrl (universityName ++ " news") = Some url ->
        exists r,
          emitted callback (index, item) = [r] /\
          ((exists l, embedded = Some l /\ (5 <= Utf16.length l)%nat /\
                      NewsItem.link r = l) \/
           (short /\ substituted (webUri chunks index) url (NewsItem.link r)))) /\
     (searchUrl (universityName ++ " news") = None ->
        (exists r,
           emitted callback (index, item) = [r] /\
           ((exists l, embedded = Some l /\ (5 <= Utf16.length l)%nat /\
                       NewsItem.link r = l) \/
            (short /\ exists u, webUri chunks index = Some u /\ u <> "" /\
                                NewsItem.link r = u)))
        \/ (emitted callback (index, item) = [] /\
            failure callback (index, item) = Some uriError /\
            short /\
            (webUri chunks index = None \/ webUri chunks index = Some "")))) /\
  (forall chunks index item p0 p1 p2 rest,
     JS.split item "$$" = p0 :: p1 :: p2 :: rest ->
     let callback := GeminiService.booksCallback chunks in
     (forall url,
        searchUrl (JS.trim p0 ++ " book") = Some url ->
        exists r link,
          emitted callback (index, item) = [r] /\
          Book.link r = Some link /\
          substituted (webUri chunks index) url link /\
          (webUri chunks index <> Some "#" -> link <> "#")) /\
     (searchUrl (JS.trim p0 ++ " book") = None ->
        (exists r u,
           emitted callback (index, item) = [r] /\
           webUri chunks index = Some u /\ u <> "" /\ Book.link r = Some u)
        \/ (emitted callback (index, item) = [] /\
            failure callback (index, item) = Some uriError /\
            (webUri chunks index = None \/ webUri chunks index = Some "")))) /\
  (forall query, searchUrl query = None <-> wellFormed query = false) /\
  (forall chunks index item p0 p1 p2 rest,
     JS.split item "$$" = p0 :: p1 :: p2 :: rest ->
     exists r,
       emitted (GeminiServiceDemo.newsCallback chunks) (index, item) = [r] /\
       let embedded := option_map JS.trim (hd_error rest) in
       ((exists l, embedded = Some l /\ (5 <= Utf16.length l)%nat /\
                   NewsItem.link r = l) \/
        ((embedded = None \/
          exists l, embedded = Some l /\ (Utf16.length l < 5)%nat) /\
         substituted (webUri chunks index) "#" (NewsItem.link r)))) /\
  (forall index item p0 p1 p2 rest,
     JS.split item "$$" = p0 :: p1 :: p2 :: rest ->
     exists r,
       emitted GeminiServiceDemo.booksCallback (index, item) = [r] /\
       Book.link r = Some "#") /\
  (forall universityName response,
     let callback :=
       GeminiService.newsCallback universityName (groundingChunksOf response) in
     let segments := indexedFrom 0 (JS.split (textOf response) "|||") in
     GeminiService.newsItems universityName response
     = match firstFailure callback segments with
       | Some error => Rejected error
       | None => Resolved (flat_map (emitted callback) segments)
       end) /\
  (forall response,
     let callback := GeminiService.booksCallback (groundingChunksOf response) in
     let segments := indexedFrom 0 (JS.split (textOf response) "|||") in
     GeminiService.books response
     = match firstFailure callback segments with
       | Some error => Rejected error
       | None => Resolved (flat_map (emitted callback) segments)
       end) /\
  (forall response,
     GeminiServiceDemo.newsItems response
     = Resolved (flat_map
         (emitted (GeminiServiceDemo.newsCallback (groundingChunksOf response)))
         (indexedFrom 0 (JS.split (textOf response) "|||")))) /\
  (forall response,
     GeminiServiceDemo.books response
     = Resolved (flat_map (emitted GeminiServiceDemo.booksCallback)
         (indexedFrom 0 (JS.split (textOf response) "|||")))).
Proof.
  split; [|split; [|split; [|split; [|split]]]].
  - intros universityName chunks index item p0 p1 p2 rest H. cbv zeta.
    pose proof (news_segment universityName chunks index item _ _ _ _ H) as Hs.
    pose proof (newsLink_cases (option_map JS.trim (hd_error rest))
                  (webUri chunks index) (universityName ++ " news")) as Hn.
    cbv zeta in Hn.
    pose proof (citedOrSearched_cases (webUri chunks index)
                  (universityName ++ " news")) as Hc.
    destruct (newsLink _ _ _) as [link|].
    + destruct Hs as [Hs _]. split.
      * intros url Hurl. eexists. split; [exact Hs|]. cbn [NewsItem.link].
        destruct Hn as [Hkeep | [Hshort Hlink]]; [now left|].
        right. split; [exact Hshort|]. rewrite Hlink in Hc.
        destruct Hc as [Hcited | [Hnone Hsearch]]; [now left|].
        right. split; [exact Hnone | congruence].
      * intros Hnone. left. eexists. split; [exact Hs|]. cbn [NewsItem.link].
        destruct Hn as [Hkeep | [Hshort Hlink]]; [now left|].
        right. split; [exact Hshort|]. rewrite Hlink in Hc.
        destruct Hc as [Hcited | [_ Hsearch]]; [exact Hcited | congruence].
    + destruct Hn as [Hshort Hlink]. rewrite Hlink in Hc.
      destruct Hc as [Hcite Hwf]. apply searchUrl_wellFormed in Hwf. split.
      * intros url Hurl. congruence.
      * intros _. right. destruct Hs as [He Hf]. auto.
  - intros chunks index item p0 p1 p2 rest H. cbv zeta.
    pose proof (books_segment chunks index item _ _ _ _ H) as Hs.
    pose proof (citedOrSearched_cases (webUri chunks index)
                  (JS.trim p0 ++ " book")) as Hc.
    destruct (citedOrSearched _ _) as [link|].
    + destruct Hs as [Hs _]. split.
      * intros url Hurl. eexists. exists link. split; [exact Hs|].
        cbn [Book.link]. split; [reflexivity|].
        destruct Hc as [[u [Hu [Hne Heq]]] | [Hnone Hsearch]].
        -- split; [left; now exists u|]. intros Hcite Hlink. apply Hcite.
           now rewrite Hu, <- Heq, Hlink.
        -- assert (link = url) as -> by congruence.
           split; [now right|]. intros _.
           now apply (searchUrl_not_placeholder _ _ Hurl).
      * intros Hnone. left.
        destruct Hc as [[u [Hu [Hne Heq]]] | [_ Hsearch]]; [|congruence].
        eexists. exists u. split; [exact Hs|]. cbn [Book.link].
        repeat split; [exact Hu | exact Hne | now rewrite Heq].
    + destruct Hc as [Hcite Hwf]. apply searchUrl_wellFormed in Hwf. split.
      * intros url Hurl. congruence.
      * intros _. right. destruct Hs as [He Hf]. auto.
  - exact searchUrl_wellFormed.
  - intros chunks index item p0 p1 p2 rest H.
    eexists. split; [rewrite (demo_news_segment _ _ _ _ _ _ _ H); reflexivity|].
    cbn [NewsItem.link].
    destruct (news_link_cases (option_map JS.trim (hd_error rest))
                (JS.orElse (webUri chunks index) "#"))
      as [Hkeep | [Hshort Hlink]].
    + left. exact Hkeep.
    + right. split; [exact Hshort|]. cbv zeta. rewrite Hlink.
      apply orElse_substituted.
  - intros index item p0 p1 p2 rest H.
    eexists. split; [rewrite (demo_books_segment _ _ _ _ _ _ H); reflexivity|].
    reflexivity.
  - split; [exact newsItems_by_segment|].
    split; [exact books_by_segment|].
    split; [exact demo_newsItems_by_segment | exact demo_books_by_segment].
Qed.

Lemma links_of_emitted_records_witness :
  exists r link,
    emitted (GeminiService.booksCallback
               [ {| web := None |}; {| web := Some {| uri := Some "https://cite.ng/b" |} |} ])
            (1%nat, "Title$$Author$$Desc$$#") = [r] /\
    Book.link r = Some link /\
    substituted (Some "https://cite.ng/b")
                "https://www.google.com/search?q=Title%20book" link /\
    link <> "#".
Proof.
  pose proof links_of_emitted_records as [_ [Hbooks _]].
  destruct (proj1 (Hbooks
    [ {| web := None |}; {| web := Some {| uri := Some "https://cite.ng/b" |} |} ]
    1%nat "Title$$Author$$Desc$$#" "Title" "Author" "Desc" ["#"] eq_refl)
    "https://www.google.com/search?q=Title%20book" eq_refl)
    as [r [link [Hr [Hl [Hs Hne]]]]].
  exists r, link. repeat split; [exact Hr | exact Hl | exact Hs |].
  apply Hne. discriminate.
Defined.

(* ===================================================================== *)
(** ** The retry helper: recovery *)
(* ===================================================================== *)

Lemma not_rateLimited_cases {St T} (fn : Operation St T) (s : St) :
  ~ rateLimitedAt fn s ->
  (exists v, fst (fn s) = Resolved v) \/
  (exists error, fst (fn s) = Rejected error /\
                 GeminiService.isRateLimit error = false).
Proof.
  intros H. destruct (fst (fn s)) as [v|error] eqn:E.
  - left. now exists v.
  - right. exists error. split; [reflexivity|].
    destruct (GeminiService.isRateLimit error) eqn:He; [|reflexivity].
    exfalso. apply H. exists error. now rewrite E.
Qed.

Lemma retry_settles_at {St T} (fn : Operation St T) (k : nat) :
  forall (retries delay : Z) (s : St),
    (Z.of_nat k <= retries)%Z ->
    (forall j, (j < k)%nat -> rateLimitedAt fn (stateBefore fn j s)) ->
    ~ rateLimitedAt fn (stateBefore fn k s) ->
    let run := GeminiService.retryWithBackoff fn retries delay s in
    fst run = fn (stateBefore fn k s) /\
    invocations (snd run) = S k /\
    delays (snd run) = schedule delay k.
Proof.
  induction k as [|k IH]; intros retries delay s Hr Hfail Hlast; cbv zeta.
  - unfold stateBefore in *. simpl in *.
    destruct (fn s) as [o s1] eqn:E.
    destruct (not_rateLimited_cases fn s Hlast) as [[v Hv] | [error [He Hc]]];
      rewrite E in *; simpl in *; subst o.
    + rewrite (retry_resolved fn _ _ _ _ _ E). repeat split.
    + rewrite (retry_other fn _ _ _ _ _ E Hc). repeat split.
  - destruct (Hfail 0%nat (Nat.lt_0_succ _)) as [error [Hfn Herr]].
    unfold stateBefore in Hfn. simpl in Hfn.
    destruct (fn s) as [o s1] eqn:E. simpl in Hfn. subst o.
    rewrite (retry_again fn _ _ _ _ _ E) by (auto; lia).
    destruct (IH (retries - 1)%Z (delay * 2)%Z s1) as [H1 [H2 H3]].
    + lia.
    + intros j Hj. specialize (Hfail (S j) ltac:(lia)).
      rewrite stateBefore_succ, E in Hfail. exact Hfail.
    + rewrite stateBefore_succ, E in Hlast. exact Hlast.
    + rewrite stateBefore_succ, E. simpl snd at 1.
      unfold after. cbn [fst snd app]. repeat split.
      * exact H1.
      * unfold invocations in *. simpl. rewrite H2. reflexivity.
      * cbn [delays]. rewrite H3. unfold schedule. simpl seq. cbn [map].
        f_equal; [change (Z.of_nat 0) with 0%Z; rewrite Z.pow_0_r; lia|].
        rewrite <- seq_shift, map_map.
        apply map_ext. intros i. rewrite Nat2Z.inj_succ, Z.pow_succ_r by lia. lia.
Qed.

(** X1: the helper stops at the first attempt that is not a rate-limit
    failure.  When the first [k] attempts fail with a rate-limit error,
    [k] is within the budget and attempt [k + 1] resolves or fails for
    another reason, the helper settles as that attempt did, after
    [k + 1] invocations and [k] timers on the doubling schedule. *)
Theorem retryWithBackoff_settles_at_first_other_outcome
  {St T} (fn : Operation St T) (k : nat) (retries delay : Z) (s : St) :
  (Z.of_nat k <= retries)%Z ->
  (forall j, (j < k)%nat -> rateLimitedAt fn (stateBefore fn j s)) ->
  ~ rateLimitedAt fn (stateBefore fn k s) ->
  let run := GeminiService.retryWithBackoff fn retries delay s in
  fst run = fn (stateBefore fn k s) /\
  invocations (snd run) = S k /\
  delays (snd run) = schedule delay k.
Proof. apply retry_settles_at. Qed.

Lemma retryWithBackoff_settles_at_first_other_outcome_witness :
  let run := GeminiService.retryWithBackoff (failsThenResolves 2) 3 2000 0%nat in
  fst run = (Resolved 2%nat, 3%nat) /\
  invocations (snd run) = 3%nat /\
  delays (snd run) = [2000; 4000]%Z.
Proof.
  apply (retryWithBackoff_settles_at_first_other_outcome
           (failsThenResolves 2) 2 3 2000 0%nat).
  - lia.
  - intros j Hj. exists tooManyRequests.
    destruct j as [|[|j]]; [split; reflexivity | split; reflexivity | lia].
  - intros [error [H _]]. discriminate.
Defined.

(* ===================================================================== *)
(** ** Accessors that catch their own failures *)
(* ===================================================================== *)

Lemma resolves_once {T} (fn : Operation World T) (w : World) :
  (exists v w', fn w = (Resolved v, w') /\ requests w' = S (requests w)) ->
  resolvesInOneRequest w (GeminiService.retryWithBackoff_default fn w).
Proof.
  intros [v [w' [Hfn Hreq]]]. unfold GeminiService.retryWithBackoff_default.
  rewrite (retry_resolved fn _ _ _ _ _ Hfn).
  repeat split; [now exists v | exact Hreq].
Qed.

Lemma demo_resolves_once {T} (fn : Operation World T) (w : World) :
  (exists v w', fn w = (Resolved v, w') /\ requests w' = S (requests w)) ->
  resolvesInOneRequest w (GeminiServiceDemo.retryWithBackoff_default fn w).
Proof.
  intros [v [w' [Hfn Hreq]]]. unfold GeminiServiceDemo.retryWithBackoff_default.
  rewrite (demo_retry_resolved fn _ _ _ _ _ Hfn).
  repeat split; [now exists v | exact Hreq].
Qed.

(** Whatever the reply, a block that catches everything completes. *)
Ltac caught_block :=
  match goal with
  | |- exists v w', _ ?w = _ /\ _ =>
      let response := fresh "response" in
      let error := fresh "error" in
      let E := fresh "E" in
      destruct (replies w (requests w)) as [response|error] eqn:E;
      run_fn E;
      repeat match goal with
             | |- context [if ?c then _ else _] => destruct c
             | |- context [match ?x with Resolved _ => _ | Rejected _ => _ end] =>
                 destruct x
             end;
      eexists; eexists; split; reflexivity
  end.

Section SelfCatching.
Variable w : World.
Variable parseBooks : string -> Outcome (option (list Book.t)).

Lemma image_block prompt :
  exists v w', GeminiService.generateImage_fn prompt w = (Resolved v, w')
               /\ requests w' = S (requests w).
Proof. unfold GeminiService.generateImage_fn. caught_block. Qed.

Lemma programs_block universityName :
  exists v w', GeminiService.generateDegreePrograms_fn universityName w = (Resolved v, w')
               /\ requests w' = S (requests w).
Proof. unfold GeminiService.generateDegreePrograms_fn. caught_block. Qed.

Lemma news_block universityName :
  exists v w', GeminiService.generateUniversityNews_fn universityName w = (Resolved v, w')
               /\ requests w' = S (requests w).
Proof.
  unfold GeminiService.generateUniversityNews_fn.
  destruct (replies w (requests w)) as [response|error] eqn:E; run_fn E.
  - pose proof (newsItems_by_segment universityName response) as H.
    cbv zeta in H. rewrite H.
    destruct (firstFailure _ _); eexists; eexists; split; reflexivity.
  - eexists; eexists; split; reflexivity.
Qed.

Lemma subjects_block program level universityName :
  exists v w',
    GeminiService.generateSemesterSubjects_fn program level universityName w
      = (Resolved v, w')
    /\ requests w' = S (requests w).
Proof.
  unfold GeminiService.generateSemesterSubjects_fn.
  destruct (replies w (requests w)) as [response|error] eqn:E; run_fn E.
  - rewrite subjects_by_line. eexists; eexists; split; reflexivity.
  - eexists; eexists; split; reflexivity.
Qed.

Lemma recommendBooks_block program level :
  exists v w',
    GeminiService.recommendBooks_fn parseBooks program level w = (Resolved v, w')
    /\ requests w' = S (requests w).
Proof. unfold GeminiService.recommendBooks_fn. caught_block. Qed.

Lemma processDocument_block files task :
  exists v w', GeminiService.processDocument_fn files task w = (Resolved v, w')
               /\ requests w' = S (requests w).
Proof. unfold GeminiService.processDocument_fn. caught_block. Qed.

Lemma findBooks_block query :
  exists v w', GeminiService.findBooks_fn query w = (Resolved v, w')
               /\ requests w' = S (requests w).
Proof.
  unfold GeminiService.findBooks_fn.
  destruct (replies w (requests w)) as [response|error] eqn:E; run_fn E.
  - pose proof (books_by_segment response) as H. cbv zeta in H. rewrite H.
    destruct (firstFailure _ _); eexists; eexists; split; reflexivity.
  - eexists; eexists; split; reflexivity.
Qed.

Variable apiKey : option string.
Hypothesis Hlive : GeminiServiceDemo.isMockMode apiKey = false.

Ltac demo_block :=
  let client := fresh "client" in
  let Hai := fresh "Hai" in
  destruct (live_mode _ Hlive) as [client [Hai _]]; rewrite Hai.

Lemma demo_image_block prompt :
  exists v w', GeminiServiceDemo.generateImage_fn apiKey prompt w = (Resolved v, w')
               /\ requests w' = S (requests w).
Proof. unfold GeminiServiceDemo.generateImage_fn. demo_block. caught_block. Qed.

Lemma demo_programs_block universityName :
  exists v w',
    GeminiServiceDemo.generateDegreePrograms_fn apiKey universityName w
      = (Resolved v, w')
    /\ requests w' = S (requests w).
Proof.
  unfold GeminiServiceDemo.generateDegreePrograms_fn. demo_block. caught_block.
Qed.

Lemma demo_news_block universityName :
  exists v w',
    GeminiServiceDemo.generateUniversityNews_fn apiKey universityName w
      = (Resolved v, w')
    /\ requests w' = S (requests w).
Proof.
  unfold GeminiServiceDemo.generateUniversityNews_fn. demo_block.
  destruct (replies w (requests w)) as [response|error] eqn:E; run_fn E.
  - rewrite demo_newsItems_by_segment. eexists; eexists; split; reflexivity.
  - eexists; eexists; split; reflexivity.
Qed.

Lemma demo_subjects_block program level universityName :
  exists v w',
    GeminiServiceDemo.generateSemesterSubjects_fn apiKey program level universityName w
      = (Resolved v, w')
    /\ requests w' = S (requests w).
Proof.
  unfold GeminiServiceDemo.generateSemesterSubjects_fn. demo_block.
  destruct (replies w (requests w)) as [response|error] eqn:E; run_fn E.
  - rewrite demo_subjects_by_line. eexists; eexists; split; reflexivity.
  - eexists; eexists; split; reflexivity.
Qed.

Lemma demo_recommendBooks_block program level :
  exists v w',
    GeminiServiceDemo.recommendBooks_fn apiKey parseBooks program level w
      = (Resolved v, w')
    /\ requests w' = S (requests w).
Proof.
  unfold GeminiServiceDemo.recommendBooks_fn. demo_block. caught_block.
Qed.

Lemma demo_processDocument_block files task :
  exists v w',
    GeminiServiceDemo.processDocument_fn apiKey files task w = (Resolved v, w')
    /\ requests w' = S (requests w).
Proof.
  unfold GeminiServiceDemo.processDocument_fn. demo_block. caught_block.
Qed.

Lemma demo_findBooks_block query :
  exists v w',
    GeminiServiceDemo.findBooks_fn apiKey query w = (Resolved v, w')
    /\ requests w' = S (requests w).
Proof.
  unfold GeminiServiceDemo.findBooks_fn. demo_block.
  destruct (replies w (requests w)) as [response|error] eqn:E; run_fn E.
  - rewrite demo_books_by_segment. eexists; eexists; split; reflexivity.
  - eexists; eexists; split; reflexivity.
Qed.

End SelfCatching.

(** X2: the accessors whose body is one [try]/[catch] never retry and
    never reject.  Whatever the reply to their request, a rate-limit
    rejection included, they resolve after a single invocation and a
    single request, with no timer armed: the retry helper around them
    never sees a failure.  This holds for the image, program, news,
    subject, recommendation, document and book-search accessors of both
    copies (the copy with demo mode in live mode). *)
Theorem self_catching_accessors_never_retry
  (w : World) (parseBooks : string -> Outcome (option (list Book.t))) :
  (forall prompt universityName program level query files task,
     resolvesInOneRequest w (GeminiService.generateImage prompt w) /\
     resolvesInOneRequest w (GeminiService.generateDegreePrograms universityName w) /\
     resolvesInOneRequest w (GeminiService.generateUniversityNews universityName w) /\
     resolvesInOneRequest w
       (GeminiService.generateSemesterSubjects program level universityName w) /\
     resolvesInOneRequest w
       (GeminiService.recommendBooks parseBooks program level w) /\
     resolvesInOneRequest w (GeminiService.processDocument files task w) /\
     resolvesInOneRequest w (GeminiService.findBooks query w)) /\
  (forall apiKey prompt universityName program level query files task,
     GeminiServiceDemo.isMockMode apiKey = false ->
     resolvesInOneRequest w (GeminiServiceDemo.generateImage apiKey prompt w) /\
     resolvesInOneRequest w
       (GeminiServiceDemo.generateDegreePrograms apiKey universityName w) /\
     resolvesInOneRequest w
       (GeminiServiceDemo.generateUniversityNews apiKey universityName w) /\
     resolvesInOneRequest w
       (GeminiServiceDemo.generateSemesterSubjects apiKey program level
          universityName w) /\
     resolvesInOneRequest w
       (GeminiServiceDemo.recommendBooks apiKey parseBooks program level w) /\
     resolvesInOneRequest w (GeminiServiceDemo.processDocument apiKey files task w) /\
     resolvesInOneRequest w (GeminiServiceDemo.findBooks apiKey parseBooks query w)).
Proof.
  split.
  - intros prompt universityName program level query files task.
    split; [apply resolves_once, image_block|].
    split; [apply resolves_once, programs_block|].
    split; [apply resolves_once, news_block|].
    split; [apply resolves_once, subjects_block|].
    split; [apply resolves_once, recommendBooks_block|].
    split; [apply resolves_once, processDocument_block|].
    apply resolves_once, findBooks_block.
  - intros apiKey prompt universityName program level query files task Hlive.
    destruct (live_mode _ Hlive) as [client [Hai Hguard]].
    unfold GeminiServiceDemo.generateImage, GeminiServiceDemo.generateDegreePrograms,
      GeminiServiceDemo.generateUniversityNews,
      GeminiServiceDemo.generateSemesterSubjects,
      GeminiServiceDemo.recommendBooks, GeminiServiceDemo.processDocument,
      GeminiServiceDemo.findBooks.
    rewrite Hguard.
    split; [now apply demo_resolves_once, demo_image_block|].
    split; [now apply demo_resolves_once, demo_programs_block|].
    split; [now apply demo_resolves_once, demo_news_block|].
    split; [now apply demo_resolves_once, demo_subjects_block|].
    split; [now apply demo_resolves_once, demo_recommendBooks_block|].
    split; [now apply demo_resolves_once, demo_processDocument_block|].
    now apply demo_resolves_once, demo_findBooks_block.
Qed.

Lemma self_catching_accessors_never_retry_witness :
  resolvesInOneRequest (constWorld (Rejected tooManyRequests))
    (GeminiServiceDemo.generateDegreePrograms (Some "a-real-key") "Unilag"
       (constWorld (Rejected tooManyRequests))).
Proof.
  exact (proj1 (proj2 (proj2 (self_catching_accessors_never_retry
           (constWorld (Rejected tooManyRequests)) noBooks)
           (Some "a-real-key") "draw a cell" "Unilag" "Law" "100 Level" "algebra"
           [] GeminiServiceDemo.OCR eq_refl))).
Defined.

(* ===================================================================== *)
(** ** Accessors that leave failures to the retry helper *)
(* ===================================================================== *)

Lemma demo_retry_agrees {St T} (fn : Operation St T) (n : nat) :
  forall retries delay s,
    Z.to_nat retries = n ->
    GeminiServiceDemo.retryWithBackoff fn retries delay s
      = GeminiService.retryWithBackoff fn retries delay s.
Proof.
  induction n as [|n IH]; intros retries delay s Hn;
    rewrite GeminiService.retryWithBackoff_equation_1,
            GeminiServiceDemo.retryWithBackoff_equation_1;
    destruct (fn s) as [[v|error] s1]; simpl; try reflexivity;
    destruct (Z_lt_dec 0 retries) as [Hr|Hr]; simpl; try reflexivity;
    try (exfalso; lia);
    change (GeminiServiceDemo.isRateLimit error)
      with (GeminiService.isRateLimit error);
    destruct (GeminiService.isRateLimit error); simpl; try reflexivity.
  rewrite IH by lia. reflexivity.
Qed.

Lemma demo_default_agrees {St T} (fn : Operation St T) (s : St) :
  GeminiServiceDemo.retryWithBackoff_default fn s
    = GeminiService.retryWithBackoff_default fn s.
Proof.
  unfold GeminiServiceDemo.retryWithBackoff_default,
         GeminiService.retryWithBackoff_default.
  now apply (demo_retry_agrees fn 3).
Qed.

(** The helper settles as one of the attempts did. *)
Lemma retry_outcome_of_attempt {St T} (fn : Operation St T) (n : nat) :
  forall retries delay s,
    Z.to_nat retries = n ->
    exists j, (j <= n)%nat /\
      fst (GeminiService.retryWithBackoff fn retries delay s)
        = fn (stateBefore fn j s).
Proof.
  induction n as [|n IH]; intros retries delay s Hn;
    destruct (retry_step fn retries delay s) as [E | [Hr E]]; rewrite E.
  - exists 0%nat. split; [lia | reflexivity].
  - lia.
  - exists 0%nat. split; [lia | reflexivity].
  - destruct (IH (retries - 1)%Z (delay * 2)%Z (snd (fn s)) ltac:(lia))
      as [j [Hj Hrun]].
    exists (S j). split; [lia|].
    unfold after. cbn [fst]. rewrite Hrun. now rewrite stateBefore_succ.
Qed.

Lemma afterRequests_0 (w : World) : afterRequests 0 w = w.
Proof. destruct w. reflexivity. Qed.

Lemma orElse_nonempty (v : option string) (d : string) :
  d <> EmptyString -> JS.orElse v d <> EmptyString.
Proof. intros Hd. destruct v as [[|c t]|]; simpl; auto. discriminate. Qed.

(** An operation that sends one request and then only computes: [after_]
    tells how it settles on a reply. *)
Section OneRequestThenCompute.
Context {T : Type}.
Variable fn : Operation World T.
Variable after_ : GenerateContentResponse -> Outcome T.

Hypothesis Hfn :
  forall w, fn w = (settledBy after_ (replies w (requests w)), sent w).

Lemma plain_state j w : stateBefore fn j w = afterRequests j w.
Proof.
  induction j as [|j IH].
  - unfold stateBefore. simpl. now rewrite afterRequests_0.
  - unfold stateBefore in *. simpl. rewrite IH, Hfn. reflexivity.
Qed.

Lemma plain_attempt j w :
  fn (stateBefore fn j w)
    = (settledBy after_ (replies w (j + requests w)), afterRequests (S j) w).
Proof. rewrite plain_state, Hfn. reflexivity. Qed.

Lemma plain_rate_limited j w :
  rateLimitedReply w j -> rateLimitedAt fn (stateBefore fn j w).
Proof.
  intros [error [Hreply Herr]]. exists error.
  rewrite plain_attempt, Hreply. split; [reflexivity | exact Herr].
Qed.

(** The run over [k] rate-limited replies and a reply that ends it: one
    that is not a rate-limit failure, or any at all when the budget of 3
    retries is used up. *)
Lemma plain_run (w : World) (k : nat) :
  (k <= 3)%nat ->
  (forall j, (j < k)%nat -> rateLimitedReply w j) ->
  match settledBy after_ (replies w (k + requests w)) with
  | Resolved _ => True
  | Rejected error => GeminiService.isRateLimit error = false \/ k = 3%nat
  end ->
  let run := GeminiService.retryWithBackoff_default fn w in
  fst run = (settledBy after_ (replies w (k + requests w)), afterRequests (S k) w) /\
  invocations (snd run) = S k /\
  delays (snd run) = schedule 2000 k.
Proof.
  intros Hk Hfail Hend. cbv zeta. unfold GeminiService.retryWithBackoff_default.
  rewrite <- plain_attempt.
  destruct (settledBy after_ (replies w (k + requests w))) as [v|error] eqn:Hs.
  - apply retry_settles_at; [lia | auto using plain_rate_limited |].
    intros [e [He _]]. rewrite plain_attempt, Hs in He. discriminate.
  - destruct (GeminiService.isRateLimit error) eqn:Hc.
    + destruct Hend as [Hend | ->]; [discriminate|].
      destruct (retry_all_rate_limited fn 3 3 2000 w eq_refl) as [H1 [H2 H3]].
      * intros j Hj. destruct (Nat.eq_dec j 3) as [-> | Hne].
        -- exists error. rewrite plain_attempt, Hs. now split.
        -- apply plain_rate_limited, Hfail. lia.
      * repeat split; [exact H1 | rewrite H2; reflexivity | exact H3].
    + apply retry_settles_at; [lia | auto using plain_rate_limited |].
      intros [e [He Hl]]. rewrite plain_attempt, Hs in He.
      injection He as <-. congruence.
Qed.

(** Whatever the replies, a resolved run carries a value some reply was
    turned into. *)
Lemma plain_resolved (w : World) (v : T) :
  fst (fst (GeminiService.retryWithBackoff_default fn w)) = Resolved v ->
  exists response, after_ response = Resolved v.
Proof.
  unfold GeminiService.retryWithBackoff_default. intros H.
  destruct (retry_outcome_of_attempt fn 3 3 2000 w eq_refl) as [j [_ Hj]].
  rewrite Hj, plain_attempt in H. cbn [fst] in H.
  destruct (replies w (j + requests w)) as [response|error]; simpl in H;
    [now exists response | discriminate].
Qed.

End OneRequestThenCompute.

Ltac plain_fn :=
  intros w; unfold bind, generateContent, lift, ret, throw, settledBy, sent;
  destruct (replies w (requests w)) as [response|error]; [|reflexivity];
  repeat match goal with
         | |- context [if ?c then _ else _] => destruct c
         end; reflexivity.

Lemma chapterContent_plain courseTitle chapterTitle prevContext :
  forall w,
    GeminiService.generateChapterContent_fn courseTitle chapterTitle prevContext w
    = (settledBy (fun response =>
         Resolved (JS.orElse (text response) "Failed to generate content."))
         (replies w (requests w)), sent w).
Proof.
  intros w. unfold GeminiService.generateChapterContent_fn, bind, generateContent,
    ret, settledBy, sent.
  destruct (replies w (requests w)) as [response|error]; [|reflexivity].
  destruct (text response) as [[|c t]|]; reflexivity.
Qed.

Lemma bookSummary_plain title author :
  forall w,
    GeminiService.generateBookSummary_fn title author w
    = (settledBy (fun response =>
         Resolved (JS.orElse (text response) "Could not generate content."))
         (replies w (requests w)), sent w).
Proof. unfold GeminiService.generateBookSummary_fn. plain_fn. Qed.

Section ParsedAccessors.
Variable parseCourseOutline : string -> Outcome CourseOutline.t.
Variable parseQuiz : string -> Outcome Quiz.t.

Lemma courseOutline_plain subject userContext :
  forall w,
    GeminiService.generateCourseOutline_fn parseCourseOutline subject userContext w
    = (settledBy (fun response =>
         if negb (JS.truthy (text response))
         then Rejected (mkError None None (Some "No response from Gemini"))
         else parseCourseOutline (JS.orElse (text response) ""))
         (replies w (requests w)), sent w).
Proof. unfold GeminiService.generateCourseOutline_fn. plain_fn. Qed.

Lemma batchQuiz_plain topic level count :
  forall w,
    GeminiService.generateBatchQuiz_fn parseQuiz topic level count w
    = (settledBy (fun response =>
         if negb (JS.truthy (text response))
         then Rejected (mkError None None (Some "Failed to generate quiz"))
         else parseQuiz (JS.orElse (text response) ""))
         (replies w (requests w)), sent w).
Proof. unfold GeminiService.generateBatchQuiz_fn. plain_fn. Qed.

End ParsedAccessors.

(** X3: the chapter and book-summary accessors leave failures to the
    retry helper.  After [k <= 3] rate-limited replies, the reply that
    follows decides: a response resolves with its text, or with the
    placeholder sentence when it has none; a failure is re-thrown when it
    is not a rate-limit failure or when the three retries are used up.
    In every case [k + 1] requests have been sent and the [k] timers
    follow the schedule 2000, 4000, 8000. *)
Theorem text_accessors_retry_rate_limits (w : World) (k : nat)
  (courseTitle chapterTitle title author : string) (prevContext : option string) :
  (k <= 3)%nat ->
  (forall j, (j < k)%nat -> rateLimitedReply w j) ->
  match replies w (k + requests w) with
  | Resolved _ => True
  | Rejected error => GeminiService.isRateLimit error = false \/ k = 3%nat
  end ->
  let content :=
    GeminiService.generateChapterContent courseTitle chapterTitle prevContext w in
  let summary := GeminiService.generateBookSummary title author w in
  fst content
    = (match replies w (k + requests w) with
       | Resolved response =>
           Resolved (JS.orElse (text response) "Failed to generate content.")
       | Rejected error => Rejected error
       end, afterRequests (S k) w) /\
  fst summary
    = (match replies w (k + requests w) with
       | Resolved response =>
           Resolved (JS.orElse (text response) "Could not generate content.")
       | Rejected error => Rejected error
       end, afterRequests (S k) w) /\
  invocations (snd content) = S k /\ delays (snd content) = schedule 2000 k /\
  invocations (snd summary) = S k /\ delays (snd summary) = schedule 2000 k.
Proof.
  intros Hk Hfail Hend. cbv zeta.
  destruct (plain_run _ _ (chapterContent_plain courseTitle chapterTitle prevContext)
              w k Hk Hfail) as [C1 [C2 C3]].
  { unfold settledBy. destruct (replies w (k + requests w)); auto. }
  destruct (plain_run _ _ (bookSummary_plain title author) w k Hk Hfail)
    as [S1 [S2 S3]].
  { unfold settledBy. destruct (replies w (k + requests w)); auto. }
  unfold GeminiService.generateChapterContent, GeminiService.generateBookSummary.
  repeat split; assumption.
Qed.

Lemma text_accessors_retry_rate_limits_witness :
  let w := scriptedWorld [Rejected tooManyRequests; Rejected tooManyRequests]
                         (Resolved (textResponse "# Cells")) in
  let content := GeminiService.generateChapterContent "Biology" "Cells" None w in
  fst (fst content) = Resolved "# Cells" /\
  requests (snd (fst content)) = 3%nat /\
  delays (snd content) = [2000; 4000]%Z.
Proof.
  cbv zeta.
  destruct (text_accessors_retry_rate_limits
    (scriptedWorld [Rejected tooManyRequests; Rejected tooManyRequests]
                   (Resolved (textResponse "# Cells")))
    2 "Biology" "Cells" "Algebra" "Lang" None) as [C1 [_ [_ [C3 _]]]].
  - lia.
  - intros j Hj. exists tooManyRequests.
    destruct j as [|[|j]]; [split; reflexivity | split; reflexivity | lia].
  - exact I.
  - rewrite C1, C3. repeat split.
Defined.

(** X4: the outline and quiz accessors reject a response without text
    at once.  After [k <= 3] rate-limited replies, a response whose text
    is missing or empty makes them reject with their own error ("No
    response from Gemini", "Failed to generate quiz"), which is not
    retried: [k + 1] requests have been sent.  A response with text
    resolves with what the parser makes of it. *)
Theorem parsed_accessors_settle_on_the_text
  (parseCourseOutline : string -> Outcome CourseOutline.t)
  (parseQuiz : string -> Outcome Quiz.t)
  (w : World) (k : nat) (response : GenerateContentResponse)
  (subject userContext topic level : string) (count : Z) :
  (k <= 3)%nat ->
  (forall j, (j < k)%nat -> rateLimitedReply w j) ->
  replies w (k + requests w) = Resolved response ->
  let outline :=
    GeminiService.generateCourseOutline parseCourseOutline subject userContext w in
  let quiz := GeminiService.generateBatchQuiz parseQuiz topic level count w in
  (JS.truthy (text response) = false ->
   fst outline
     = (Rejected (mkError None None (Some "No response from Gemini")),
        afterRequests (S k) w) /\
   fst quiz
     = (Rejected (mkError None None (Some "Failed to generate quiz")),
        afterRequests (S k) w) /\
   invocations (snd outline) = S k /\ invocations (snd quiz) = S k) /\
  (forall t, text response = Some t -> t <> EmptyString ->
     (forall o, parseCourseOutline t = Resolved o ->
                fst outline = (Resolved o, afterRequests (S k) w)) /\
     (forall q, parseQuiz t = Resolved q ->
                fst quiz = (Resolved q, afterRequests (S k) w))).
Proof.
  intros Hk Hfail Hreply. cbv zeta.
  unfold GeminiService.generateCourseOutline, GeminiService.generateBatchQuiz.
  pose proof (plain_run _ _ (courseOutline_plain parseCourseOutline subject userContext)
                w k Hk Hfail) as Ho.
  pose proof (plain_run _ _ (batchQuiz_plain parseQuiz topic level count)
                w k Hk Hfail) as Hq.
  cbv zeta in Ho, Hq. rewrite Hreply in Ho, Hq. cbn [settledBy] in Ho, Hq.
  split.
  - intros Hempty. rewrite Hempty in Ho, Hq. cbn [negb] in Ho, Hq.
    destruct (Ho (or_introl eq_refl)) as [O1 [O2 _]].
    destruct (Hq (or_introl eq_refl)) as [Q1 [Q2 _]].
    repeat split; assumption.
  - intros t Ht Hne. rewrite Ht in Ho, Hq.
    destruct t as [|c t]; [congruence|]. cbn [JS.truthy negb JS.orElse] in Ho, Hq.
    split.
    + intros o Hp. rewrite Hp in Ho. now destruct (Ho I) as [O1 _].
    + intros q Hp. rewrite Hp in Hq. now destruct (Hq I) as [Q1 _].
Qed.

Lemma parsed_accessors_settle_on_the_text_witness :
  let w := scriptedWorld [Rejected tooManyRequests]
                         (Resolved {| text := None; candidates := None |}) in
  fst (GeminiService.generateCourseOutline
         (fun _ => Rejected (typeError "Unexpected end of JSON input"))
         "Algebra" "Student" w)
  = (Rejected (mkError None None (Some "No response from Gemini")),
     afterRequests 2 w).
Proof.
  cbv zeta.
  refine (proj1 (proj1 (parsed_accessors_settle_on_the_text
    (fun _ => Rejected (typeError "Unexpected end of JSON input"))
    (fun _ => Rejected (typeError "Unexpected end of JSON input"))
    (scriptedWorld [Rejected tooManyRequests]
                   (Resolved {| text := None; candidates := None |}))
    1 {| text := None; candidates := None |}
    "Algebra" "Student" "Algebra" "100 Level" 5 _ _ eq_refl) eq_refl)).
  - lia.
  - intros j Hj. exists tooManyRequests.
    destruct j as [|j]; [split; reflexivity | lia].
Defined.

(** X5: a parse failure is classified by its message like any other
    failure.  When every response carries the same non-empty text and
    [JSON.parse] throws on it, the outline accessor rejects with the
    parser's error.  If the message of that error reads as a rate-limit
    failure (it contains "429", as a position or a quoted piece of the
    text may), the request is sent four times, after timers of 2000,
    4000 and 8000 ms; otherwise it is sent once. *)
Theorem parse_failures_are_classified_by_message
  (parseCourseOutline : string -> Outcome CourseOutline.t)
  (w : World) (t : string) (error : JsError) (subject userContext : string) :
  t <> EmptyString ->
  (forall j, (j <= 3)%nat -> replies w (j + requests w) = Resolved (textResponse t)) ->
  parseCourseOutline t = Rejected error ->
  let run :=
    GeminiService.generateCourseOutline parseCourseOutline subject userContext w in
  fst (fst run) = Rejected error /\
  (GeminiService.isRateLimit error = true ->
   snd (fst run) = afterRequests 4 w /\ invocations (snd run) = 4%nat
   /\ delays (snd run) = [2000; 4000; 8000]%Z) /\
  (GeminiService.isRateLimit error = false ->
   snd (fst run) = afterRequests 1 w /\ invocations (snd run) = 1%nat
   /\ delays (snd run) = []).
Proof.
  intros Hne Hreplies Hparse. cbv zeta.
  unfold GeminiService.generateCourseOutline, GeminiService.retryWithBackoff_default.
  pose proof (plain_attempt _ _
                (courseOutline_plain parseCourseOutline subject userContext))
    as Hattempt.
  assert (Hfail : forall j, (j <= 3)%nat ->
            GeminiService.generateCourseOutline_fn parseCourseOutline subject
              userContext
              (stateBefore
                 (GeminiService.generateCourseOutline_fn parseCourseOutline
                    subject userContext) j w)
            = (Rejected error, afterRequests (S j) w)).
  { intros j Hj. rewrite Hattempt, (Hreplies j Hj).
    destruct t as [|c t]; [congruence|].
    cbn [settledBy textResponse text JS.truthy negb JS.orElse].
    now rewrite Hparse. }
  destruct (GeminiService.isRateLimit error) eqn:Hc.
  - destruct (retry_all_rate_limited
                (GeminiService.generateCourseOutline_fn parseCourseOutline
                   subject userContext) 3 3 2000 w eq_refl) as [H1 [H2 H3]].
    + intros k Hk. exists error. now rewrite (Hfail k Hk).
    + rewrite (Hfail 3%nat (le_n 3)) in H1.
      destruct (GeminiService.retryWithBackoff _ 3 2000 w) as [[o w1] ev].
      cbn [fst snd] in *. injection H1 as -> ->.
      split; [reflexivity|]. split; [|discriminate].
      intros _. split; [reflexivity|]. split; [exact H2 | exact H3].
  - destruct (retry_settles_at
                (GeminiService.generateCourseOutline_fn parseCourseOutline
                   subject userContext) 0 3 2000 w) as [H1 [H2 H3]].
    + lia.
    + intros j Hj. lia.
    + intros [e [He Hl]]. rewrite (Hfail 0%nat) in He by lia.
      injection He as <-. congruence.
    + rewrite (Hfail 0%nat) in H1 by lia.
      destruct (GeminiService.retryWithBackoff _ 3 2000 w) as [[o w1] ev].
      cbn [fst snd] in *. injection H1 as -> ->.
      split; [reflexivity|]. split; [discriminate|].
      intros _. split; [reflexivity|]. split; [exact H2 | exact H3].
Qed.

Lemma parse_failures_are_classified_by_message_witness :
  let error :=
    mkError None None (Some "Unexpected token } in JSON at position 429") in
  let run :=
    GeminiService.generateCourseOutline (fun _ => Rejected error)
      "Algebra" "Student" (constWorld (Resolved (textResponse "{"))) in
  invocations (snd run) = 4%nat.
Proof.
  cbv zeta.
  refine (proj1 (proj2 (proj1 (proj2
    (parse_failures_are_classified_by_message
       (fun _ => Rejected
          (mkError None None (Some "Unexpected token } in JSON at position 429")))
       (constWorld (Resolved (textResponse "{"))) "{"
       (mkError None None (Some "Unexpected token } in JSON at position 429"))
       "Algebra" "Student" _ _ eq_refl)) eq_refl))).
  - discriminate.
  - intros j Hj. reflexivity.
Defined.

Lemma demo_chapterContent_plain client courseTitle chapterTitle prevContext apiKey :
  GeminiServiceDemo.ai apiKey = Some client ->
  forall w,
    GeminiServiceDemo.generateChapterContent_fn apiKey courseTitle chapterTitle
      prevContext w
    = (settledBy (fun response =>
         Resolved (JS.orElse (text response) "Failed to generate content."))
         (replies w (requests w)), sent w).
Proof.
  intros Hai. unfold GeminiServiceDemo.generateChapterContent_fn.
  rewrite Hai. unfold GeminiServiceDemo.generateContentWith. plain_fn.
Qed.

Lemma demo_bookSummary_plain client title author apiKey :
  GeminiServiceDemo.ai apiKey = Some client ->
  forall w,
    GeminiServiceDemo.generateBookSummary_fn apiKey title author w
    = (settledBy (fun response =>
         Resolved (JS.orElse (text response) "Could not generate summary."))
         (replies w (requests w)), sent w).
Proof.
  intros Hai. unfold GeminiServiceDemo.generateBookSummary_fn.
  rewrite Hai. unfold GeminiServiceDemo.generateContentWith. plain_fn.
Qed.

Lemma getMockChapterContent_nonempty title :
  GeminiServiceDemo.getMockChapterContent title <> EmptyString.
Proof. unfold GeminiServiceDemo.getMockChapterContent. simpl. discriminate. Qed.

Lemma chapterContent_nonempty w courseTitle chapterTitle prevContext content :
  fst (fst (GeminiService.generateChapterContent
              courseTitle chapterTitle prevContext w)) = Resolved content ->
  content <> EmptyString.
Proof.
  intros H.
  apply (plain_resolved _ _
           (chapterContent_plain courseTitle chapterTitle prevContext)) in H.
  destruct H as [response [= <-]]. apply orElse_nonempty. discriminate.
Qed.

Lemma demo_chapterContent_nonempty w apiKey courseTitle chapterTitle prevContext
  content :
  fst (fst (GeminiServiceDemo.generateChapterContent
              apiKey courseTitle chapterTitle prevContext w)) = Resolved content ->
  content <> EmptyString.
Proof.
  unfold GeminiServiceDemo.generateChapterContent.
  destruct (GeminiServiceDemo.isMockMode apiKey) eqn:Hmode.
  - cbn. intros [= <-]. apply getMockChapterContent_nonempty.
  - destruct (live_mode _ Hmode) as [client [Hai Hguard]].
    rewrite Hmode in Hguard. rewrite Hguard, demo_default_agrees. intros H.
    apply (plain_resolved _ _
             (demo_chapterContent_plain client courseTitle chapterTitle
                prevContext apiKey Hai)) in H.
    destruct H as [response [= <-]]. apply orElse_nonempty. discriminate.
Qed.

(** X6: a text accessor never resolves with the empty string.  The
    chapter, book-summary and document accessors of both copies put a
    placeholder sentence in the place of a missing or empty response
    text (and canned text in mock mode), so whenever they resolve, what
    they resolve with is not empty; the document accessor always
    resolves. *)
Theorem text_accessors_never_resolve_empty (w : World) :
  (forall courseTitle chapterTitle prevContext s,
     fst (fst (GeminiService.generateChapterContent
                 courseTitle chapterTitle prevContext w)) = Resolved s ->
     s <> EmptyString) /\
  (forall title author s,
     fst (fst (GeminiService.generateBookSummary title author w)) = Resolved s ->
     s <> EmptyString) /\
  (forall files task,
     exists s, fst (fst (GeminiService.processDocument files task w)) = Resolved s
               /\ s <> EmptyString) /\
  (forall apiKey courseTitle chapterTitle prevContext s,
     fst (fst (GeminiServiceDemo.generateChapterContent
                 apiKey courseTitle chapterTitle prevContext w)) = Resolved s ->
     s <> EmptyString) /\
  (forall apiKey title author s,
     fst (fst (GeminiServiceDemo.generateBookSummary apiKey title author w))
       = Resolved s ->
     s <> EmptyString) /\
  (forall apiKey files task,
     exists s,
       fst (fst (GeminiServiceDemo.processDocument apiKey files task w)) = Resolved s
       /\ s <> EmptyString).
Proof.
  split; [|split; [|split; [|split; [|split]]]].
  - intros courseTitle chapterTitle prevContext s. apply chapterContent_nonempty.
  - intros title author s H.
    apply (plain_resolved _ _ (bookSummary_plain title author)) in H.
    destruct H as [response [= <-]]. apply orElse_nonempty. discriminate.
  - intros files task. unfold GeminiService.processDocument,
      GeminiService.retryWithBackoff_default.
    destruct (replies w (requests w)) as [response|error] eqn:E.
    + erewrite retry_resolved
        by (unfold GeminiService.processDocument_fn; run_fn E; reflexivity).
      eexists. split; [reflexivity|]. apply orElse_nonempty. discriminate.
    + erewrite retry_resolved
        by (unfold GeminiService.processDocument_fn; run_fn E; reflexivity).
      eexists. split; [reflexivity|]. discriminate.
  - intros apiKey courseTitle chapterTitle prevContext s.
    apply demo_chapterContent_nonempty.
  - intros apiKey title author s.
    unfold GeminiServiceDemo.generateBookSummary.
    destruct (GeminiServiceDemo.isMockMode apiKey) eqn:Hmode.
    + cbn. intros [= <-]. discriminate.
    + destruct (live_mode _ Hmode) as [client [Hai Hguard]].
      rewrite Hmode in Hguard. rewrite Hguard, demo_default_agrees. intros H.
      apply (plain_resolved _ _
               (demo_bookSummary_plain client title author apiKey Hai)) in H.
      destruct H as [response [= <-]]. apply orElse_nonempty. discriminate.
  - intros apiKey files task. unfold GeminiServiceDemo.processDocument.
    destruct (GeminiServiceDemo.isMockMode apiKey) eqn:Hmode.
    + cbn. eexists. split; [reflexivity | discriminate].
    + destruct (live_mode _ Hmode) as [client [Hai Hguard]].
      rewrite Hmode in Hguard. rewrite Hguard.
      unfold GeminiServiceDemo.retryWithBackoff_default.
      destruct (replies w (requests w)) as [response|error] eqn:E.
      * erewrite demo_retry_resolved
          by (unfold GeminiServiceDemo.processDocument_fn; rewrite Hai;
              run_fn E; reflexivity).
        eexists. split; [reflexivity|]. apply orElse_nonempty. discriminate.
      * erewrite demo_retry_resolved
          by (unfold GeminiServiceDemo.processDocument_fn; rewrite Hai;
              run_fn E; reflexivity).
        eexists. split; [reflexivity|]. discriminate.
Qed.

Lemma text_accessors_never_resolve_empty_witness :
  "Failed to generate content." <> EmptyString.
Proof.
  apply (proj1 (text_accessors_never_resolve_empty
                  (constWorld (Resolved (textResponse ""))))
               "Biology" "Cells" None).
  reflexivity.
Defined.

(* ===================================================================== *)
(** ** The image accessor and the canned quiz *)
(* ===================================================================== *)

Lemma firstInlineImage_spec (parts : list Part) :
  match GeminiService.firstInlineImage parts with
  | Some url =>
      exists before part d after_,
        parts = before ++ part :: after_
        /\ forallb (fun p => negb (hasImageData p)) before = true
        /\ inlineData part = Some d /\ JS.truthy (data d) = true
        /\ url = dataUrl d
  | None => forallb (fun p => negb (hasImageData p)) parts = true
  end.
Proof.
  induction parts as [|part rest IH]; [reflexivity|].
  cbn [GeminiService.firstInlineImage].
  destruct (inlineData part) as [d|] eqn:Hd.
  - destruct (JS.truthy (data d)) eqn:Ht.
    + exists [], part, d, rest. repeat split; assumption.
    + destruct (GeminiService.firstInlineImage rest) as [url|].
      * destruct IH as [before [p [d' [after_ [-> [Hb H]]]]]].
        exists (part :: before), p, d', after_.
        split; [reflexivity|]. split; [|exact H].
        cbn [forallb]. unfold hasImageData at 1. now rewrite Hd, Ht.
      * cbn [forallb]. unfold hasImageData at 1. now rewrite Hd, Ht.
  - destruct (GeminiService.firstInlineImage rest) as [url|].
    + destruct IH as [before [p [d' [after_ [-> [Hb H]]]]]].
      exists (part :: before), p, d', after_.
      split; [reflexivity|]. split; [|exact H].
      cbn [forallb]. unfold hasImageData at 1. now rewrite Hd.
    + cbn [forallb]. unfold hasImageData at 1. now rewrite Hd.
Qed.

(** X7: the image accessor returns the first usable image or nothing.
    [generateImage] always resolves after one request.  It resolves with
    a data URL only when the request was answered and the parts of the
    first candidate contain a part with non-empty inline data: the URL
    is built from the first such part.  When it resolves with nothing
    and the request was answered, no part of the first candidate carries
    image data. *)
Theorem generateImage_first_inline_image (w : World) (prompt : string) :
  let run := GeminiService.generateImage prompt w in
  resolvesInOneRequest w run /\
  forall image, fst (fst run) = Resolved image ->
    match image with
    | Some url =>
        exists response before part d after_,
          replies w (requests w) = Resolved response
          /\ partsOf response = Some (before ++ part :: after_)
          /\ forallb (fun p => negb (hasImageData p)) before = true
          /\ inlineData part = Some d /\ JS.truthy (data d) = true
          /\ url = dataUrl d
    | None =>
        forall response parts,
          replies w (requests w) = Resolved response ->
          partsOf response = Some parts ->
          forallb (fun p => negb (hasImageData p)) parts = true
    end.
Proof.
  cbv zeta. split.
  - unfold GeminiService.generateImage. apply resolves_once.
    unfold GeminiService.generateImage_fn. caught_block.
  - unfold GeminiService.generateImage, GeminiService.retryWithBackoff_default.
    destruct (replies w (requests w)) as [response|error] eqn:E.
    + erewrite retry_resolved
        by (unfold GeminiService.generateImage_fn; run_fn E; reflexivity).
      cbn [fst]. intros image [= <-].
      destruct (partsOf response) as [parts|] eqn:Hparts.
      * pose proof (firstInlineImage_spec parts) as Hspec.
        destruct (GeminiService.firstInlineImage parts) as [url|].
        -- destruct Hspec as [before [part [d [after_ [-> H]]]]].
           exists response, before, part, d, after_. now split.
        -- intros response' parts' [= <-] Hp. rewrite Hparts in Hp.
           now injection Hp as <-.
      * intros response' parts' [= <-] Hp. congruence.
    + erewrite retry_resolved
        by (unfold GeminiService.generateImage_fn; run_fn E; reflexivity).
      cbn [fst]. intros image [= <-]. intros response parts H. discriminate.
Qed.

Lemma generateImage_first_inline_image_witness :
  let part := {| inlineData := Some {| mimeType := Some "image/png";
                                       data := Some "iVBOR" |} |} in
  let response :=
    {| text := None;
       candidates :=
         Some [{| content :=
                    Some {| parts := Some [{| inlineData := None |}; part] |};
                  groundingMetadata := None |}] |} in
  exists response' before part' d after_,
    Resolved response = Resolved response'
    /\ partsOf response' = Some (before ++ part' :: after_)
    /\ forallb (fun p => negb (hasImageData p)) before = true
    /\ inlineData part' = Some d /\ JS.truthy (data d) = true
    /\ "data:image/png;base64,iVBOR"%str = dataUrl d.
Proof.
  cbv zeta.
  exact (proj2 (generateImage_first_inline_image
    (constWorld (Resolved
       {| text := None;
          candidates :=
            Some [{| content :=
                       Some {| parts := Some [{| inlineData := None |};
                          {| inlineData := Some {| mimeType := Some "image/png";
                                                   data := Some "iVBOR" |} |}] |};
                     groundingMetadata := None |}] |}))
    "a lecture hall")
    (Some "data:image/png;base64,iVBOR"%str) eq_refl).
Defined.

Lemma seq_map_nth {A} (f : nat -> A) (n i : nat) :
  (i < n)%nat -> nth_error (map f (seq 0 n)) i = Some (f i).
Proof.
  intros H. rewrite nth_error_map, nth_error_seq.
  destruct (Nat.ltb_spec i n); [reflexivity | lia].
Qed.

(** X8: the canned quiz is well formed.  [getMockQuiz topic count] has
    [count] questions (none for a count below 1), numbered from 1 in
    their text; each question has four options and its correct index, 1,
    designates one of them. *)
Theorem getMockQuiz_well_formed (topic : string) (count : Z) :
  let quiz := GeminiServiceDemo.getMockQuiz topic count in
  List.length (Quiz.questions quiz) = Z.to_nat count /\
  (forall q, In q (Quiz.questions quiz) ->
     List.length (QuizQuestion.options q) = 4%nat
     /\ QuizQuestion.correctAnswerIndex q = 1%Z
     /\ nth_error (QuizQuestion.options q) 1 = Some "This is the correct answer"%str) /\
  (forall i, (i < Z.to_nat count)%nat ->
     exists q, nth_error (Quiz.questions quiz) i = Some q
               /\ QuizQuestion.question q
                  = ("(Demo) Question " ++ JS.showNat (i + 1)
                       ++ ": What is a primary concept of " ++ topic ++ "?")%str).
Proof.
  cbv zeta. unfold GeminiServiceDemo.getMockQuiz. cbn [Quiz.questions].
  split; [|split].
  - now rewrite length_map, length_seq.
  - intros q Hq. apply in_map_iff in Hq. destruct Hq as [i [<- _]].
    repeat split.
  - intros i Hi. eexists. split; [now apply seq_map_nth | reflexivity].
Qed.

Lemma getMockQuiz_well_formed_witness :
  exists q, nth_error (Quiz.questions (GeminiServiceDemo.getMockQuiz "Cells" 3)) 2
            = Some q
            /\ QuizQuestion.question q
               = "(Demo) Question 3: What is a primary concept of Cells?"%str.
Proof.
  apply (proj2 (proj2 (getMockQuiz_well_formed "Cells" 3)) 2%nat).
  vm_compute. lia.
Defined.

(* ===================================================================== *)
(** ** Registration: the program list and the course levels *)
(* ===================================================================== *)

Lemma loadPrograms_resolved run s w list w1 events :
  run w = (Resolved list, w1, events) ->
  Onboarding.loadPrograms run s w = (Onboarding.mkState list false, w1).
Proof. intros H. unfold Onboarding.loadPrograms. now rewrite H. Qed.

(** X9: the registration wizard never shows its own fallback list.
    [loadPrograms] replaces the list by five programs when the service
    call rejects, but the program accessor of either copy never rejects:
    the list shown is always the one the service resolved with.  After a
    failed request that is the service's own fallback list, and after a
    reply without text it is empty. *)
Theorem loadPrograms_shows_the_service_list
  (w : World) (s : Onboarding.State) (universityName : string)
  (apiKey : option string) :
  let loaded :=
    Onboarding.loadPrograms (GeminiService.generateDegreePrograms universityName) s w in
  let demo :=
    Onboarding.loadPrograms
      (GeminiServiceDemo.generateDegreePrograms apiKey universityName) s w in
  fst (fst (GeminiService.generateDegreePrograms universityName w))
    = Resolved (Onboarding.programs (fst loaded)) /\
  fst (fst (GeminiServiceDemo.generateDegreePrograms apiKey universityName w))
    = Resolved (Onboarding.programs (fst demo)) /\
  Onboarding.isLoadingPrograms (fst loaded) = false /\
  Onboarding.isLoadingPrograms (fst demo) = false /\
  (GeminiServiceDemo.isMockMode apiKey = true ->
   Onboarding.programs (fst demo) = GeminiServiceDemo.mockPrograms /\ snd demo = w) /\
  (forall error, replies w (requests w) = Rejected error ->
     Onboarding.programs (fst loaded) = GeminiService.fallbackPrograms /\
     (GeminiServiceDemo.isMockMode apiKey = false ->
      Onboarding.programs (fst demo) = GeminiServiceDemo.mockPrograms)) /\
  (forall response, replies w (requests w) = Resolved response ->
     JS.truthy (text response) = false ->
     Onboarding.programs (fst loaded) = [] /\
     (GeminiServiceDemo.isMockMode apiKey = false ->
      Onboarding.programs (fst demo) = [])).
Proof.
  cbv zeta.
  assert (Hempty : forall response, JS.truthy (text response) = false ->
                     negb (JS.truthy (Some (textOf response))) = true).
  { intros response H. unfold textOf.
    destruct (text response) as [[|c t]|]; [reflexivity | discriminate | reflexivity]. }
  assert (Hloaded :
    exists list w1 events,
      GeminiService.generateDegreePrograms universityName w
        = (Resolved list, w1, events)
      /\ (forall error, replies w (requests w) = Rejected error ->
            list = GeminiService.fallbackPrograms)
      /\ (forall response, replies w (requests w) = Resolved response ->
            JS.truthy (text response) = false -> list = [])).
  { destruct (replies w (requests w)) as [response|error] eqn:E.
    - rewrite (programs_run w response E universityName).
      eexists; eexists; eexists. split; [reflexivity|].
      split; [discriminate|]. intros response' [= <-] H.
      now rewrite (Hempty _ H).
    - rewrite (programs_run_failed w error E universityName).
      eexists; eexists; eexists. split; [reflexivity|].
      split; [reflexivity | discriminate]. }
  assert (Hdemo :
    exists list w1 events,
      GeminiServiceDemo.generateDegreePrograms apiKey universityName w
        = (Resolved list, w1, events)
      /\ (GeminiServiceDemo.isMockMode apiKey = true ->
            list = GeminiServiceDemo.mockPrograms /\ w1 = w)
      /\ (GeminiServiceDemo.isMockMode apiKey = false ->
          (forall error, replies w (requests w) = Rejected error ->
             list = GeminiServiceDemo.mockPrograms)
          /\ (forall response, replies w (requests w) = Resolved response ->
                JS.truthy (text response) = false -> list = []))).
  { destruct (GeminiServiceDemo.isMockMode apiKey) eqn:Hmode.
    - rewrite (mock_programs apiKey Hmode w universityName).
      eexists; eexists; eexists. split; [reflexivity|].
      split; [split; reflexivity | discriminate].
    - destruct (replies w (requests w)) as [response|error] eqn:E.
      + rewrite (demo_programs_run w response E apiKey Hmode universityName).
        eexists; eexists; eexists. split; [reflexivity|].
        split; [discriminate|]. intros _. split; [discriminate|].
        intros response' [= <-] H. now rewrite (Hempty _ H).
      + rewrite (demo_programs_run_failed w error E apiKey Hmode universityName).
        eexists; eexists; eexists. split; [reflexivity|].
        split; [discriminate|]. intros _. split; [reflexivity | discriminate]. }
  destruct Hloaded as [l1 [w1 [e1 [H1 [F1 E1]]]]].
  destruct Hdemo as [l2 [w2 [e2 [H2 [M2 L2]]]]].
  rewrite (loadPrograms_resolved _ s w _ _ _ H1),
          (loadPrograms_resolved _ s w _ _ _ H2), H1, H2.
  cbn [fst snd Onboarding.programs Onboarding.isLoadingPrograms].
  split; [reflexivity|]. split; [reflexivity|].
  split; [reflexivity|]. split; [reflexivity|].
  split; [exact M2|]. split.
  - intros error E. split; [exact (F1 error E)|].
    intros Hlive. exact (proj1 (L2 Hlive) error E).
  - intros response E H. split; [exact (E1 response E H)|].
    intros Hlive. exact (proj2 (L2 Hlive) response E H).
Qed.

Lemma loadPrograms_shows_the_service_list_witness :
  Onboarding.programs
    (fst (Onboarding.loadPrograms (GeminiService.generateDegreePrograms "Unilag")
            (Onboarding.mkState [] true)
            (constWorld (Rejected tooManyRequests))))
  = GeminiService.fallbackPrograms.
Proof.
  exact (proj1 (proj1 (proj2 (proj2 (proj2 (proj2 (proj2
    (loadPrograms_shows_the_service_list
       (constWorld (Rejected tooManyRequests)) (Onboarding.mkState [] true)
       "Unilag" None)))))) tooManyRequests eq_refl)).
Defined.

Lemma levelsFrom_seq (n : nat) : forall i levels,
  Onboarding.levelsFrom i n levels = levels ++ map levelName (seq i n).
Proof.
  induction n as [|n IH]; intros i levels; cbn [Onboarding.levelsFrom seq map].
  - now rewrite app_nil_r.
  - rewrite IH, <- app_assoc. reflexivity.
Qed.

Lemma lowerUnit_idempotent (c : codeUnit) : JS.lowerUnit (JS.lowerUnit c) = JS.lowerUnit c.
Proof.
  unfold JS.lowerUnit. cbv zeta.
  destruct ((65 <=? c) && (c <=? 90)
            || (192 <=? c) && (c <=? 222) && negb (c =? 215))%N eqn:E;
    [|now rewrite E].
  assert (H : (65 <= c <= 90 \/ 192 <= c <= 222)%N).
  { apply orb_true_iff in E. rewrite !andb_true_iff, !N.leb_le in E.
    destruct E as [E | [E _]]; [now left | now right]. }
  destruct (N.leb_spec 65 (c + 32)), (N.leb_spec (c + 32) 90),
    (N.leb_spec 192 (c + 32)), (N.leb_spec (c + 32) 222);
    cbn [andb orb]; try reflexivity; lia.
Qed.

Lemma toLowerCaseLatin1_idempotent (s : string) :
  JS.toLowerCaseLatin1 (JS.toLowerCaseLatin1 s) = JS.toLowerCaseLatin1 s.
Proof.
  induction s as [|c s IH]; [reflexivity|].
  cbn [JS.toLowerCaseLatin1]. now rewrite lowerUnit_idempotent, IH.
Qed.

Section CaseFolding.

(** The two properties of [toLowerCase] that matter to the wizard:
    lower-casing twice is lower-casing once, and the empty string stays
    empty. *)
Variable toLowerCase : string -> string.
Hypothesis lowerCase_idempotent :
  forall s, toLowerCase (toLowerCase s) = toLowerCase s.
Hypothesis lowerCase_empty : toLowerCase "" = "".

Lemma mentions_spec (keywords : list string) (course : string) :
  existsb (JS.includes (toLowerCase course)) keywords = true
  <-> mentions toLowerCase keywords course.
Proof.
  unfold mentions. rewrite existsb_exists. split.
  - intros [k [Hin H]]. exists k. split; [exact Hin | now apply includes_spec].
  - intros [k [Hin H]]. exists k. split; [exact Hin | now apply includes_spec].
Qed.

(** X10: the levels offered for a programme.  [getCourseLevels] returns
    the levels "100 Level", "200 Level", ... of years 1 to [n] in order,
    where [n] is 6 when the lower-cased name contains one of the
    six-year keywords, otherwise 5 when it contains one of the five-year
    keywords, otherwise 4: a six-year keyword wins over a five-year one.
    The result does not depend on the case of the name, [toLowerCase]
    being idempotent. *)
Theorem getCourseLevels_by_keyword (course : string) :
  exists years,
    Onboarding.getCourseLevels toLowerCase course = map levelName (seq 1 years) /\
    (mentions toLowerCase sixYearKeywords course -> years = 6%nat) /\
    (~ mentions toLowerCase sixYearKeywords course ->
     mentions toLowerCase fiveYearKeywords course -> years = 5%nat) /\
    (~ mentions toLowerCase sixYearKeywords course ->
     ~ mentions toLowerCase fiveYearKeywords course -> years = 4%nat) /\
    Onboarding.getCourseLevels toLowerCase (toLowerCase course)
      = Onboarding.getCourseLevels toLowerCase course.
Proof.
  pose proof (mentions_spec sixYearKeywords course) as H6.
  pose proof (mentions_spec fiveYearKeywords course) as H5.
  unfold Onboarding.getCourseLevels. cbv zeta.
  rewrite lowerCase_idempotent.
  cbn [existsb sixYearKeywords fiveYearKeywords] in H6, H5.
  rewrite orb_false_r in H6, H5. rewrite !orb_assoc in H6, H5.
  set (c := toLowerCase course) in *.
  destruct (JS.includes c "medicine" || JS.includes c "surgery"
            || JS.includes c "veterinary" || JS.includes c "optometry"
            || JS.includes c "architecture") eqn:E6.
  - exists 6%nat. rewrite levelsFrom_seq. split; [reflexivity|].
    split; [reflexivity|]. split; [|split; [|reflexivity]].
    + intros Hn. exfalso. apply Hn, H6. reflexivity.
    + intros Hn. exfalso. apply Hn, H6. reflexivity.
  - assert (N6 : ~ mentions toLowerCase sixYearKeywords course).
    { intros H. apply H6 in H. discriminate. }
    destruct (JS.includes c "engineering" || JS.includes c "law"
              || JS.includes c "pharmacy" || JS.includes c "nursing"
              || JS.includes c "agriculture" || JS.includes c "tech") eqn:E5.
    + exists 5%nat. rewrite levelsFrom_seq. split; [reflexivity|].
      split; [tauto|]. split; [reflexivity|]. split; [|reflexivity].
      intros _ Hn. exfalso. apply Hn, H5. rewrite !orb_assoc. exact E5.
    + exists 4%nat. rewrite levelsFrom_seq. split; [reflexivity|].
      split; [tauto|]. split; [|split; reflexivity].
      intros _ H. apply H5 in H. rewrite !orb_assoc in H. congruence.
Qed.

(** X11: the program search of the wizard.  With an empty search
    field [filteredPrograms] shows every program; in general it shows,
    in their order, exactly the programs whose lower-cased name contains
    the lower-cased search text, so the case of the text typed does not
    matter, [toLowerCase] being idempotent and keeping the empty string
    empty. *)
Theorem filteredPrograms_ignores_case (programs : list string) (programSearch : string) :
  Onboarding.filteredPrograms toLowerCase programs EmptyString = programs /\
  Onboarding.filteredPrograms toLowerCase programs (toLowerCase programSearch)
    = Onboarding.filteredPrograms toLowerCase programs programSearch /\
  (forall p, In p (Onboarding.filteredPrograms toLowerCase programs programSearch)
             <-> In p programs
                 /\ Contains (toLowerCase p) (toLowerCase programSearch)) /\
  (forall p, In p programs ->
     In p (Onboarding.filteredPrograms toLowerCase programs (toLowerCase p))).
Proof.
  unfold Onboarding.filteredPrograms. split; [|split; [|split]].
  - rewrite lowerCase_empty.
    induction programs as [|p l IH]; [reflexivity|].
    cbn [filter].
    assert (JS.includes (toLowerCase p) EmptyString = true) as ->.
    { apply includes_spec. now exists EmptyString, (toLowerCase p). }
    now rewrite IH.
  - now rewrite lowerCase_idempotent.
  - intros p. rewrite filter_In, includes_spec. reflexivity.
  - intros p Hin. apply filter_In. split; [exact Hin|].
    rewrite lowerCase_idempotent. apply includes_spec.
    exists EmptyString, EmptyString. cbn [append].
    induction (toLowerCase p) as [|c t IH]; [reflexivity|].
    cbn [append]. now rewrite <- IH.
Qed.

End CaseFolding.

Lemma getCourseLevels_by_keyword_witness :
  exists years,
    Onboarding.getCourseLevels JS.toLowerCaseLatin1 "Architecture Technology"
      = map levelName (seq 1 years) /\ years = 6%nat.
Proof.
  destruct (getCourseLevels_by_keyword JS.toLowerCaseLatin1
              toLowerCaseLatin1_idempotent "Architecture Technology")
    as [years [Hlevels [Hsix _]]].
  exists years. split; [exact Hlevels|]. apply Hsix.
  exists "architecture"%str. split; [vm_compute; tauto|].
  exists EmptyString, " technology"%str. reflexivity.
Defined.

Lemma filteredPrograms_ignores_case_witness :
  In "Mass Communication"%str
     (Onboarding.filteredPrograms JS.toLowerCaseLatin1
        Onboarding.fallbackPrograms "COMM").
Proof.
  apply (proj2 (proj1 (proj2 (proj2 (filteredPrograms_ignores_case
           JS.toLowerCaseLatin1 toLowerCaseLatin1_idempotent eq_refl
           Onboarding.fallbackPrograms "COMM"))) "Mass Communication"%str)).
  split; [vm_compute; tauto|].
  exists "mass "%str, "unication"%str. reflexivity.
Defined.

(* ===================================================================== *)
(** ** Signing in: the address and the stored profiles *)
(* ===================================================================== *)

Lemma trimEnd_idempotent (s : string) : JS.trimEnd (JS.trimEnd s) = JS.trimEnd s.
Proof.
  induction s as [|c s IH]; [reflexivity|].
  cbn [JS.trimEnd]. destruct (JS.trimEnd s) as [|c' r] eqn:E.
  - destruct (JS.isWhiteSpace c) eqn:Hc; [reflexivity|].
    cbn [JS.trimEnd]. now rewrite Hc.
  - cbn [JS.trimEnd] in *. now rewrite IH.
Qed.

Lemma trimEnd_blank (s : string) : JS.trimEnd s = EmptyString <-> blank s = true.
Proof.
  induction s as [|c s IH]; [now split|].
  cbn [JS.trimEnd blank]. destruct (JS.trimEnd s) as [|c' r].
  - destruct (JS.isWhiteSpace c); cbn [andb].
    + split; intros _; [now apply IH | reflexivity].
    + split; discriminate.
  - rewrite andb_true_iff. split; [discriminate|].
    intros [_ H]. apply IH in H. discriminate.
Qed.

Lemma trimStart_blank (s : string) : blank (JS.trimStart s) = blank s.
Proof.
  induction s as [|c s IH]; [reflexivity|].
  cbn [JS.trimStart]. destruct (JS.isWhiteSpace c) eqn:Hc.
  - cbn [blank]. now rewrite Hc.
  - reflexivity.
Qed.

Lemma trimStart_trimmed (s : string) :
  JS.trimStart (JS.trimEnd (JS.trimStart s)) = JS.trimEnd (JS.trimStart s).
Proof.
  induction s as [|c s IH]; [reflexivity|].
  cbn [JS.trimStart]. destruct (JS.isWhiteSpace c) eqn:Hc; [exact IH|].
  cbn [JS.trimEnd]. destruct (JS.trimEnd s) as [|c' r];
    [rewrite Hc|]; cbn [JS.trimStart]; now rewrite Hc.
Qed.

Lemma trim_idempotent (s : string) : JS.trim (JS.trim s) = JS.trim s.
Proof. unfold JS.trim. now rewrite trimStart_trimmed, trimEnd_idempotent. Qed.

Lemma trim_blank (s : string) : JS.trim s = EmptyString <-> blank s = true.
Proof. unfold JS.trim. now rewrite trimEnd_blank, trimStart_blank. Qed.

Lemma truthy_some (s : string) : JS.truthy (Some s) = true <-> s <> EmptyString.
Proof. destruct s; cbn; split; congruence. Qed.

(** X12: the sign-in form passes on a trimmed, non-empty address or
    nothing.  [handleSubmit] calls [onLogin] exactly when the field is
    not made of white space only; the address it passes is not empty,
    is left unchanged by [trim], and is passed on unchanged when it is
    submitted again. *)
Theorem handleSubmit_passes_a_trimmed_address (email : string) :
  (Login.handleSubmit email = None <-> blank email = true) /\
  (forall address, Login.handleSubmit email = Some address ->
     address = JS.trim email /\ address <> EmptyString
     /\ JS.trim address = address
     /\ Login.handleSubmit address = Some address).
Proof.
  unfold Login.handleSubmit. split.
  - rewrite <- trim_blank. destruct (JS.trim email); cbn; split; congruence.
  - intros address. destruct (JS.truthy (Some (JS.trim email))) eqn:Ht;
      [|discriminate].
    intros [= <-]. rewrite trim_idempotent, Ht.
    split; [reflexivity|]. split; [now apply truthy_some|]. now split.
Qed.

Lemma handleSubmit_passes_a_trimmed_address_witness :
  "ada@unilag.edu.ng"%str = JS.trim "  ada@unilag.edu.ng "
  /\ "ada@unilag.edu.ng"%str <> EmptyString
  /\ JS.trim "ada@unilag.edu.ng" = "ada@unilag.edu.ng"%str
  /\ Login.handleSubmit "ada@unilag.edu.ng" = Some "ada@unilag.edu.ng"%str.
Proof.
  apply (proj2 (handleSubmit_passes_a_trimmed_address "  ada@unilag.edu.ng ")).
  reflexivity.
Defined.


Lemma userKey_not_lastUserKey email :
  Utf16.eqb (App.userKey email) App.lastUserKey = false
  /\ Utf16.eqb App.lastUserKey (App.userKey email) = false.
Proof. split; reflexivity. Qed.

Lemma userKey_eqb a b :
  Utf16.eqb (App.userKey a) (App.userKey b) = Utf16.eqb a b.
Proof. reflexivity. Qed.

Lemma setItem_accepted key value st :
  (forall k v, accepts st k v = true) ->
  exists st', setItem key value st = Resolved st'
    /\ (forall k v, accepts st' k v = true)
    /\ (forall k, items st' k = if Utf16.eqb k key then Some value else items st k).
Proof.
  intros H. unfold setItem. rewrite H. eexists. split; [reflexivity|].
  split; [exact H | reflexivity].
Qed.

Section Accounts.
Variable stringifyProfile : UserProfile.t -> string.
Variable parseProfile : string -> Outcome UserProfile.t.

Lemma handleLogin_found email profile s b :
  acceptsWrites b ->
  items (localStorage b) (App.userKey email) = Some (stringifyProfile profile) ->
  stringifyProfile profile <> EmptyString ->
  parseProfile (stringifyProfile profile) = Resolved profile ->
  exists st',
    App.handleLogin parseProfile email (s, b)
    = (App.mkState App.DASHBOARD (Some profile) (App.courseData s) (App.isLoading s),
       mkBrowser st' (alerts b) (consoleErrors b))
    /\ (forall k v, accepts st' k v = true)
    /\ (forall k, items st' k
                  = if Utf16.eqb k App.lastUserKey then Some email
                    else items (localStorage b) k).
Proof.
  intros Hacc Hitem Hne Hparse.
  destruct (setItem_accepted App.lastUserKey email (localStorage b) Hacc)
    as [st' [Hset H]].
  exists st'. split; [|exact H].
  unfold App.handleLogin, getItem. rewrite Hitem.
  destruct (stringifyProfile profile) as [|c t] eqn:E; [congruence|].
  cbn [JS.truthy JS.orElse]. now rewrite Hparse, Hset.
Qed.

Lemma handleOnboardingComplete_saved uni details s b :
  acceptsWrites b ->
  let profile :=
    UserProfile.mk uni (App.d_program details) (App.d_level details)
      (App.d_name details) (App.d_email details) in
  exists st',
    App.handleOnboardingComplete stringifyProfile details (App.handleUniSelect uni s, b)
    = (App.mkState App.DASHBOARD (Some profile) (App.courseData s) (App.isLoading s),
       mkBrowser st' (alerts b) (consoleErrors b))
    /\ (forall k v, accepts st' k v = true)
    /\ (forall k, items st' k
                  = if Utf16.eqb k App.lastUserKey then Some (App.d_email details)
                    else if Utf16.eqb k (App.userKey (App.d_email details))
                         then Some (stringifyProfile profile)
                         else items (localStorage b) k).
Proof.
  intros Hacc profile.
  destruct (setItem_accepted (App.userKey (App.d_email details))
              (stringifyProfile profile) (localStorage b) Hacc)
    as [st1 [Hset1 [Hacc1 Hitems1]]].
  destruct (setItem_accepted App.lastUserKey (App.d_email details) st1 Hacc1)
    as [st2 [Hset2 [Hacc2 Hitems2]]].
  exists st2. split; [|split; [exact Hacc2|]].
  - unfold App.handleOnboardingComplete, App.handleUniSelect.
    cbn [App.userProfile UserProfile.university App.courseData App.isLoading].
    fold profile. now rewrite Hset1, Hset2.
  - intros k. now rewrite Hitems2, Hitems1.
Qed.


Lemma handleLogin_unknown email s b :
  items (localStorage b) (App.userKey email) = None ->
  App.handleLogin parseProfile email (s, b)
  = (s, if App.isLandingOrUni (App.view s) then b
        else mkBrowser (localStorage b)
               (alerts b ++ ["No account found with this email. Please register first."])
               (consoleErrors b)).
Proof.
  intros H. unfold App.handleLogin, getItem. rewrite H. cbn [JS.truthy].
  now destruct (App.isLandingOrUni (App.view s)).
Qed.

Lemma handleFinalSubmit_details program level name email details :
  Onboarding.handleFinalSubmit program level name email = Some details ->
  details = App.mkDetails program level name email
  /\ name <> EmptyString /\ email <> EmptyString.
Proof.
  unfold Onboarding.handleFinalSubmit.
  destruct name as [|c n]; [discriminate|].
  destruct email as [|c' e]; [discriminate|].
  cbn. intros [= <-]. repeat split; discriminate.
Qed.

(** X13: an account survives signing out.  Once the wizard has completed
    in a browser that accepts writes, the dashboard shows the profile
    entered; signing out leads to the landing page with no profile; and
    signing in again with the address of registration, from any state,
    leads back to the dashboard with the same profile and without an
    alert.  Signing in with another address, for which nothing is
    stored, changes nothing in the state. *)
Theorem account_survives_logout
  (uni : string) (details : App.Details) (s s' : App.State) (b : Browser) :
  let profile :=
    UserProfile.mk uni (App.d_program details) (App.d_level details)
      (App.d_name details) (App.d_email details) in
  acceptsWrites b ->
  stringifyProfile profile <> EmptyString ->
  parseProfile (stringifyProfile profile) = Resolved profile ->
  let registered :=
    App.handleOnboardingComplete stringifyProfile details
      (App.handleUniSelect uni s, b) in
  let loggedOut := App.handleLogout registered in
  let back := App.handleLogin parseProfile (App.d_email details) (s', snd loggedOut) in
  (App.view (fst registered) = App.DASHBOARD
   /\ App.userProfile (fst registered) = Some profile) /\
  (App.view (fst loggedOut) = App.LANDING
   /\ App.userProfile (fst loggedOut) = None) /\
  (App.view (fst back) = App.DASHBOARD
   /\ App.userProfile (fst back) = Some profile
   /\ alerts (snd back) = alerts b) /\
  (forall other,
     other <> App.d_email details ->
     items (localStorage b) (App.userKey other) = None ->
     fst (App.handleLogin parseProfile other (s', snd loggedOut)) = s').
Proof.
  intros profile Hacc Hne Hparse. cbv zeta.
  destruct (handleOnboardingComplete_saved uni details s b Hacc)
    as [st [Hreg [Hacc' Hitems]]].
  fold profile in Hreg, Hitems. rewrite Hreg.
  cbn [fst snd App.view App.userProfile App.handleLogout localStorage alerts
       consoleErrors].
  split; [now split|]. split; [now split|].
  set (b' := mkBrowser (removeItem App.lastUserKey st) (alerts b) (consoleErrors b)).
  assert (Hrem : forall k, items (localStorage b') k
                           = if Utf16.eqb k App.lastUserKey then None
                             else if Utf16.eqb k (App.userKey (App.d_email details))
                                  then Some (stringifyProfile profile)
                                  else items (localStorage b) k).
  { intros k. cbn [b' localStorage removeItem items]. rewrite Hitems.
    now destruct (Utf16.eqb k App.lastUserKey). }
  split.
  - destruct (handleLogin_found (App.d_email details) profile s' b')
      as [st' [Hback _]]; [exact Hacc' | | exact Hne | exact Hparse | ].
    + rewrite Hrem, (proj1 (userKey_not_lastUserKey _)), string_eqb_refl.
      reflexivity.
    + rewrite Hback. now split.
  - intros other Hother Hnone. rewrite handleLogin_unknown; [reflexivity|].
    rewrite Hrem, (proj1 (userKey_not_lastUserKey _)), userKey_eqb.
    apply string_eqb_neq in Hother. now rewrite Hother.
Qed.

(** X14: the session lasts until the user signs out.  After a
    registration through the wizard's form (which submits only a
    non-empty name and address), mounting the application again in the
    same browser opens the dashboard with the profile, without an alert;
    after signing out, mounting it again leaves the initial state and
    the browser as they are. *)
Theorem session_is_restored_until_logout
  (uni program level name email : string) (details : App.Details)
  (s : App.State) (b : Browser) :
  let profile := UserProfile.mk uni program level name email in
  Onboarding.handleFinalSubmit program level name email = Some details ->
  acceptsWrites b ->
  stringifyProfile profile <> EmptyString ->
  parseProfile (stringifyProfile profile) = Resolved profile ->
  let registered :=
    App.handleOnboardingComplete stringifyProfile details
      (App.handleUniSelect uni s, b) in
  let loggedOut := App.handleLogout registered in
  let reloaded := App.onMount parseProfile (App.initialState, snd registered) in
  fst reloaded = App.mkState App.DASHBOARD (Some profile) None false /\
  alerts (snd reloaded) = alerts b /\
  App.onMount parseProfile (App.initialState, snd loggedOut)
    = (App.initialState, snd loggedOut).
Proof.
  intros profile Hsubmit Hacc Hne Hparse. cbv zeta.
  destruct (handleFinalSubmit_details _ _ _ _ _ Hsubmit) as [-> [_ Hemail]].
  destruct (handleOnboardingComplete_saved uni
              (App.mkDetails program level name email) s b Hacc)
    as [st [Hreg [Hacc' Hitems]]].
  cbn [App.d_program App.d_level App.d_name App.d_email] in Hreg, Hitems.
  fold profile in Hreg, Hitems. rewrite Hreg.
  cbn [fst snd App.handleLogout localStorage alerts consoleErrors].
  split; [|split].
  - unfold App.onMount, getItem. cbn [snd localStorage]. rewrite Hitems.
    rewrite string_eqb_refl.
    destruct email as [|c e]; [congruence|]. cbn [JS.truthy JS.orElse].
    destruct (handleLogin_found (String c e) profile App.initialState
                (mkBrowser st (alerts b) (consoleErrors b)))
      as [st' [Hback _]]; [exact Hacc' | | exact Hne | exact Hparse | ].
    + cbn [localStorage]. rewrite Hitems,
        (proj1 (userKey_not_lastUserKey _)), string_eqb_refl. reflexivity.
    + now rewrite Hback.
  - unfold App.onMount, getItem. cbn [snd localStorage]. rewrite Hitems.
    rewrite string_eqb_refl.
    destruct email as [|c e]; [congruence|]. cbn [JS.truthy JS.orElse].
    destruct (handleLogin_found (String c e) profile App.initialState
                (mkBrowser st (alerts b) (consoleErrors b)))
      as [st' [Hback _]]; [exact Hacc' | | exact Hne | exact Hparse | ].
    + cbn [localStorage]. rewrite Hitems,
        (proj1 (userKey_not_lastUserKey _)), string_eqb_refl. reflexivity.
    + now rewrite Hback.
  - unfold App.onMount, getItem. cbn [snd localStorage removeItem items].
    now rewrite string_eqb_refl.
Qed.

Lemma handleUpdateProfile_saved updated s b :
  acceptsWrites b ->
  exists st',
    App.handleUpdateProfile stringifyProfile updated (s, b)
    = (App.mkState (App.view s) (Some updated) (App.courseData s) (App.isLoading s),
       mkBrowser st' (alerts b) (consoleErrors b))
    /\ (forall k v, accepts st' k v = true)
    /\ (forall k, items st' k
                  = if Utf16.eqb k (App.userKey (UserProfile.email updated))
                    then Some (stringifyProfile updated)
                    else items (localStorage b) k).
Proof.
  intros Hacc.
  destruct (setItem_accepted (App.userKey (UserProfile.email updated))
              (stringifyProfile updated) (localStorage b) Hacc)
    as [st1 [Hset1 H]].
  exists st1. split; [|exact H].
  unfold App.handleUpdateProfile. now rewrite Hset1.
Qed.

(** X15: editing the address of a profile does not move the session.
    [handleUpdateProfile] stores the edited profile under the key of its
    address and leaves the remembered address alone.  So, after a
    registration and an edit, mounting the application again restores
    the edited profile when the address was kept, and the profile as it
    was registered when the address was changed; the edited profile is
    then reached by signing in with the new address. *)
Theorem profile_update_keeps_the_session_address
  (uni program level name email : string) (details : App.Details)
  (updated : UserProfile.t) (s : App.State) (b : Browser) :
  let profile := UserProfile.mk uni program level name email in
  Onboarding.handleFinalSubmit program level name email = Some details ->
  acceptsWrites b ->
  (forall p, p = profile \/ p = updated ->
     stringifyProfile p <> EmptyString
     /\ parseProfile (stringifyProfile p) = Resolved p) ->
  let registered :=
    App.handleOnboardingComplete stringifyProfile details
      (App.handleUniSelect uni s, b) in
  let saved := App.handleUpdateProfile stringifyProfile updated registered in
  let reloaded := App.onMount parseProfile (App.initialState, snd saved) in
  App.userProfile (fst saved) = Some updated /\
  App.view (fst saved) = App.DASHBOARD /\
  (UserProfile.email updated = email ->
   App.userProfile (fst reloaded) = Some updated) /\
  (UserProfile.email updated <> email ->
   App.userProfile (fst reloaded) = Some profile /\
   forall s',
     App.userProfile
       (fst (App.handleLogin parseProfile (UserProfile.email updated)
               (s', snd saved)))
     = Some updated).
Proof.
  intros profile Hsubmit Hacc Hjson. cbv zeta.
  destruct (handleFinalSubmit_details _ _ _ _ _ Hsubmit) as [-> [_ Hemail]].
  destruct (handleOnboardingComplete_saved uni
              (App.mkDetails program level name email) s b Hacc)
    as [st [Hreg [Hacc' Hitems]]].
  cbn [App.d_program App.d_level App.d_name App.d_email] in Hreg, Hitems.
  fold profile in Hreg, Hitems. rewrite Hreg.
  destruct (handleUpdateProfile_saved updated
              (App.mkState App.DASHBOARD (Some profile) (App.courseData s)
                 (App.isLoading s))
              (mkBrowser st (alerts b) (consoleErrors b)) Hacc')
    as [st' [Hsaved [Hacc'' Hitems']]].
  rewrite Hsaved. cbn [localStorage alerts consoleErrors] in Hitems' |- *.
  cbn [fst snd App.view App.userProfile].
  split; [reflexivity|]. split; [reflexivity|].
  set (b' := mkBrowser st' (alerts b) (consoleErrors b)).
  assert (Hlast : getItem App.lastUserKey (localStorage b') = Some email).
  { unfold getItem. cbn [b' localStorage].
    rewrite Hitems', (proj2 (userKey_not_lastUserKey _)), Hitems.
    now rewrite string_eqb_refl. }
  assert (Hmount : App.onMount parseProfile (App.initialState, b')
                   = App.handleLogin parseProfile email (App.initialState, b')).
  { unfold App.onMount. cbn [snd]. rewrite Hlast.
    destruct email as [|c e]; [congruence | reflexivity]. }
  rewrite Hmount. split; [|split].
  - intros Hsame.
    destruct (handleLogin_found email updated App.initialState b')
      as [st2 [Hback _]];
      [exact Hacc'' | | apply Hjson; now right | apply Hjson; now right | ].
    + cbn [b' localStorage]. now rewrite Hitems', Hsame, string_eqb_refl.
    + now rewrite Hback.
  - destruct (handleLogin_found email profile App.initialState b')
      as [st2 [Hback _]];
      [exact Hacc'' | | apply Hjson; now left | apply Hjson; now left | ].
    + cbn [b' localStorage]. rewrite Hitems', userKey_eqb.
      assert (Hneq : Utf16.eqb email (UserProfile.email updated) = false)
        by (apply string_eqb_neq; congruence).
      rewrite Hneq, Hitems, (proj1 (userKey_not_lastUserKey _)), string_eqb_refl.
      reflexivity.
    + now rewrite Hback.
  - intros s'.
    destruct (handleLogin_found (UserProfile.email updated) updated s' b')
      as [st2 [Hback _]];
      [exact Hacc'' | | apply Hjson; now right | apply Hjson; now right | ].
    + cbn [b' localStorage]. now rewrite Hitems', string_eqb_refl.
    + now rewrite Hback.
Qed.

End Accounts.

Lemma account_survives_logout_witness :
  let details := App.mkDetails "Law" "100 Level" "Ada" "ada@unilag.edu.ng" in
  let profile := UserProfile.mk "Unilag" "Law" "100 Level" "Ada" "ada@unilag.edu.ng" in
  let b := mkBrowser (mkStorage (fun _ => None) (fun _ _ => true)) [] [] in
  let stringifyProfile := fun _ : UserProfile.t => "{}"%str in
  let parseProfile := fun _ : string => Resolved profile in
  App.userProfile
    (fst (App.handleLogin parseProfile "ada@unilag.edu.ng"
            (App.mkState App.LOGIN None None false,
             snd (App.handleLogout
                    (App.handleOnboardingComplete stringifyProfile details
                       (App.handleUniSelect "Unilag" App.initialState, b))))))
  = Some profile.
Proof.
  cbv zeta.
  refine (proj1 (proj2 (proj1 (proj2 (proj2
    (account_survives_logout (fun _ => "{}"%str)
       (fun _ => Resolved
          (UserProfile.mk "Unilag" "Law" "100 Level" "Ada" "ada@unilag.edu.ng"))
       "Unilag" (App.mkDetails "Law" "100 Level" "Ada" "ada@unilag.edu.ng")
       App.initialState (App.mkState App.LOGIN None None false)
       (mkBrowser (mkStorage (fun _ => None) (fun _ _ => true)) [] [])
       _ _ _)))))).
  - intros key value. reflexivity.
  - discriminate.
  - reflexivity.
Defined.

Lemma session_is_restored_until_logout_witness :
  let details := App.mkDetails "Law" "100 Level" "Ada" "ada@unilag.edu.ng" in
  let profile := UserProfile.mk "Unilag" "Law" "100 Level" "Ada" "ada@unilag.edu.ng" in
  let b := mkBrowser (mkStorage (fun _ => None) (fun _ _ => true)) [] [] in
  let stringifyProfile := fun _ : UserProfile.t => "{}"%str in
  let parseProfile := fun _ : string => Resolved profile in
  fst (App.onMount parseProfile
         (App.initialState,
          snd (App.handleOnboardingComplete stringifyProfile details
                 (App.handleUniSelect "Unilag" App.initialState, b))))
  = App.mkState App.DASHBOARD (Some profile) None false.
Proof.
  cbv zeta.
  refine (proj1
    (session_is_restored_until_logout (fun _ => "{}"%str)
       (fun _ => Resolved
          (UserProfile.mk "Unilag" "Law" "100 Level" "Ada" "ada@unilag.edu.ng"))
       "Unilag" "Law" "100 Level" "Ada" "ada@unilag.edu.ng"
       (App.mkDetails "Law" "100 Level" "Ada" "ada@unilag.edu.ng")
       App.initialState
       (mkBrowser (mkStorage (fun _ => None) (fun _ _ => true)) [] [])
       eq_refl _ _ _)).
  - intros key value. reflexivity.
  - discriminate.
  - reflexivity.
Defined.

Lemma profile_update_keeps_the_session_address_witness :
  let details := App.mkDetails "Law" "100 Level" "Ada" "ada@unilag.edu.ng" in
  let profile := UserProfile.mk "Unilag" "Law" "100 Level" "Ada" "ada@unilag.edu.ng" in
  let updated := UserProfile.mk "Unilag" "Law" "200 Level" "Ada" "ada@mail.ng" in
  let b := mkBrowser (mkStorage (fun _ => None) (fun _ _ => true)) [] [] in
  let stringifyProfile := fun p : UserProfile.t => UserProfile.level p in
  let parseProfile := fun t : string =>
    Resolved (if Utf16.eqb t "100 Level" then profile else updated) in
  App.userProfile
    (fst (App.onMount parseProfile
            (App.initialState,
             snd (App.handleUpdateProfile stringifyProfile updated
                    (App.handleOnboardingComplete stringifyProfile details
                       (App.handleUniSelect "Unilag" App.initialState, b))))))
  = Some profile.
Proof.
  cbv zeta.
  refine (proj1 (proj2 (proj2 (proj2
    (profile_update_keeps_the_session_address
       (fun p => UserProfile.level p)
       (fun t => Resolved
          (if Utf16.eqb t "100 Level"
           then UserProfile.mk "Unilag" "Law" "100 Level" "Ada" "ada@unilag.edu.ng"
           else UserProfile.mk "Unilag" "Law" "200 Level" "Ada" "ada@mail.ng"))
       "Unilag" "Law" "100 Level" "Ada" "ada@unilag.edu.ng"
       (App.mkDetails "Law" "100 Level" "Ada" "ada@unilag.edu.ng")
       (UserProfile.mk "Unilag" "Law" "200 Level" "Ada" "ada@mail.ng")
       App.initialState
       (mkBrowser (mkStorage (fun _ => None) (fun _ _ => true)) [] [])
       eq_refl _ _))) _)).
  - intros key value. reflexivity.
  - intros p [-> | ->]; split; (discriminate || reflexivity).
  - discriminate.
Defined.

(* ===================================================================== *)
(** ** Opening a course and reading its chapters *)
(* ===================================================================== *)

(** X16: what starting a course leads to.  Without a profile
    [handleStartCourse] does nothing.  With a profile and the service in
    demo mode it opens the canned outline of the topic without sending a
    request.  With the service without demo mode and a response that has
    no text, it stays on the current view with the course data it had,
    shows one alert and has sent one request.  In every case the loading
    flag is off at the end. *)
Theorem handleStartCourse_outcomes
  (parseCourseOutline : string -> Outcome CourseOutline.t)
  (apiKey : option string) (topic : string) (s : App.State) (b : Browser)
  (w : World) :
  let live := App.handleStartCourse
                (GeminiService.generateCourseOutline parseCourseOutline)
                topic (s, b) w in
  let demo := App.handleStartCourse
                (GeminiServiceDemo.generateCourseOutline apiKey parseCourseOutline)
                topic (s, b) w in
  (App.userProfile s = None -> live = (s, b, w) /\ demo = (s, b, w)) /\
  (forall p, App.userProfile s = Some p ->
     App.isLoading (fst (fst live)) = false /\
     App.isLoading (fst (fst demo)) = false /\
     (GeminiServiceDemo.isMockMode apiKey = true ->
      demo = (App.mkState App.COURSE (Some p)
                (Some (GeminiServiceDemo.getMockCourseOutline topic)) false,
              b, w)) /\
     (forall response,
        replies w (requests w) = Resolved response ->
        JS.truthy (text response) = false ->
        live = (App.mkState (App.view s) (Some p) (App.courseData s) false,
                mkBrowser (localStorage b)
                  (alerts b
                     ++ ["Could not generate course. Please verify API Key or try again."])
                  (consoleErrors b ++ ["No response from Gemini"]),
                sent w))).
Proof.
  cbv zeta. unfold App.handleStartCourse. split.
  - intros H. rewrite H. now split.
  - intros p Hp. rewrite Hp.
    split; [|split; [|split]].
    + destruct (GeminiService.generateCourseOutline _ _ _ w) as [[[o|e] w1] ev];
        reflexivity.
    + destruct (GeminiServiceDemo.generateCourseOutline _ _ _ _ w)
        as [[[o|e] w1] ev]; reflexivity.
    + intros Hmock. now rewrite (mock_courseOutline apiKey parseCourseOutline Hmock w).
    + intros response Hreply Hempty.
      pose proof (plain_run _ _
                    (courseOutline_plain parseCourseOutline topic
                       ("Student: " ++ UserProfile.name p ++ ". "
                          ++ UserProfile.level p ++ " " ++ UserProfile.program p
                          ++ " at " ++ UserProfile.university p))
                    w 0) as Hrun.
      cbv zeta in Hrun. cbn [Nat.add] in Hrun. rewrite Hreply in Hrun.
      cbn [settledBy] in Hrun. rewrite Hempty in Hrun. cbn [negb] in Hrun.
      destruct Hrun as [Hrun _]; [lia | intros j Hj; lia | now left |].
      unfold GeminiService.generateCourseOutline.
      destruct (GeminiService.retryWithBackoff_default _ w) as [[o w1] ev].
      cbn [fst] in Hrun. injection Hrun as -> ->. rewrite <- Hp.
      reflexivity.
Qed.

Lemma handleStartCourse_outcomes_witness :
  let p := UserProfile.mk "Unilag" "Law" "100 Level" "Ada" "ada@unilag.edu.ng" in
  let s := App.mkState App.DASHBOARD (Some p) None false in
  let b := mkBrowser (mkStorage (fun _ => None) (fun _ _ => true)) [] [] in
  let w := constWorld (Rejected tooManyRequests) in
  App.handleStartCourse
    (GeminiServiceDemo.generateCourseOutline None
       (fun _ => Rejected (typeError "Unexpected end of JSON input")))
    "Torts" (s, b) w
  = (App.mkState App.COURSE (Some p)
       (Some (GeminiServiceDemo.getMockCourseOutline "Torts")) false, b, w).
Proof.
  cbv zeta.
  exact (proj1 (proj2 (proj2 (proj2 (handleStartCourse_outcomes
    (fun _ => Rejected (typeError "Unexpected end of JSON input")) None "Torts"
    (App.mkState App.DASHBOARD
       (Some (UserProfile.mk "Unilag" "Law" "100 Level" "Ada" "ada@unilag.edu.ng"))
       None false)
    (mkBrowser (mkStorage (fun _ => None) (fun _ _ => true)) [] [])
    (constWorld (Rejected tooManyRequests)))
    (UserProfile.mk "Unilag" "Law" "100 Level" "Ada" "ada@unilag.edu.ng")
    eq_refl))) eq_refl).
Defined.

Lemma fetchContent_once run i s w :
  (forall content, fst (fst (run w)) = Resolved content -> content <> EmptyString) ->
  JS.truthy (CourseView.contentCache s i) = false ->
  let fetched := CourseView.fetchContent run i s w in
  CourseView.isLoading (fst fetched) = false /\
  snd fetched = snd (fst (run w)) /\
  (forall k, k <> i ->
     CourseView.contentCache (fst fetched) k = CourseView.contentCache s k) /\
  match fst (fst (run w)) with
  | Resolved content =>
      CourseView.contentCache (fst fetched) i = Some content
      /\ CourseView.error (fst fetched) = None
      /\ forall run', CourseView.fetchContent run' i (fst fetched) (snd fetched)
                      = fetched
  | Rejected _ =>
      CourseView.contentCache (fst fetched) i = CourseView.contentCache s i
      /\ CourseView.error (fst fetched)
         = Some "Failed to load chapter content. Please try again."%str
  end.
Proof.
  intros Hne Hmiss. cbv zeta.
  destruct (run w) as [[[content|e] w1] ev] eqn:Hrun.
  - assert (Hf : CourseView.fetchContent run i s w
                 = (CourseView.mkState
                      (fun k => if Nat.eqb k i then Some content
                                else CourseView.contentCache s k)
                      false None, w1))
      by (unfold CourseView.fetchContent; now rewrite Hmiss, Hrun).
    rewrite Hf.
    cbn [fst snd CourseView.isLoading CourseView.contentCache CourseView.error].
    split; [reflexivity|]. split; [reflexivity|]. split.
    + intros k Hk. apply Nat.eqb_neq in Hk. now rewrite Hk.
    + rewrite Nat.eqb_refl. split; [reflexivity|]. split; [reflexivity|].
      intros run'. unfold CourseView.fetchContent.
      cbn [CourseView.contentCache]. rewrite Nat.eqb_refl.
      specialize (Hne content eq_refl).
      destruct content as [|c t]; [congruence|]. reflexivity.
  - assert (Hf : CourseView.fetchContent run i s w
                 = (CourseView.mkState (CourseView.contentCache s) false
                      (Some "Failed to load chapter content. Please try again."),
                    w1))
      by (unfold CourseView.fetchContent; now rewrite Hmiss, Hrun).
    rewrite Hf. repeat split.
Qed.

(** X17: a chapter is fetched once.  When the chapter shown is not in
    the cache, [fetchContent] calls the chapter accessor; if that
    resolves, the text is stored under the chapter's index with no
    error and the loading flag off, the entries of the other chapters
    are kept, and running [fetchContent] again for that chapter (as the
    effect does, the cache being one of its dependencies) changes
    nothing and sends nothing: the text stored is never empty.  If the
    accessor rejects, the cache is unchanged and the error message is
    set.  This holds with the chapter accessor of either copy. *)
Theorem fetchContent_fetches_a_chapter_once
  (apiKey : option string) (courseTitle chapterTitle : string)
  (i : nat) (s : CourseView.State) (w : World) :
  JS.truthy (CourseView.contentCache s i) = false ->
  forall run,
    run = GeminiService.generateChapterContent courseTitle chapterTitle None
    \/ run = GeminiServiceDemo.generateChapterContent apiKey courseTitle
               chapterTitle None ->
    let fetched := CourseView.fetchContent run i s w in
    CourseView.isLoading (fst fetched) = false /\
    snd fetched = snd (fst (run w)) /\
    (forall k, k <> i ->
       CourseView.contentCache (fst fetched) k = CourseView.contentCache s k) /\
    match fst (fst (run w)) with
    | Resolved content =>
        content <> EmptyString
        /\ CourseView.contentCache (fst fetched) i = Some content
        /\ CourseView.error (fst fetched) = None
        /\ forall run', CourseView.fetchContent run' i (fst fetched) (snd fetched)
                        = fetched
    | Rejected _ =>
        CourseView.contentCache (fst fetched) i = CourseView.contentCache s i
        /\ CourseView.error (fst fetched)
           = Some "Failed to load chapter content. Please try again."%str
    end.
Proof.
  intros Hmiss run Hrun.
  assert (Hne : forall content,
            fst (fst (run w)) = Resolved content -> content <> EmptyString).
  { destruct Hrun as [-> | ->]; intros content.
    - apply chapterContent_nonempty.
    - apply demo_chapterContent_nonempty. }
  destruct (fetchContent_once run i s w Hne Hmiss) as [H1 [H2 [H3 H4]]].
  cbv zeta. split; [exact H1|]. split; [exact H2|]. split; [exact H3|].
  destruct (fst (fst (run w))) as [content|e]; [|exact H4].
  split; [now apply Hne | exact H4].
Qed.

Lemma fetchContent_fetches_a_chapter_once_witness :
  let s := CourseView.mkState (fun _ => None) false None in
  let w := constWorld (Resolved (textResponse "")) in
  let run := GeminiService.generateChapterContent "Biology" "Cells" None in
  CourseView.contentCache (fst (CourseView.fetchContent run 2 s w)) 2
  = Some "Failed to generate content."%str.
Proof.
  cbv zeta.
  exact (proj1 (proj2 (proj2 (proj2 (proj2
    (fetchContent_fetches_a_chapter_once None "Biology" "Cells" 2
       (CourseView.mkState (fun _ => None) false None)
       (constWorld (Resolved (textResponse ""))) eq_refl
       (GeminiService.generateChapterContent "Biology" "Cells" None)
       (or_introl eq_refl))))))).
Defined.

(* ===================================================================== *)
(** ** The favourite books of the library *)
(* ===================================================================== *)

Lemma filter_all {A} (f : A -> bool) (l : list A) :
  existsb (fun x => negb (f x)) l = false -> filter f l = l.
Proof.
  induction l as [|x l IH]; [reflexivity|].
  cbn [existsb filter]. rewrite orb_false_iff, negb_false_iff.
  intros [-> H]. now rewrite IH.
Qed.

Lemma existsb_filter {A} (f g : A -> bool) (l : list A) :
  existsb g (filter f l) = existsb (fun x => f x && g x) l.
Proof.
  induction l as [|x l IH]; [reflexivity|].
  cbn [existsb filter]. destruct (f x); cbn [existsb andb orb]; now rewrite IH.
Qed.

Lemma NoDup_map_filter {A B} (t : A -> B) (f : A -> bool) (l : list A) :
  NoDup (map t l) -> NoDup (map t (filter f l)).
Proof.
  induction l as [|x l IH]; [trivial|].
  cbn [map filter]. intros H. inversion H as [|? ? Hnotin Hrest]; subst.
  destruct (f x); [|now apply IH].
  cbn [map]. constructor; [|now apply IH].
  intros Hin. apply Hnotin. apply in_map_iff in Hin.
  destruct Hin as [y [Hy Hin]]. apply filter_In in Hin.
  apply in_map_iff. exists y. tauto.
Qed.

Lemma existsb_agree {A} (f g : A -> bool) (l : list A) :
  (forall x, f x = g x) -> existsb f l = existsb g l.
Proof.
  intros H. induction l as [|x l IH]; [reflexivity|].
  cbn [existsb]. now rewrite H, IH.
Qed.

Lemma NoDup_snoc {A} (a : A) (l : list A) :
  NoDup l -> ~ In a l -> NoDup (l ++ [a]).
Proof.
  induction l as [|x l IH]; intros H Hn; cbn [app].
  - constructor; [intros [] | constructor].
  - inversion H as [|? ? Hx Hl]; subst. constructor.
    + intros Hin. apply in_app_or in Hin. destruct Hin as [Hin|[Hin|[]]];
        [contradiction | subst; apply Hn; now left].
    + apply IH; [assumption | intros Hin; apply Hn; now right].
Qed.

Lemma sameTitle_existsb (book : Book.t) (l : list Book.t) :
  existsb (fun b => Dashboard.sameTitle b book) l = false ->
  ~ In (Book.title book) (map Book.title l).
Proof.
  intros H Hin. apply in_map_iff in Hin. destruct Hin as [b [Hb Hin]].
  assert (existsb (fun b => Dashboard.sameTitle b book) l = true) as Ht.
  { apply existsb_exists. exists b. split; [exact Hin|].
    unfold Dashboard.sameTitle. now apply string_eqb_eq. }
  congruence.
Qed.

Lemma sameTitle_trans (a b c : Book.t) :
  Dashboard.sameTitle a b = true ->
  Dashboard.sameTitle a c = Dashboard.sameTitle b c.
Proof.
  unfold Dashboard.sameTitle. intros H. apply string_eqb_eq in H. now rewrite H.
Qed.

(** X18: what the favourite star and the undo toast do to the list.
    [toggleFavorite] flips whether the list holds a book with the title
    of the book clicked and leaves every other title as it was; it and
    [handleUndoFavorite] keep the titles of the list distinct.  For a
    book that was not a favourite, undoing right after the addition, or
    clicking the star a second time, gives back the list as it was, and
    the undo hides the toast. *)
Theorem toggleFavorite_flips_one_title (book : Book.t) (s : Dashboard.State) :
  let toggled := Dashboard.toggleFavorite book s in
  let held (st : Dashboard.State) (other : Book.t) :=
    existsb (fun b => Dashboard.sameTitle b other) (Dashboard.favoriteBooks st) in
  (forall other,
     held toggled other
     = if Dashboard.sameTitle book other then negb (held s other)
       else held s other) /\
  (NoDup (map Book.title (Dashboard.favoriteBooks s)) ->
   NoDup (map Book.title (Dashboard.favoriteBooks toggled))
   /\ NoDup (map Book.title
               (Dashboard.favoriteBooks (Dashboard.handleUndoFavorite s)))) /\
  (held s book = false ->
   Dashboard.favoriteBooks (Dashboard.handleUndoFavorite toggled)
     = Dashboard.favoriteBooks s
   /\ Dashboard.undoToast (Dashboard.handleUndoFavorite toggled)
      = Dashboard.mkToast false None
   /\ Dashboard.favoriteBooks (Dashboard.toggleFavorite book toggled)
      = Dashboard.favoriteBooks s).
Proof.
  cbv zeta. unfold Dashboard.toggleFavorite at 1 2.
  destruct (existsb (fun b => Dashboard.sameTitle b book)
              (Dashboard.favoriteBooks s)) eqn:Hheld.
  - cbn [Dashboard.favoriteBooks]. split; [|split; [|discriminate]].
    + intros other. rewrite existsb_filter.
      destruct (Dashboard.sameTitle book other) eqn:Hsame.
      * apply existsb_exists in Hheld. destruct Hheld as [b [Hin Hb]].
        assert (existsb (fun b => Dashboard.sameTitle b other)
                  (Dashboard.favoriteBooks s) = true) as ->.
        { apply existsb_exists. exists b. split; [exact Hin|].
          now rewrite (sameTitle_trans b book other Hb). }
        cbn [negb]. apply not_true_is_false. intros H.
        apply existsb_exists in H. destruct H as [x [_ Hx]].
        apply andb_true_iff in Hx. destruct Hx as [Hx1 Hx2].
        apply negb_true_iff in Hx1. unfold Dashboard.sameTitle in *.
        apply string_eqb_eq in Hx2, Hsame. rewrite Hx2, <- Hsame in Hx1.
        now rewrite string_eqb_refl in Hx1.
      * clear Hheld.
        induction (Dashboard.favoriteBooks s) as [|x l IH]; [reflexivity|].
        cbn [existsb]. rewrite IH.
        destruct (Dashboard.sameTitle x other) eqn:Hx; [|now rewrite andb_false_r].
        assert (Dashboard.sameTitle x book = false) as ->; [|reflexivity].
        unfold Dashboard.sameTitle in *. apply string_eqb_eq in Hx.
        rewrite Hx, string_eqb_sym. exact Hsame.
    + intros Hnodup. split; [now apply NoDup_map_filter|].
      unfold Dashboard.handleUndoFavorite.
      destruct (Dashboard.book (Dashboard.undoToast s));
        [now apply NoDup_map_filter | exact Hnodup].
  - cbn [Dashboard.favoriteBooks]. split; [|split].
    + intros other. rewrite existsb_app. cbn [existsb]. rewrite orb_false_r.
      destruct (Dashboard.sameTitle book other) eqn:Hsame;
        [|now rewrite orb_false_r].
      assert (existsb (fun b => Dashboard.sameTitle b other)
                (Dashboard.favoriteBooks s) = false) as ->; [|reflexivity].
      rewrite <- Hheld. apply existsb_agree. intros b.
      unfold Dashboard.sameTitle in *. apply string_eqb_eq in Hsame.
      now rewrite Hsame.
    + intros Hnodup. split.
      * rewrite map_app. cbn [map].
        apply NoDup_snoc; [exact Hnodup | now apply sameTitle_existsb].
      * unfold Dashboard.handleUndoFavorite.
        destruct (Dashboard.book (Dashboard.undoToast s));
          [now apply NoDup_map_filter | exact Hnodup].
    + intros _.
      assert (Hfilter :
        filter (fun x => negb (Dashboard.sameTitle x book))
               (Dashboard.favoriteBooks s ++ [book])
        = Dashboard.favoriteBooks s).
      { rewrite filter_app. cbn [filter]. unfold Dashboard.sameTitle at 2.
        rewrite string_eqb_refl. cbn [negb]. rewrite app_nil_r.
        apply filter_all. rewrite <- Hheld. apply existsb_agree.
        intros b. now rewrite negb_involutive. }
      unfold Dashboard.handleUndoFavorite, Dashboard.toggleFavorite.
      rewrite !Hheld.
      cbn [Dashboard.undoToast Dashboard.book Dashboard.favoriteBooks].
      rewrite existsb_app, Hheld. cbn [existsb orb].
      unfold Dashboard.sameTitle at 2. rewrite string_eqb_refl. cbn [orb].
      cbn [Dashboard.favoriteBooks Dashboard.undoToast]. now rewrite Hfilter.
Qed.

Lemma toggleFavorite_flips_one_title_witness :
  let calculus := Book.mk "Calculus" "Spivak" "Proofs first." None in
  let s := Dashboard.mkState [Book.mk "Algebra" "Lang" "Groups." None]
             (Dashboard.mkToast false None) false in
  Dashboard.favoriteBooks
    (Dashboard.handleUndoFavorite (Dashboard.toggleFavorite calculus s))
  = Dashboard.favoriteBooks s.
Proof.
  cbv zeta.
  exact (proj1 (proj2 (proj2 (toggleFavorite_flips_one_title
    (Book.mk "Calculus" "Spivak" "Proofs first." None)
    (Dashboard.mkState [Book.mk "Algebra" "Lang" "Groups." None]
       (Dashboard.mkToast false None) false))) eq_refl)).
Defined.

(* ===================================================================== *)
(** ** Taking a quiz *)
(* ===================================================================== *)

Lemma assignIndex_length {A} (hole v : A) (arr : list A) : forall index,
  (index < List.length arr)%nat ->
  List.length (JS.assignIndex hole index v arr) = List.length arr.
Proof.
  induction arr as [|x arr IH]; intros index H; cbn [List.length] in *; [lia|].
  destruct index as [|i]; cbn [JS.assignIndex List.length]; [reflexivity|].
  rewrite IH; [reflexivity | lia].
Qed.

Lemma finalScore_bounds (questions : list QuizQuestion.t) : forall idx userAnswers,
  (0 <= QuizView.finalScore questions idx userAnswers
     <= Z.of_nat (List.length questions))%Z.
Proof.
  induction questions as [|q rest IH]; intros idx userAnswers;
    cbn [QuizView.finalScore List.length]; [lia|].
  specialize (IH (S idx) userAnswers).
  destruct (nth_error userAnswers idx) as [[a|]|];
    [destruct (a =? QuizQuestion.correctAnswerIndex q)%Z|..]; lia.
Qed.

Section QuizActions.
Variable customConfig : option QuizView.CustomConfig.

Lemma handleFinishTest_keeps s :
  showsQuestion s -> showsQuestion (QuizView.handleFinishTest s).
Proof.
  intros [q [Hq [Hi [Hl Hc]]]]. unfold QuizView.handleFinishTest. rewrite Hq.
  destruct (QuizView.isSubmitted s) eqn:Hs.
  - exists q. rewrite Hs. auto.
  - exists q. cbn. rewrite Hc. auto.
Qed.

Lemma act_keeps a s :
  showsQuestion s -> showsQuestion (QuizView.act customConfig a s).
Proof.
  intros H. destruct a as [optionIndex| | | | | |]; cbn [QuizView.act];
    try (now apply handleFinishTest_keeps);
    pose proof H as [q [Hq [Hi [Hl Hc]]]].
  - unfold QuizView.handleOptionClick.
    destruct (QuizView.isSubmitted s) eqn:Hs; cbn [orb]; [exact H|].
    destruct (negb (QuizView.isTestMode customConfig)
              && QuizView.isAnsweredImmediate s); [exact H|].
    destruct (QuizView.isTestMode customConfig); exists q; cbn;
      rewrite ?Hs, assignIndex_length by lia; auto.
  - unfold QuizView.handleNext. rewrite Hq.
    destruct (Z.ltb_spec (Z.of_nat (QuizView.currentQuestionIndex s))
                (Z.of_nat (List.length (Quiz.questions q)) - 1)).
    + exists q. cbn. repeat split; auto; lia.
    + destruct (QuizView.isTestMode customConfig);
        [exact H | now apply handleFinishTest_keeps].
  - exists q. cbn. repeat split; auto; lia.
  - unfold QuizView.handleReviewNext. rewrite Hq.
    destruct (Z.ltb_spec (Z.of_nat (QuizView.currentQuestionIndex s))
                (Z.of_nat (List.length (Quiz.questions q)) - 1));
      exists q; cbn; repeat split; auto; lia.
  - exists q. cbn. repeat split; auto; lia.
  - exists q. cbn. repeat split; auto.
Qed.

Lemma act_keeps_quiz a s :
  QuizView.quiz (QuizView.act customConfig a s) = QuizView.quiz s.
Proof.
  destruct s as [quiz index answers answered score loading submitted review
                 left_ end_ completed].
  destruct a as [optionIndex| | | | | |]; cbn [QuizView.act];
    unfold QuizView.handleOptionClick, QuizView.handleNext,
      QuizView.handleFinishTest, QuizView.handleReviewNext,
      QuizView.handlePrevious, QuizView.handleReviewAnswers,
      QuizView.handleBackToScore, QuizView.setIndex, QuizView.setReview;
    cbn;
    repeat match goal with
           | |- context [match ?x with _ => _ end] => destruct x
           end; reflexivity.
Qed.

Lemma act_keeps_submitted a s :
  QuizView.isSubmitted s = true ->
  QuizView.isSubmitted (QuizView.act customConfig a s) = true
  /\ QuizView.userAnswers (QuizView.act customConfig a s) = QuizView.userAnswers s
  /\ QuizView.completed (QuizView.act customConfig a s) = QuizView.completed s.
Proof.
  destruct s as [quiz index answers answered score loading submitted review
                 left_ end_ completed].
  cbn [QuizView.isSubmitted]. intros ->.
  destruct a as [optionIndex| | | | | |]; cbn [QuizView.act];
    unfold QuizView.handleOptionClick, QuizView.handleNext,
      QuizView.handleFinishTest, QuizView.handleReviewNext,
      QuizView.handlePrevious, QuizView.handleReviewAnswers,
      QuizView.handleBackToScore, QuizView.setIndex, QuizView.setReview;
    cbn;
    repeat match goal with
           | |- context [match ?x with _ => _ end] => destruct x
           end; cbn; auto.
Qed.

End QuizActions.

(** X19: the quiz view stays consistent whatever the user does.  Each
    handler by itself (a click on an option, Next, Previous, Submit, the
    review buttons, Back to Score), whatever the config, takes a state
    that shows a question of its quiz to a state that shows a question
    of the same quiz, and changes neither the answers nor the report
    once the quiz is submitted.  For the quiz of a course, which the
    parent mounts without a config, this carries over to every sequence
    of actions: the index designates a question and there is one answer
    slot per question, the score is reported to the parent once, when
    the quiz is submitted, it is the number of correct answers among the
    answers held then, between 0 and the number of questions, and after
    the submission neither the answers nor the report change.  Nothing
    is said about sequences of actions on a custom quiz: the parent
    passes it a new config object on each of its renders, after which
    the quiz is fetched again. *)
Theorem quiz_actions_keep_the_view_consistent :
  (forall (customConfig : option QuizView.CustomConfig)
          (a : QuizView.Action) (s : QuizView.State),
     showsQuestion s ->
     let s' := QuizView.act customConfig a s in
     showsQuestion s' /\
     QuizView.quiz s' = QuizView.quiz s /\
     (QuizView.isSubmitted s = true ->
      QuizView.userAnswers s' = QuizView.userAnswers s
      /\ QuizView.completed s' = QuizView.completed s)) /\
  (forall (actions : list QuizView.Action) (s : QuizView.State),
     showsQuestion s ->
     let s' := QuizView.actAll None actions s in
     showsQuestion s' /\
     QuizView.quiz s' = QuizView.quiz s /\
     (List.length (QuizView.completed s') <= 1)%nat /\
     (forall q score,
        QuizView.quiz s = Some q -> In score (QuizView.completed s') ->
        (0 <= score <= Z.of_nat (List.length (Quiz.questions q)))%Z) /\
     (QuizView.isSubmitted s = true ->
      QuizView.userAnswers s' = QuizView.userAnswers s
      /\ QuizView.completed s' = QuizView.completed s)).
Proof.
  split.
  { intros customConfig a s H. cbv zeta.
    split; [now apply act_keeps|]. split; [apply act_keeps_quiz|].
    intros Hs. now destruct (act_keeps_submitted customConfig a s Hs) as [_ [S2 S3]]. }
  intros actions s H. cbv zeta.
  assert (Hall : showsQuestion (QuizView.actAll None actions s)
                 /\ QuizView.quiz (QuizView.actAll None actions s)
                    = QuizView.quiz s
                 /\ (QuizView.isSubmitted s = true ->
                     QuizView.userAnswers (QuizView.actAll None actions s)
                       = QuizView.userAnswers s
                     /\ QuizView.completed (QuizView.actAll None actions s)
                        = QuizView.completed s)).
  { unfold QuizView.actAll. revert s H.
    induction actions as [|a actions IH]; intros s H; cbn [fold_left].
    - auto.
    - destruct (IH (QuizView.act None a s) (act_keeps None a s H))
        as [I1 [I2 I3]].
      split; [exact I1|]. split; [now rewrite I2, act_keeps_quiz|].
      intros Hs. destruct (act_keeps_submitted None a s Hs) as [S1 [S2 S3]].
      destruct (I3 S1) as [I4 I5]. split; congruence. }
  destruct Hall as [Hshows [Hquiz Hfrozen]].
  split; [exact Hshows|]. split; [exact Hquiz|].
  destruct Hshows as [q' [Hq' [_ [_ Hc]]]].
  split; [|split; [|exact Hfrozen]].
  - rewrite Hc. destruct (QuizView.isSubmitted _); cbn; lia.
  - intros q score Hq Hin. rewrite Hquiz, Hq in Hq'. injection Hq' as <-.
    rewrite Hc in Hin. destruct (QuizView.isSubmitted _); [|contradiction].
    destruct Hin as [<- | []]. apply finalScore_bounds.
Qed.

Lemma quiz_actions_keep_the_view_consistent_witness :
  let s := QuizView.mkState (Some (GeminiServiceDemo.getMockQuiz "Cells" 2)) 0
             [None; None] false 0 false false false None None [] in
  showsQuestion
    (QuizView.actAll None
       [QuizView.OptionClick 1; QuizView.Next; QuizView.OptionClick 0;
        QuizView.Next; QuizView.ReviewAnswers; QuizView.OptionClick 1]
       s).
Proof.
  cbv zeta.
  refine (proj1 (proj2 quiz_actions_keep_the_view_consistent
    [QuizView.OptionClick 1; QuizView.Next; QuizView.OptionClick 0;
     QuizView.Next; QuizView.ReviewAnswers; QuizView.OptionClick 1]
    (QuizView.mkState (Some (GeminiServiceDemo.getMockQuiz "Cells" 2)) 0
       [None; None] false 0 false false false None None []) _)).
  exists (GeminiServiceDemo.getMockQuiz "Cells" 2).
  split; [reflexivity|]. split; [vm_compute; lia|]. split; reflexivity.
Defined.

Lemma sliceTo_firstn {A} (n : Z) (l : list A) :
  (0 <= n)%Z ->
  (if (n <? Z.of_nat (List.length l))%Z then JS.sliceTo n l else l)
  = firstn (Z.to_nat n) l.
Proof.
  intros Hn. destruct (Z.ltb_spec n (Z.of_nat (List.length l))).
  - unfold JS.sliceTo. destruct (Z.ltb_spec n 0); [lia | reflexivity].
  - symmetry. apply firstn_all2. lia.
Qed.

(** X20: the quiz shown respects the count asked for.  For a custom
    quiz with a count that is not negative, once the service has
    resolved, [fetchQuiz] shows the first [count] questions of the quiz
    received (all of them if there are fewer), with one empty answer
    slot per question and the loading flag off; if at least one
    question is left, the view shows question 1 of that quiz.  If the
    service rejects, no quiz is set and the loading flag is off.  With
    the service in demo mode the quiz has exactly [count] questions and
    no request is sent. *)
Theorem fetchQuiz_respects_the_count
  (courseTitle : string) (c : QuizView.CustomConfig)
  (generateBatchQuiz : string -> string -> Z -> Async World Quiz.t)
  (generateQuiz : string -> Async World Quiz.t) (now : Z) (w : World) :
  (0 <= QuizView.count c)%Z ->
  let run := generateBatchQuiz (QuizView.topic c) (QuizView.level c)
               (QuizView.count c) w in
  let fetched := QuizView.fetchQuiz courseTitle (Some c) generateBatchQuiz
                   generateQuiz now QuizView.initialState w in
  snd fetched = snd (fst run) /\
  QuizView.isLoading (fst fetched) = false /\
  match fst (fst run) with
  | Resolved data =>
      let questions := firstn (Z.to_nat (QuizView.count c)) (Quiz.questions data) in
      QuizView.quiz (fst fetched) = Some (Quiz.mk (Quiz.title data) questions)
      /\ QuizView.userAnswers (fst fetched)
         = repeat None (List.length questions)
      /\ (List.length questions <= Z.to_nat (QuizView.count c))%nat
      /\ (questions <> [] -> showsQuestion (fst fetched))
      /\ (forall apiKey parseQuiz,
            GeminiServiceDemo.isMockMode apiKey = true ->
            generateBatchQuiz = GeminiServiceDemo.generateBatchQuiz apiKey parseQuiz ->
            List.length questions = Z.to_nat (QuizView.count c)
            /\ snd fetched = w)
  | Rejected _ => QuizView.quiz (fst fetched) = None
  end.
Proof.
  intros Hcount. cbv zeta. unfold QuizView.fetchQuiz.
  destruct (generateBatchQuiz (QuizView.topic c) (QuizView.level c)
              (QuizView.count c) w) as [[[data|e] w1] ev] eqn:Hrun;
    cbn [fst snd QuizView.isLoading QuizView.quiz QuizView.userAnswers];
    [|repeat split].
  rewrite (sliceTo_firstn _ _ Hcount).
  split; [reflexivity|]. split; [reflexivity|]. split; [reflexivity|].
  split; [reflexivity|]. split; [apply firstn_le_length|]. split.
  - intros Hne. eexists. split; [reflexivity|].
    cbn [QuizView.currentQuestionIndex QuizView.initialState Quiz.questions
         QuizView.userAnswers QuizView.completed QuizView.isSubmitted].
    split; [|split; [apply repeat_length | reflexivity]].
    destruct (firstn (Z.to_nat (QuizView.count c)) (Quiz.questions data));
      [congruence | cbn; lia].
  - intros apiKey parseQuiz Hmock ->.
    rewrite (mock_batchQuiz apiKey parseQuiz Hmock w) in Hrun.
    injection Hrun as <- <- _. split; [|reflexivity].
    unfold GeminiServiceDemo.getMockQuiz. cbn [Quiz.questions].
    rewrite firstn_all2; rewrite length_map, length_seq; lia.
Qed.

Lemma fetchQuiz_respects_the_count_witness :
  let c := QuizView.mkConfig "Cells" "100 Level" 3 None in
  let fetched :=
    QuizView.fetchQuiz "Biology" (Some c)
      (GeminiServiceDemo.generateBatchQuiz None
         (fun _ => Rejected (typeError "Unexpected end of JSON input")))
      (GeminiServiceDemo.generateQuiz None
         (fun _ => Rejected (typeError "Unexpected end of JSON input")))
      0 QuizView.initialState (constWorld (Rejected tooManyRequests)) in
  QuizView.isLoading (fst fetched) = false.
Proof.
  cbv zeta.
  refine (proj1 (proj2 (fetchQuiz_respects_the_count "Biology"
    (QuizView.mkConfig "Cells" "100 Level" 3 None)
    (GeminiServiceDemo.generateBatchQuiz None
       (fun _ => Rejected (typeError "Unexpected end of JSON input")))
    (GeminiServiceDemo.generateQuiz None
       (fun _ => Rejected (typeError "Unexpected end of JSON input")))
    0 (constWorld (Rejected tooManyRequests)) _))).
  cbn. lia.
Defined.

Lemma fetchQuiz_keeps_submitted courseTitle customConfig generateBatchQuiz
  generateQuiz now s w :
  QuizView.isSubmitted
    (fst (QuizView.fetchQuiz courseTitle customConfig generateBatchQuiz
            generateQuiz now s w))
  = QuizView.isSubmitted s.
Proof.
  unfold QuizView.fetchQuiz.
  destruct (match customConfig with
            | Some c => generateBatchQuiz (QuizView.topic c) (QuizView.level c)
                          (QuizView.count c) w
            | None => generateQuiz courseTitle w
            end) as [[[data|e] w1] ev]; reflexivity.
Qed.

Lemma render_not_ticking customConfig s' m :
  QuizView.ticking m = false ->
  (QuizView.isSubmitted (QuizView.state m) = true ->
   QuizView.isSubmitted s' = true) ->
  QuizView.ticking (QuizView.render customConfig s' m) = false.
Proof.
  intros Hm Hs. unfold QuizView.render. cbn [QuizView.ticking].
  destruct (QuizView.isSubmitted (QuizView.state m)) eqn:E.
  - now rewrite (Hs eq_refl).
  - destruct (QuizView.isSubmitted s') eqn:E'; cbn [Bool.eqb]; [|exact Hm].
    unfold QuizView.timerEffect. rewrite E'. cbn [negb].
    now rewrite andb_false_r.
Qed.

(** X21: the countdown of a timed quiz never starts.  The effect that
    starts the interval depends on [isSubmitted] and [isTestMode] only.
    It runs after the first render, when the end time is not yet set
    because [fetchQuiz] is still waiting for the service, and again only
    once the quiz is submitted, when it starts nothing.  So for fixed
    props, whatever the service answers and whatever the user does, the
    interval is not running and the time left is the one [fetchQuiz]
    set. *)
Theorem quiz_countdown_never_starts
  (courseTitle : string) (customConfig : option QuizView.CustomConfig)
  (generateBatchQuiz : string -> string -> Z -> Async World Quiz.t)
  (generateQuiz : string -> Async World Quiz.t)
  (now : Z) (w : World) (actions : list QuizView.Action) :
  let m := QuizView.session courseTitle customConfig generateBatchQuiz
             generateQuiz now w actions in
  let fetched := fst (QuizView.fetchQuiz courseTitle customConfig
                        generateBatchQuiz generateQuiz now
                        QuizView.initialState w) in
  QuizView.ticking m = false /\
  QuizView.state m = QuizView.actAll customConfig actions fetched /\
  QuizView.timeLeft (QuizView.state m) = QuizView.timeLeft fetched.
Proof.
  cbv zeta. unfold QuizView.session, QuizView.actAll.
  set (m0 := QuizView.render customConfig _ (QuizView.mount customConfig)).
  assert (H0 : QuizView.ticking m0 = false).
  { apply render_not_ticking.
    - unfold QuizView.mount, QuizView.timerEffect.
      cbn [QuizView.ticking QuizView.endTime QuizView.initialState].
      now rewrite andb_false_r.
    - discriminate. }
  assert (Hs0 : QuizView.state m0
                = fst (QuizView.fetchQuiz courseTitle customConfig
                         generateBatchQuiz generateQuiz now
                         QuizView.initialState w)) by reflexivity.
  rewrite <- Hs0. clearbody m0. clear Hs0.
  revert m0 H0. induction actions as [|a actions IH]; intros m0 H0;
    cbn [fold_left]; [now repeat split|].
  specialize (IH (QuizView.render customConfig
                    (QuizView.act customConfig a (QuizView.state m0)) m0)).
  cbn [QuizView.render QuizView.state] in IH.
  destruct IH as [I1 [I2 I3]].
  - apply render_not_ticking; [exact H0|].
    intros Hs. now apply act_keeps_submitted.
  - split; [exact I1|]. split; [exact I2|]. rewrite I3.
    destruct m0 as [s t]. cbn [QuizView.state].
    destruct s as [quiz index answers answered score loading submitted review
                   left_ end_ completed].
    destruct a as [optionIndex| | | | | |]; cbn [QuizView.act];
      unfold QuizView.handleOptionClick, QuizView.handleNext,
        QuizView.handleFinishTest, QuizView.handleReviewNext,
        QuizView.handlePrevious, QuizView.handleReviewAnswers,
        QuizView.handleBackToScore, QuizView.setIndex, QuizView.setReview;
      cbn;
      repeat match goal with
             | |- context [match ?x with _ => _ end] => destruct x
             end; reflexivity.
Qed.
